(** * KFDA food download script: a shallow embedding of
      scripts/download_kfda_foods.py and the properties of its
      normalisation, deduplication and pagination code.

    Modelling conventions.
    - A Python [str] whose characters the code inspects (a field value
      of a raw item, a field of a record, the body of a response) is a
      [str]: the list of its Unicode code points.  The character classes
      are those of CPython: [str.strip] and the pattern class [\s]
      remove the 29 code points of [str.isspace]; the pattern class [\d]
      and [float] read every Unicode decimal digit (the 66 runs of ten
      digits of Unicode 14, the table of CPython 3.11), while [float]
      skips at the margins, of the ASCII range, TAB to CR and the space
      only.
    - A text that the code only compares with a constant or puts
      together (a key of a [dict], a result code, the URL of a request)
      is a [string].
    - A Python [float] is a binary64 value, the primitive [float] of
      [Floats]; parsing and rounding are computed exactly on integers
      and rounded once with [SpecFloat].
    - Python [int]s are [Z]; a [dict] read through [get] is a [gmap].
    - The network and the clock are the environment: a run of
      [download_all_foods] consumes a script of fetch results and
      produces the trace of the pages it requested and the waits. *)

From Stdlib Require Import ZArith NArith Lia Bool Ascii String Floats SpecFloat.
From Stdlib Require DecimalString DecimalZ Uint63.
From stdpp Require Import base option list strings gmap.

Set Warnings "-inexact-float".
Set Warnings "-clear-no-such-hyp".

Local Open Scope string_scope.
Local Open Scope list_scope.
Local Open Scope Z_scope.

(* ===================================================================== *)
(** ** Python strings *)

(** A text as the list of its code points. *)
Abbreviation str := (list N).

(** The code points that the code and the grammar of [float] name. *)
Abbreviation LF := (10%N).
Abbreviation SPACE := (32%N).
Abbreviation PLUS := (43%N).
Abbreviation COMMA := (44%N).
Abbreviation MINUS := (45%N).
Abbreviation FULL_STOP := (46%N).
Abbreviation DIGIT_ZERO := (48%N).
Abbreviation LESS_THAN := (60%N).
Abbreviation QUESTION_MARK := (63%N).
Abbreviation LETTER_E := (69%N).
Abbreviation LOW_LINE := (95%N).
Abbreviation SMALL_E := (101%N).

(** The text of a literal of the source, all of whose characters are
    ASCII. *)
Definition lit (s : string) : str := map N_of_ascii (list_ascii_of_string s).

#[global] Arguments lit : simpl never.

Module PyStr.

(** [str.isspace] for one character, which is also the class [\s] of a
    [str] pattern: TAB, LF, VT, FF, CR, the separators FS GS RS US, the
    space, NEL, the no-break space, and the space characters of the
    other planes up to the ideographic space U+3000. *)
Definition is_space (c : N) : bool :=
  ((9 <=? c) && (c <=? 13) || (28 <=? c) && (c <=? 32)
   || (c =? 133) || (c =? 160) || (c =? 5760)
   || (8192 <=? c) && (c <=? 8202)
   || (c =? 8232) || (c =? 8233) || (c =? 8239) || (c =? 8287)
   || (c =? 12288))%N.

(** The code points of the digit zero of every decimal system of
    Unicode 14; the ten digits of a system follow each other. *)
Definition decimal_zeros : list N :=
  [48; 1632; 1776; 1984; 2406; 2534; 2662; 2790; 2918; 3046; 3174; 3302;
   3430; 3558; 3664; 3792; 3872; 4160; 4240; 6112; 6160; 6470; 6608; 6784;
   6800; 6992; 7088; 7232; 7248; 42528; 43216; 43264; 43472; 43504; 43600;
   44016; 65296; 66720; 68912; 69734; 69872; 69942; 70096; 70384; 70736;
   70864; 71248; 71360; 71472; 71904; 72016; 72784; 73040; 73120; 92768;
   92864; 93008; 120782; 120792; 120802; 120812; 120822; 123200; 123632;
   125264; 130032]%N.

(** The value of a decimal digit, [None] for any other character. *)
Definition decimal_value (c : N) : option N :=
  match List.find (fun z => (z <=? c) && (c <? z + 10))%N decimal_zeros with
  | Some z => Some (c - z)%N
  | None => None
  end.

(** [str.isdecimal] for one character, which is also the class [\d] of
    a [str] pattern. *)
Definition is_decimal (c : N) : bool :=
  match decimal_value c with
  | Some _ => true
  | None => false
  end.

(** What is left of [s] after its longest prefix of [p] characters. *)
Fixpoint lstrip_by (p : N -> bool) (s : str) : str :=
  match s with
  | c :: s' => if p c then lstrip_by p s' else s
  | [] => []
  end.

(** What is left of [s] without its longest suffix of [p] characters: a
    [p] character is dropped exactly when everything after it is
    dropped too. *)
Fixpoint rstrip_by (p : N -> bool) (s : str) : str :=
  match s with
  | c :: s' =>
      match rstrip_by p s' with
      | [] => if p c then [] else [c]
      | r => c :: r
      end
  | [] => []
  end.

Definition strip_by (p : N -> bool) (s : str) : str :=
  rstrip_by p (lstrip_by p s).

(** [s.lstrip()], [s.rstrip()] and [s.strip()] *)
Abbreviation lstrip := (lstrip_by is_space).
Abbreviation rstrip := (rstrip_by is_space).
Abbreviation strip := (strip_by is_space).

(** [s.replace(c, '')] for a one-character [c]. *)
Fixpoint remove_char (c : N) (s : str) : str :=
  match s with
  | d :: s' => if (d =? c)%N then remove_char c s' else d :: remove_char c s'
  | [] => []
  end.

(** Python truthiness of a [str]: [bool(s)]. *)
Definition nonempty (s : str) : bool :=
  match s with [] => false | _ => true end.

(** [s == t] *)
Fixpoint eqb (s t : str) : bool :=
  match s, t with
  | [], [] => true
  | c :: s', d :: t' => (c =? d)%N && eqb s' t'
  | _, _ => false
  end.

(** ASCII lower-casing, for the case-insensitive words of [float]. *)
Definition lower (c : N) : N :=
  if ((65 <=? c) && (c <=? 90))%N then (c + 32)%N else c.

Definition lowercase (s : str) : str := map lower s.

(** Longest prefix of characters satisfying [p], and the rest. *)
Fixpoint span (p : N -> bool) (s : str) : str * str :=
  match s with
  | c :: s' =>
      if p c then let '(a, b) := span p s' in (c :: a, b) else ([], s)
  | [] => ([], [])
  end.

Fixpoint all_chars (p : N -> bool) (s : str) : bool :=
  match s with
  | c :: s' => p c && all_chars p s'
  | [] => true
  end.

End PyStr.

#[global] Arguments PyStr.is_space : simpl never.
#[global] Arguments PyStr.decimal_value : simpl never.
#[global] Arguments PyStr.is_decimal : simpl never.
#[global] Arguments PyStr.lower : simpl never.

(* ===================================================================== *)
(** ** Python floats: [float(str)] and [round(x, 2)] *)

Module PyFloat.
Import PyStr.

Definition prec : Z := 53.
Definition emax : Z := 1024.

(** The binary64 value nearest to [±num/den] (ties to even), for
    positive [num] and [den]; overflow gives an infinity and underflow a
    signed zero, as [strtod] does. *)
Definition nearest_ratio (neg : bool) (num den : positive) : float :=
  SF2Prim (SFdiv prec emax (S754_finite neg num 0) (S754_finite false den 0)).

Definition signed_zero (neg : bool) : float := SF2Prim (S754_zero neg).
Definition signed_infinity (neg : bool) : float := SF2Prim (S754_infinity neg).

(** The correctly rounded value of the decimal [±m * 10^e]. *)
Definition of_decimal (neg : bool) (m e : Z) : float :=
  match m with
  | Zpos p =>
      if 0 <=? e
      then nearest_ratio neg (p * Z.to_pos (10 ^ e)) 1
      else nearest_ratio neg p (Z.to_pos (10 ^ (- e)))
  | _ => signed_zero neg
  end.

(** What [float] reads in place of a character: an ASCII character is
    read as it is, any other whitespace as a space and any other decimal
    digit as the ASCII digit of its value.  A character that is none of
    these makes [float] fail; it is read as a question mark, which the
    grammar rejects wherever it stands. *)
Definition to_ascii (c : N) : N :=
  if (c <? 128)%N then c
  else if is_space c then SPACE
  else match decimal_value c with
       | Some d => (DIGIT_ZERO + d)%N
       | None => QUESTION_MARK
       end.

(** The whitespace that [float] skips at both ends once the text is
    ASCII: TAB, LF, VT, FF, CR and the space, not the separators FS to
    US. *)
Definition is_c_space (c : N) : bool :=
  ((9 <=? c) && (c <=? 13) || (c =? SPACE))%N.

Definition is_ascii_digit (c : N) : bool :=
  ((DIGIT_ZERO <=? c) && (c <=? 57))%N.

Definition digit_value (c : N) : Z := Z.of_N c - 48.

(** Value of a run of ASCII digits. *)
Fixpoint digits_value_from (acc : Z) (s : str) : Z :=
  match s with
  | c :: s' => digits_value_from (10 * acc + digit_value c) s'
  | [] => acc
  end.
Definition digits_value (s : str) : Z := digits_value_from 0 s.

(** Underscores of a numeric literal: allowed only between two digits.
    Returns the text without them, or [None] when one is misplaced. *)
Fixpoint drop_underscores (prev : option N) (s : str) : option str :=
  match s with
  | c :: s' =>
      if (c =? LOW_LINE)%N then
        match prev with
        | Some p => if is_ascii_digit p then drop_underscores (Some c) s' else None
        | None => None
        end
      else if match prev with
              | Some p => (p =? LOW_LINE)%N && negb (is_ascii_digit c)
              | None => false
              end
      then None
      else option_map (cons c) (drop_underscores (Some c) s')
  | [] =>
      match prev with
      | Some p => if (p =? LOW_LINE)%N then None else Some []
      | None => Some []
      end
  end.

(** An optional sign: [(is_negative, rest)]. *)
Definition take_sign (s : str) : bool * str :=
  match s with
  | c :: s' =>
      if (c =? MINUS)%N then (true, s')
      else if (c =? PLUS)%N then (false, s')
      else (false, s)
  | [] => (false, [])
  end.

(** [digits [. digits] [(e|E) [sign] digits]] with at least one digit in
    the mantissa, up to the end of the text: the mantissa as an integer
    and the decimal exponent. *)
Definition parse_decimal (s : str) : option (Z * Z) :=
  let '(ip, r1) := span is_ascii_digit s in
  let '(fp, r2) :=
    match r1 with
    | c :: r => if (c =? FULL_STOP)%N then span is_ascii_digit r else ([], r1)
    | [] => ([], r1)
    end in
  if negb (nonempty ip || nonempty fp) then None else
  let m := digits_value (ip ++ fp) in
  let scale := - Z.of_nat (length fp) in
  match r2 with
  | [] => Some (m, scale)
  | c :: r3 =>
      if (c =? SMALL_E)%N || (c =? LETTER_E)%N then
        let '(eneg, r4) := take_sign r3 in
        let '(ed, r5) := span is_ascii_digit r4 in
        if nonempty ed && negb (nonempty r5)
        then Some (m, (if eneg then - digits_value ed else digits_value ed) + scale)
        else None
      else None
  end.

(** [float(s)] for a [str] argument; [None] stands for [ValueError]. *)
Definition of_string (s : str) : option float :=
  match drop_underscores None (strip_by is_c_space (map to_ascii s)) with
  | None => None
  | Some t =>
      let '(neg, body) := take_sign t in
      let word := lowercase body in
      if eqb word (lit "inf") || eqb word (lit "infinity") then Some (signed_infinity neg)
      else if eqb word (lit "nan") then Some nan
      else
        match parse_decimal body with
        | Some (m, e) => Some (of_decimal neg m e)
        | None => None
        end
  end.

(** Nearest integer to [num/den], ties to even, for [0 <= num], [0 < den]. *)
Definition round_half_even (num den : Z) : Z :=
  let q := num / den in
  let r := num mod den in
  match 2 * r ?= den with
  | Lt => q
  | Gt => q + 1
  | Eq => if Z.even q then q else q + 1
  end.

(** [round(x, 2)]: the exact value of [x] is rounded to a multiple of
    1/100 (ties to even) and that decimal is converted back to the
    nearest float; zeros, infinities and NaN round to themselves. *)
Definition round2 (x : float) : float :=
  match Prim2SF x with
  | S754_finite neg m e =>
      let n := if 0 <=? e
               then Zpos m * 100 * 2 ^ e
               else round_half_even (Zpos m * 100) (2 ^ (- e)) in
      match n with
      | Zpos p => nearest_ratio neg p 100
      | _ => signed_zero neg
      end
  | _ => x
  end.

End PyFloat.

#[global] Arguments PyFloat.to_ascii : simpl never.
#[global] Arguments PyFloat.is_c_space : simpl never.
#[global] Arguments PyFloat.is_ascii_digit : simpl never.

(* ===================================================================== *)
(** ** The two [re.match] patterns of [parse_food_item] *)

Module Re.
Import PyStr.

(** Greedy [p*] followed by the rest of the pattern [k], which receives
    the text matched by the repetition and what follows it.  When [k]
    fails the repetition gives back one character and [k] is tried
    again: the backtracking order of Python's [re]. *)
Fixpoint star {R : Type} (p : N -> bool) (s : str)
    (k : str -> str -> option R) : option R :=
  match s with
  | c :: s' =>
      if p c then
        match star p s' (fun m rest => k (c :: m) rest) with
        | Some r => Some r
        | None => k [] s
        end
      else k [] s
  | [] => k [] []
  end.

(** Greedy [p+]. *)
Definition plus {R : Type} (p : N -> bool) (s : str)
    (k : str -> str -> option R) : option R :=
  match s with
  | c :: s' => if p c then star p s' (fun m rest => k (c :: m) rest) else None
  | [] => None
  end.

(** The class [[\d,.]]. *)
Definition numeric_char (c : N) : bool :=
  is_decimal c || (c =? COMMA)%N || (c =? FULL_STOP)%N.

(** [.] without DOTALL: anything but a line feed. *)
Definition dot (c : N) : bool := negb (c =? LF)%N.

(** [$] without MULTILINE: at the end, or before a final line feed. *)
Definition at_end (s : str) : bool :=
  match s with
  | [] => true
  | [c] => (c =? LF)%N
  | _ => false
  end.

(** [re.match] of the first pattern, in verbose form
    [^ ( [\d,.]+ ) \s* ( .* ) $]: groups 1 and 2. *)
Definition match_number_unit (s : str) : option (str * str) :=
  plus numeric_char s (fun g1 r1 =>
    star is_space r1 (fun _ r2 =>
      star dot r2 (fun g2 r3 =>
        if at_end r3 then Some (g1, g2) else None))).

(** [re.match] of the second pattern, [^ ( [\d,.]+ )]: group 1. *)
Definition match_number (s : str) : option str :=
  plus numeric_char s (fun g1 _ => Some g1).

End Re.

#[global] Arguments Re.numeric_char : simpl never.
#[global] Arguments Re.dot : simpl never.

(* ===================================================================== *)
(** ** Raw items and canonical records *)

(** A field value of a raw item as the API sends it: a JSON string or
    [null] (Python [None]). *)
Inductive json_value :=
  | JNull
  | JStr (s : str).

#[global] Instance json_value_eq_dec : EqDecision json_value.
Proof. solve_decision. Defined.

(** [str(v)] *)
Definition py_str (v : json_value) : str :=
  match v with
  | JNull => lit "None"
  | JStr s => s
  end.

(** [bool(v)] *)
Definition truthy (v : json_value) : bool :=
  match v with
  | JNull => false
  | JStr s => PyStr.nonempty s
  end.

(** A raw item: the [dict] decoded from one JSON object. *)
Abbreviation RawItem := (gmap string json_value).

(** [item.get(key)]: a missing key reads as [None]. *)
Definition get (item : RawItem) (key : string) : json_value :=
  default JNull (item !! key).

(** [item.get(key) or ''] for the text fields. *)
Definition get_or_empty (item : RawItem) (key : string) : str :=
  let v := get item key in if truthy v then py_str v else [].

(** [s or None] *)
Definition or_None (s : str) : option str :=
  if PyStr.nonempty s then Some s else None.

(** The record built by [parse_food_item].  [foodCd] is what
    [food.get("foodCd")] reads in [deduplicate_foods]: [None] when a
    dict has no such key or holds [None] there. *)
Record food := mkFood {
  foodCd : option str;
  name : str;
  calories : float;
  protein : option float;
  fat : option float;
  carbohydrates : option float;
  sodium : option float;
  fiber : option float;
  sugar : option float;
  servingSize : option float;
  servingUnit : option str;
  groupName : option str;
  makerName : option str
}.

(** [safe_float(value)] *)
Definition safe_float (value : json_value) : option float :=
  match value with
  | JNull => None
  | _ =>
      if negb (PyStr.nonempty (PyStr.strip (py_str value))) then None
      else
        let cleaned := PyStr.remove_char COMMA (PyStr.strip (py_str value)) in
        match PyFloat.of_string cleaned with
        | Some x => Some (PyFloat.round2 x)
        | None => None                      (* except ValueError *)
        end
  end.

(** Lines 89-101: the size and unit read from the [Z10500] descriptor. *)
Definition serving_primary (item : RawItem) : option float * option str :=
  let z_field := get item "Z10500" in
  if truthy z_field && PyStr.nonempty (PyStr.strip (py_str z_field)) then
    let z_str := PyStr.strip (py_str z_field) in
    match Re.match_number_unit z_str with
    | Some (g1, g2) => (safe_float (JStr g1), or_None (PyStr.strip g2))
    | None => (None, None)
    end
  else (None, None).

(** Lines 104-110: the size read from [SERVING_SIZE]. *)
Definition serving_fallback (item : RawItem) : option float :=
  let srv := default (JStr []) (item !! "SERVING_SIZE") in
  if truthy srv then
    match Re.match_number (PyStr.strip (py_str srv)) with
    | Some g1 => safe_float (JStr g1)
    | None => None
    end
  else None.

(** Lines 88-110: [(serving_size, serving_unit)]. *)
Definition serving (item : RawItem) : option float * option str :=
  let '(serving_size, serving_unit) := serving_primary item in
  let serving_size :=
    match serving_size with
    | None => serving_fallback item
    | Some _ => serving_size
    end in
  (serving_size, serving_unit).

(** Lines 125-126: the manufacturer name. *)
Definition maker_name (item : RawItem) : option str :=
  let v := get item "MAKER_NM" in
  if truthy v && negb (PyStr.eqb (PyStr.strip (py_str v)) (lit "None"))
  then or_None (PyStr.strip (py_str (if truthy v then v else JStr [])))
  else None.

(** [parse_food_item(item)] *)
Definition parse_food_item (item : RawItem) : option food :=
  let food_cd := PyStr.strip (get_or_empty item "FOOD_CD") in
  let food_nm := PyStr.strip (get_or_empty item "FOOD_NM_KR") in
  if negb (PyStr.nonempty food_cd) || negb (PyStr.nonempty food_nm) then None else
  match safe_float (get item "AMT_NUM1") with
  | None => None
  | Some calories =>
      let '(serving_size, serving_unit) := serving item in
      Some {| foodCd := Some food_cd;
              name := food_nm;
              calories := calories;
              protein := safe_float (get item "AMT_NUM3");
              fat := safe_float (get item "AMT_NUM4");
              carbohydrates := safe_float (get item "AMT_NUM6");
              sodium := safe_float (get item "AMT_NUM13");
              fiber := safe_float (get item "AMT_NUM8");
              sugar := safe_float (get item "AMT_NUM7");
              servingSize := serving_size;
              servingUnit := serving_unit;
              groupName := or_None (PyStr.strip (get_or_empty item "FOOD_CAT1_NM"));
              makerName := maker_name item |}
  end.

(* ===================================================================== *)
(** ** Deduplication *)

(** [bool(food_cd)] for the value read by [food.get("foodCd")]. *)
Definition key_truthy (food_cd : option str) : bool :=
  match food_cd with
  | Some s => PyStr.nonempty s
  | None => false
  end.

(** The [for] loop of [deduplicate_foods], from the current [seen] and
    [unique] over the records still to visit. *)
Fixpoint dedupe_loop (seen : gset str) (unique : list food) (foods : list food)
    : list food :=
  match foods with
  | [] => unique
  | f :: rest =>
      match foodCd f with
      | Some food_cd =>
          if PyStr.nonempty food_cd && negb (bool_decide (food_cd ∈ seen))
          then dedupe_loop ({[food_cd]} ∪ seen) (unique ++ [f]) rest
          else dedupe_loop seen unique rest
      | None => dedupe_loop seen unique rest
      end
  end.

(** [deduplicate_foods(foods)] *)
Definition deduplicate_foods (foods : list food) : list food :=
  dedupe_loop ∅ [] foods.

(* ===================================================================== *)
(** ** The pagination loop *)

(** The [items] member of a response body: one object, a list of
    objects, or anything else. *)
Inductive json_items :=
  | ItemsDict (item : RawItem)
  | ItemsList (items : list RawItem)
  | ItemsOther.

(** The decoded response of [fetch_page]; [None] is a missing key. *)
Record RawPage := mkPage {
  resultCode : option string;
  totalCount : option Z;
  items : option json_items
}.

(** What one call of [fetch_page] does: it raises, or returns a page. *)
Inductive fetch_result :=
  | Raises
  | Returns (data : RawPage).

(** The argument of [time.sleep]. *)
Inductive seconds :=
  | IntSeconds (n : Z)
  | FloatSeconds (x : float).

Inductive event :=
  | EvFetch (page : Z)
  | EvSleep (d : seconds).

Definition PAGE_SIZE : Z := 100.
Definition RATE_LIMIT_DELAY : float := 0.2.
Definition max_retries : Z := 3.

(** The local variables of [download_all_foods]. *)
Record state := mkState {
  all_foods : list food;
  page_no : Z;
  total_count : option Z;
  fetched_count : Z;
  skipped_count : Z;
  retry_count : Z
}.

Definition initial_state : state :=
  {| all_foods := []; page_no := 1; total_count := None;
     fetched_count := 0; skipped_count := 0; retry_count := 0 |}.

Definition set_retry_count (st : state) (n : Z) : state :=
  {| all_foods := all_foods st; page_no := page_no st; total_count := total_count st;
     fetched_count := fetched_count st; skipped_count := skipped_count st;
     retry_count := n |}.

Definition set_page_no (st : state) (n : Z) : state :=
  {| all_foods := all_foods st; page_no := n; total_count := total_count st;
     fetched_count := fetched_count st; skipped_count := skipped_count st;
     retry_count := retry_count st |}.

(** The three [return] statements inside the loop, by the message
    printed before each: end of data (line 162), download complete
    (line 209), retries exceeded (line 221). *)
Inductive exit :=
  | DataEnd
  | Complete
  | RetriesExceeded.

(** How one pass through the [try] statement leaves it. *)
Inductive flow :=
  | Continue (st : state)      (* back to the test of the inner [while] *)
  | Break (st : state)         (* line 211 *)
  | Return (why : exit) (foods : list food).

(** [bool(l)] for a list. *)
Definition list_truthy {A : Type} (l : list A) : bool :=
  match l with [] => false | _ => true end.

(** Lines 180-184. *)
Definition items_list (items : option json_items) : list RawItem :=
  match items with
  | Some (ItemsDict item) => [item]
  | Some (ItemsList l) => l
  | Some ItemsOther => []
  | None => []
  end.

(** Lines 188-197: the skipped counter and [page_foods] after the items. *)
Fixpoint scan_items (include_all : bool) (items : list RawItem)
    (skipped : Z) (page_foods : list food) : Z * list food :=
  match items with
  | [] => (skipped, page_foods)
  | item :: rest =>
      if negb include_all && negb (bool_decide (get item "DB_CLASS_CM" = JStr (lit "01")))
      then scan_items include_all rest (skipped + 1) page_foods
      else
        match parse_food_item item with
        | Some f => scan_items include_all rest skipped (page_foods ++ [f])
        | None => scan_items include_all rest skipped page_foods
        end
  end.

(** Lines 174-211: a page whose result code is 00. *)
Definition process_page (include_all : bool) (st : state) (data : RawPage) : flow :=
  let total :=
    match total_count st with
    | None => default 0 (totalCount data)
    | Some t => t
    end in
  let items := items_list (items data) in
  let fetched := fetched_count st + Z.of_nat (length items) in
  let '(skipped, page_foods) := scan_items include_all items (skipped_count st) [] in
  let foods := all_foods st ++ page_foods in
  if negb (list_truthy items) || (total <=? fetched)
  then Return Complete foods
  else Break {| all_foods := foods; page_no := page_no st; total_count := Some total;
                fetched_count := fetched; skipped_count := skipped;
                retry_count := retry_count st |}.

(** Lines 151-221: one pass through the [try] statement, given what
    [fetch_page] did; the waits it makes and how it ends. *)
Definition try_page (include_all : bool) (st : state) (r : fetch_result)
    : list event * flow :=
  match r with
  | Returns data =>
      let result_code := default EmptyString (resultCode data) in
      if negb (String.eqb result_code "00") then
        if String.eqb result_code "03" then ([], Return DataEnd (all_foods st))
        else if String.eqb result_code "22" then
          ([EvSleep (IntSeconds 60)], Continue (set_retry_count st (retry_count st + 1)))
        else
          ([EvSleep (IntSeconds 5)], Continue (set_retry_count st (retry_count st + 1)))
      else ([], process_page include_all st data)
  | Raises =>
      let st' := set_retry_count st (retry_count st + 1) in
      if retry_count st' <? max_retries
      then ([EvSleep (IntSeconds (5 * retry_count st'))], Continue st')
      else ([], Return RetriesExceeded (all_foods st'))
  end.

(** How the inner [while] ends. *)
Inductive inner_exit :=
  | LoopLeft (st : state)                    (* control reaches line 223 *)
  | Returned (why : exit) (foods : list food)
  | Waiting (st : state).                    (* a fetch is pending: the script is used up *)

(** Lines 150-221: the inner [while], each fetch answered by the next
    entry of the script; the trace, the exit and the unused script. *)
Fixpoint inner_while (include_all : bool) (st : state) (script : list fetch_result)
    : list event * inner_exit * list fetch_result :=
  if retry_count st <? max_retries then
    match script with
    | [] => ([], Waiting st, [])
    | r :: script' =>
        let '(waits, fl) := try_page include_all st r in
        match fl with
        | Continue st' =>
            let '(tr, ex, rest) := inner_while include_all st' script' in
            (EvFetch (page_no st) :: waits ++ tr, ex, rest)
        | Break st' => (EvFetch (page_no st) :: waits, LoopLeft st', script')
        | Return why foods => (EvFetch (page_no st) :: waits, Returned why foods, script')
        end
    end
  else ([], LoopLeft st, script).

(** The result of a run. *)
Inductive outcome :=
  | Finished (why : exit) (foods : list food)
  | Pending (st : state)
  | OutOfFuel.

(** Lines 146-224: the outer [while True], at most [fuel] times round. *)
Fixpoint outer_while (fuel : nat) (include_all : bool) (st : state)
    (script : list fetch_result) : list event * outcome :=
  match fuel with
  | O => ([], OutOfFuel)
  | S fuel' =>
      let '(tr, ex, rest) := inner_while include_all (set_retry_count st 0) script in
      match ex with
      | LoopLeft st' =>
          let '(tr', out) :=
            outer_while fuel' include_all (set_page_no st' (page_no st' + 1)) rest in
          (tr ++ EvSleep (FloatSeconds RATE_LIMIT_DELAY) :: tr', out)
      | Returned why foods => (tr, Finished why foods)
      | Waiting st' => (tr, Pending st')
      end
  end.

(** [download_all_foods(api_key, include_all)] against a script of fetch
    results.  Every round of the outer loop takes at least one entry of
    the script, so one round more than its length is enough. *)
Definition download_all_foods (include_all : bool) (script : list fetch_result)
    : list event * outcome :=
  outer_while (S (length script)) include_all initial_state script.

(** The states of the controller as the specification names them. *)
Inductive run_state :=
  | FETCHING
  | DONE
  | ABORTED.

Definition run_state_of (out : outcome) : run_state :=
  match out with
  | Finished DataEnd _ => DONE
  | Finished Complete _ => DONE
  | Finished RetriesExceeded _ => ABORTED
  | Pending _ => FETCHING
  | OutOfFuel => FETCHING
  end.

(* ===================================================================== *)
(** ** Vocabulary of the statements *)

(** A text is blank: empty, or whitespace only. *)
Definition blank (s : str) : bool := PyStr.all_chars PyStr.is_space s.

(** A required text field is missing: the key is absent, or holds
    [None] or a blank text. *)
Definition text_missing (item : RawItem) (key : string) : Prop :=
  match item !! key with
  | Some (JStr s) => blank s = true
  | Some JNull => True
  | None => True
  end.

(** A numeric field is absent or does not parse: the key is absent, or
    holds [None], a blank text, or a text that [float] rejects once its
    margins and commas are removed. *)
Definition number_missing (item : RawItem) (key : string) : Prop :=
  match item !! key with
  | Some (JStr s) =>
      blank s = true
      \/ PyFloat.of_string (PyStr.remove_char COMMA (PyStr.strip s)) = None
  | Some JNull => True
  | None => True
  end.

(** The primary descriptor is absent or empty: the negation of the
    guard on line 92. *)
Definition primary_missing (item : RawItem) : bool :=
  negb (truthy (get item "Z10500")
        && PyStr.nonempty (PyStr.strip (py_str (get item "Z10500")))).

(** The guard on line 104: the secondary field is consulted. *)
Definition fallback_taken (item : RawItem) : bool :=
  match fst (serving_primary item) with
  | None => true
  | Some _ => false
  end.

(** The tail of the first pattern succeeds from the unit text on: no
    line feed before the end, except as the last character. *)
Definition line_ok (r : str) : bool :=
  Re.at_end (snd (PyStr.span Re.dot r)).

(** The same from the end of the numeric run on, across the whitespace. *)
Definition tail_ok (r : str) : bool :=
  line_ok (snd (PyStr.span PyStr.is_space r)).

(** The test on line 236 for a record [f] given the current [seen]. *)
Definition kept (seen : gset str) (f : food) : bool :=
  match foodCd f with
  | Some food_cd => PyStr.nonempty food_cd && negb (bool_decide (food_cd ∈ seen))
  | None => false
  end.

(** The value of [seen] once the loop has visited the records [foods]. *)
Fixpoint seen_after (seen : gset str) (foods : list food) : gset str :=
  match foods with
  | [] => seen
  | f :: rest =>
      match foodCd f with
      | Some food_cd =>
          if PyStr.nonempty food_cd && negb (bool_decide (food_cd ∈ seen))
          then seen_after ({[food_cd]} ∪ seen) rest
          else seen_after seen rest
      | None => seen_after seen rest
      end
  end.

(** The record carries the food code [cd]. *)
Definition has_code (cd : str) (f : food) : bool :=
  bool_decide (foodCd f = Some cd).

(** Events put in front of the trace of a run. *)
Definition prepend (evs : list event) (r : list event * outcome)
    : list event * outcome :=
  (evs ++ fst r, snd r).

(** The rest of a run from the test of the inner [while] (line 150) in
    state [st]: the inner loop, then lines 223-224 and the outer loop. *)
Definition resume (fuel : nat) (include_all : bool) (st : state)
    (script : list fetch_result) : list event * outcome :=
  let '(tr, ex, rest) := inner_while include_all st script in
  match ex with
  | LoopLeft st' =>
      let '(tr', out) :=
        outer_while fuel include_all (set_page_no st' (page_no st' + 1)) rest in
      (tr ++ EvSleep (FloatSeconds RATE_LIMIT_DELAY) :: tr', out)
  | Returned why foods => (tr, Finished why foods)
  | Waiting st' => (tr, Pending st')
  end.

(** Sample data: a response that only carries a result code, a
    successful page, and a representative item. *)
Definition code_page (code : string) : RawPage :=
  {| resultCode := Some code; totalCount := None; items := None |}.

Definition ok_page (total : Z) (l : list RawItem) : RawPage :=
  {| resultCode := Some "00"; totalCount := Some total; items := Some (ItemsList l) |}.

Definition sample_item (cd nm kcal z10500 : string) : RawItem :=
  <[ "Z10500" := JStr (lit z10500) ]>
    (<[ "DB_CLASS_CM" := JStr (lit "01") ]>
      (<[ "AMT_NUM1" := JStr (lit kcal) ]>
        (<[ "FOOD_NM_KR" := JStr (lit nm) ]> {[ "FOOD_CD" := JStr (lit cd) ]}))).

Definition sample_food (cd nm : string) (kcal size : float) (u : string) : food :=
  {| foodCd := Some (lit cd); name := lit nm; calories := kcal;
     protein := None; fat := None; carbohydrates := None; sodium := None;
     fiber := None; sugar := None;
     servingSize := Some size; servingUnit := Some (lit u);
     groupName := None; makerName := None |}.

(** A text field as the records hold it: not empty, and without
    whitespace at either end. *)
Definition clean_text (s : str) : Prop :=
  s <> [] /\ PyStr.strip s = s.

(** The shape of the records that [parse_food_item] builds. *)
Definition well_formed (f : food) : Prop :=
  (exists cd, foodCd f = Some cd /\ clean_text cd)
  /\ clean_text (name f)
  /\ (forall u, servingUnit f = Some u -> clean_text u)
  /\ (forall g, groupName f = Some g -> clean_text g)
  /\ (forall m, makerName f = Some m -> clean_text m /\ m <> lit "None").

(** The keys of a raw item that [parse_food_item] reads. *)
Definition parse_keys : list string :=
  ["FOOD_CD"; "FOOD_NM_KR"; "AMT_NUM1"; "Z10500"; "SERVING_SIZE";
   "AMT_NUM3"; "AMT_NUM4"; "AMT_NUM6"; "AMT_NUM13"; "AMT_NUM8"; "AMT_NUM7";
   "FOOD_CAT1_NM"; "MAKER_NM"].

(** The first character of a text, if any, satisfies [p]. *)
Definition starts_with (p : N -> bool) (s : str) : bool :=
  match s with
  | c :: _ => p c
  | [] => false
  end.

(** The spellings of a character and of a lower-case word up to the
    case of their ASCII letters. *)
Definition char_variants (c : N) : list N :=
  if ((97 <=? c) && (c <=? 122))%N then [c; (c - 32)%N] else [c].

Fixpoint variants (w : str) : list str :=
  match w with
  | c :: r =>
      flat_map (fun v => map (fun d => d :: v) (char_variants c)) (variants r)
  | [] => [[]]
  end.

(** The test of line 191, negated: the item goes on to
    [parse_food_item]. *)
Definition selected (include_all : bool) (item : RawItem) : bool :=
  include_all || bool_decide (get item "DB_CLASS_CM" = JStr (lit "01")).

(** The page numbers requested along a trace, in order. *)
Definition fetched_pages (tr : list event) : list Z :=
  omap (fun e => match e with EvFetch p => Some p | EvSleep _ => None end) tr.

(** Page [p] asked [k1] times, then page [p + 1] asked [k2] times, and
    so on. *)
Fixpoint blocks (p : Z) (ks : list nat) : list Z :=
  match ks with
  | [] => []
  | k :: ks' => replicate k p ++ blocks (p + 1) ks'
  end.

(** The waits that a run makes. *)
Definition known_wait (e : event) : Prop :=
  match e with
  | EvFetch _ => True
  | EvSleep d =>
      d = IntSeconds 5 \/ d = IntSeconds 10 \/ d = IntSeconds 60
      \/ d = FloatSeconds RATE_LIMIT_DELAY
  end.

(** What holds of the local variables whenever the loop is about to
    fetch: the records are well formed, the page number is at least 1,
    the retry counter is not negative, and the records kept and the
    items skipped do not outnumber the items fetched. *)
Definition state_ok (st : state) : Prop :=
  Forall well_formed (all_foods st)
  /\ 1 <= page_no st
  /\ 0 <= retry_count st
  /\ 0 <= skipped_count st
  /\ Z.of_nat (length (all_foods st)) + skipped_count st <= fetched_count st.

(** A response as a well-behaved API sends it: success, with at least
    one item. *)
Definition good_page (data : RawPage) : Prop :=
  resultCode data = Some "00" /\ items_list (items data) <> [].

(* ===================================================================== *)
(** ** [fetch_page] and [main] *)

(** [str(n)] for an [int]. *)
Definition py_str_int (n : Z) : string :=
  DecimalString.NilEmpty.string_of_int (Z.to_int n).

Definition BASE_URL : string :=
  "https://apis.data.go.kr/1471000/FoodNtrCpntDbInfo02/getFoodNtrCpntDbInq02".

(** Lines 37-44: the URL of a request.  [urlencode] leaves the digits, a
    minus sign and the word json as they are; the key is put in as it
    is given. *)
Definition fetch_url (api_key : string) (page_no num_of_rows : Z) : string :=
  (BASE_URL ++ "?serviceKey=" ++ api_key ++ "&"
   ++ "pageNo=" ++ py_str_int page_no
   ++ "&numOfRows=" ++ py_str_int num_of_rows
   ++ "&type=json")%string.

(** What [urlopen] and [read] give for a request: an HTTP error, a
    network error, or the text of the body. *)
Inductive http_reply :=
  | HTTPError
  | URLError
  | Body (raw : str).

(** Line 50: the stripped body starts with the character [<]. *)
Definition looks_like_xml (raw : str) : bool :=
  starts_with (fun c => (c =? LESS_THAN)%N) (PyStr.strip raw).

Section FetchPage.
(** [json.loads], as far as the loop reads its result: the page decoded
    from a body, or [None] when it raises or gives no object. *)
Variable json_loads : str -> option RawPage.

(** Lines 46-59 of [fetch_page], given the reply to the request. *)
Definition fetch_page (reply : http_reply) : fetch_result :=
  match reply with
  | Body raw =>
      if looks_like_xml raw then Raises
      else
        match json_loads raw with
        | Some data => Returns data
        | None => Raises
        end
  | HTTPError => Raises
  | URLError => Raises
  end.

End FetchPage.

(** A reply that [fetch_page] turns into an exception whatever the JSON
    decoder does. *)
Definition refused (reply : http_reply) : bool :=
  match reply with
  | Body raw => looks_like_xml raw
  | HTTPError => true
  | URLError => true
  end.

Module Main.

(** The object written to the output file (lines 281-286). *)
Record output_data := mkOutput {
  version : Z;
  generatedAt : string;
  totalCount : Z;
  foods : list food
}.

(** How [main] ends: [sys.exit(code)], the output written, or the
    download still waiting for an answer. *)
Inductive result :=
  | SysExit (code : Z)
  | Dumped (data : output_data)
  | Unfinished.

(** Lines 269-286 of [main]: download, stop when nothing came, or
    deduplicate and assemble the output.  [now] is the text that
    [time.strftime] gives. *)
Definition main (now : string) (include_all : bool) (script : list fetch_result)
    : list event * result :=
  let '(tr, out) := download_all_foods include_all script in
  match out with
  | Finished _ foods =>
      if negb (list_truthy foods) then (tr, SysExit 1)
      else
        let foods := deduplicate_foods foods in
        (tr, Dumped {| version := 1; generatedAt := now;
                       totalCount := Z.of_nat (length foods); foods := foods |})
  | Pending _ => (tr, Unfinished)
  | OutOfFuel => (tr, Unfinished)
  end.

End Main.

(** The records that one answer contributes: those of its items when
    the result code is 00, none otherwise. *)
Definition page_records (include_all : bool) (r : fetch_result) : list food :=
  match r with
  | Returns data =>
      if String.eqb (default EmptyString (resultCode data)) "00"
      then omap parse_food_item (List.filter (selected include_all) (items_list (items data)))
      else []
  | Raises => []
  end.

(** Two states of runs that differ by the filter flag only: the same
    page, counters of fetched items and of attempts and total, and the
    records of the first among those of the second, in order. *)
Definition same_but_filter (st1 st2 : state) : Prop :=
  page_no st1 = page_no st2
  /\ total_count st1 = total_count st2
  /\ fetched_count st1 = fetched_count st2
  /\ retry_count st1 = retry_count st2
  /\ all_foods st1 `sublist_of` all_foods st2.

(** The records after one pass through the [try] statement. *)
Definition flow_records (fl : flow) : list food :=
  match fl with
  | Continue st' => all_foods st'
  | Break st' => all_foods st'
  | Return _ foods => foods
  end.

(** The records when the inner loop ends. *)
Definition exit_records (ex : inner_exit) : list food :=
  match ex with
  | LoopLeft st' => all_foods st'
  | Returned _ foods => foods
  | Waiting st' => all_foods st'
  end.

(** Two ways out of the [try] statement, of the inner loop and of a
    run that differ by the filter flag only. *)
Definition flow_same_but_filter (fl1 fl2 : flow) : Prop :=
  match fl1, fl2 with
  | Continue s1, Continue s2 => same_but_filter s1 s2
  | Break s1, Break s2 => same_but_filter s1 s2
  | Return w1 f1, Return w2 f2 => w1 = w2 /\ f1 `sublist_of` f2
  | _, _ => False
  end.

Definition exit_same_but_filter (ex1 ex2 : inner_exit) : Prop :=
  match ex1, ex2 with
  | LoopLeft s1, LoopLeft s2 => same_but_filter s1 s2
  | Waiting s1, Waiting s2 => same_but_filter s1 s2
  | Returned w1 f1, Returned w2 f2 => w1 = w2 /\ f1 `sublist_of` f2
  | _, _ => False
  end.

Definition outcome_same_but_filter (o1 o2 : outcome) : Prop :=
  match o1, o2 with
  | Finished w1 f1, Finished w2 f2 => w1 = w2 /\ f1 `sublist_of` f2
  | Pending s1, Pending s2 => same_but_filter s1 s2
  | OutOfFuel, OutOfFuel => True
  | _, _ => False
  end.

(** An answer that costs an attempt: an exception, or a result code
    other than 00 and 03. *)
Definition failing (r : fetch_result) : bool :=
  match r with
  | Raises => true
  | Returns data =>
      negb (String.eqb (default EmptyString (resultCode data)) "00")
      && negb (String.eqb (default EmptyString (resultCode data)) "03")
  end.

(** The wait after a failing answer that is the [attempt]-th on its page. *)
Definition failure_wait (attempt : Z) (r : fetch_result) : seconds :=
  match r with
  | Raises => IntSeconds (5 * attempt)
  | Returns data =>
      if String.eqb (default EmptyString (resultCode data)) "22"
      then IntSeconds 60 else IntSeconds 5
  end.

(** The primary descriptor yields a size and a unit, by the parts of
    the stripped text: the leading run of digits, commas and dots, the
    whitespace after it, the text up to the first line feed, and what
    is left, which has to be nothing or one last line feed. *)
Definition primary_by_parts (item : RawItem) : option float * option str :=
  match item !! "Z10500" with
  | Some (JStr z) =>
      let '(num, r1) := PyStr.span Re.numeric_char (PyStr.strip z) in
      let '(_, r2) := PyStr.span PyStr.is_space r1 in
      let '(unit_text, r3) := PyStr.span Re.dot r2 in
      if PyStr.nonempty num && Re.at_end r3
      then (safe_float (JStr num),
            match PyStr.strip unit_text with
            | [] => None
            | unit => Some unit
            end)
      else (None, None)
  | Some JNull => (None, None)
  | None => (None, None)
  end.

(** The size that the secondary field yields: that of the leading run
    of digits, commas and dots of its stripped text. *)
Definition fallback_by_parts (item : RawItem) : option float :=
  match item !! "SERVING_SIZE" with
  | Some (JStr v) =>
      let '(num, _) := PyStr.span Re.numeric_char (PyStr.strip v) in
      if PyStr.nonempty num then safe_float (JStr num) else None
  | Some JNull => None
  | None => None
  end.





(** The separators FS, GS, RS and US: whitespace for [str.strip], not
    for [float]. *)
Definition is_separator (c : N) : bool := ((28 <=? c) && (c <=? 31))%N.







(** The characters of a plain decimal once [float] has read them. *)
Definition plain_char (c : N) : bool :=
  PyFloat.is_ascii_digit c || (c =? FULL_STOP)%N.


(* ===================================================================== *)
(** * Properties *)

(** ** Strings *)

Section StringFacts.
Import PyStr.

Lemma nonempty_false (s : str) : nonempty s = false <-> s = [].
Proof. destruct s; simpl; split; congruence. Qed.

Lemma nonempty_true (s : str) : nonempty s = true <-> s <> [].
Proof. destruct s; simpl; split; congruence. Qed.

Lemma eqb_eq (s t : str) : eqb s t = true <-> s = t.
Proof.
  revert t. induction s as [|c s IH]; intros [|d t]; simpl;
    try (split; [discriminate|congruence]); [tauto|].
  rewrite andb_true_iff, N.eqb_eq, IH. split; [intros [-> ->]; reflexivity|].
  intros [= -> ->]. auto.
Qed.

Lemma eqb_neq (s t : str) : eqb s t = false <-> s <> t.
Proof.
  rewrite <- eqb_eq. destruct (eqb s t); split; congruence.
Qed.

Lemma lstrip_empty_iff (s : str) :
  lstrip s = [] <-> all_chars is_space s = true.
Proof.
  induction s as [|c s IH]; simpl; [tauto|].
  destruct (is_space c); simpl; [exact IH|].
  split; discriminate.
Qed.

Lemma rstrip_empty_iff (s : str) :
  rstrip s = [] <-> all_chars is_space s = true.
Proof.
  induction s as [|c s IH]; simpl; [tauto|].
  destruct (rstrip s) eqn:Hr.
  - destruct (is_space c); simpl; [tauto|]. split; discriminate.
  - split; [discriminate|].
    intros H. apply andb_true_iff in H as [_ H]. apply IH in H. discriminate.
Qed.

(** What [lstrip] leaves does not start with whitespace. *)
Lemma lstrip_head (s : str) :
  all_chars is_space (lstrip s) = true -> lstrip s = [].
Proof.
  induction s as [|c s IH]; simpl; [reflexivity|].
  destruct (is_space c) eqn:Hc; [exact IH|].
  simpl. rewrite Hc. discriminate.
Qed.

(** A text strips to nothing exactly when it is all whitespace. *)
Lemma strip_empty_iff (s : str) :
  strip s = [] <-> all_chars is_space s = true.
Proof.
  unfold strip_by. rewrite rstrip_empty_iff. split.
  - intros H. apply lstrip_empty_iff. now apply lstrip_head.
  - intros H. apply lstrip_empty_iff in H. now rewrite H.
Qed.

Lemma nonempty_strip (s : str) :
  nonempty (strip s) = negb (all_chars is_space s).
Proof.
  destruct (all_chars is_space s) eqn:H; simpl.
  - apply nonempty_false, strip_empty_iff, H.
  - apply nonempty_true. intros E. apply strip_empty_iff in E. congruence.
Qed.


Lemma all_chars_app (p : N -> bool) (a b : str) :
  all_chars p (a ++ b) = all_chars p a && all_chars p b.
Proof.
  induction a as [|c a IH]; [reflexivity|]. simpl. now rewrite IH, andb_assoc.
Qed.

Lemma all_chars_impl (p q : N -> bool) (s : str) :
  (forall c, p c = true -> q c = true) ->
  all_chars p s = true -> all_chars q s = true.
Proof.
  intros Hpq. induction s as [|c s IH]; [reflexivity|]. simpl.
  intros H. apply andb_true_iff in H as [Hc Hs]. now rewrite (Hpq c Hc), IH.
Qed.

Lemma all_chars_map (p : N -> bool) (f : N -> N) (s : str) :
  all_chars p (map f s) = all_chars (fun c => p (f c)) s.
Proof. induction s as [|c s IH]; [reflexivity|]. simpl. now rewrite IH. Qed.

End StringFacts.

(** Stripping by any class of characters. *)
Section StripBy.
Import PyStr.
Variable p : N -> bool.

Lemma lstrip_by_app (a s : str) :
  all_chars p a = true -> lstrip_by p (a ++ s) = lstrip_by p s.
Proof.
  induction a as [|c a IH]; [reflexivity|]. simpl.
  intros H. apply andb_true_iff in H as [Hc Ha]. rewrite Hc. now apply IH.
Qed.

Lemma rstrip_by_empty_iff (s : str) :
  rstrip_by p s = [] <-> all_chars p s = true.
Proof.
  induction s as [|c s IH]; simpl; [tauto|].
  destruct (rstrip_by p s) eqn:Hr.
  - destruct (p c); simpl; [tauto|]. split; discriminate.
  - split; [discriminate|].
    intros H. apply andb_true_iff in H as [_ H]. apply IH in H. discriminate.
Qed.

Lemma rstrip_by_app (s b : str) :
  all_chars p b = true -> rstrip_by p (s ++ b) = rstrip_by p s.
Proof.
  intros Hb. induction s as [|c s IH].
  - simpl. now apply rstrip_by_empty_iff.
  - simpl. now rewrite IH.
Qed.

(** [rstrip_by] keeps a first character that is outside the class. *)
Lemma rstrip_by_head (c : N) (s : str) :
  p c = false -> exists r, rstrip_by p (c :: s) = c :: r.
Proof.
  intros Hc. simpl. destruct (rstrip_by p s) as [|d r]; rewrite ?Hc; eauto.
Qed.

Lemma lstrip_rstrip_by_comm (s : str) :
  lstrip_by p (rstrip_by p s) = rstrip_by p (lstrip_by p s).
Proof.
  induction s as [|c s IH]; [reflexivity|].
  destruct (p c) eqn:Hc.
  - simpl. rewrite Hc. destruct (rstrip_by p s) as [|d r] eqn:Hr.
    + rewrite <- IH. reflexivity.
    + rewrite <- IH. simpl. now rewrite Hc.
  - simpl lstrip_by at 2. rewrite Hc.
    destruct (rstrip_by_head c s Hc) as [r Hr]. rewrite Hr. simpl. now rewrite Hc.
Qed.

(** Characters of the class around a text do not count. *)
Lemma strip_by_margins (a s b : str) :
  all_chars p a = true -> all_chars p b = true ->
  strip_by p (a ++ s ++ b) = strip_by p s.
Proof.
  intros Ha Hb. unfold strip_by.
  rewrite (lstrip_by_app a (s ++ b) Ha).
  rewrite <- !lstrip_rstrip_by_comm. now rewrite (rstrip_by_app s b Hb).
Qed.

Lemma lstrip_by_split (s : str) :
  exists a, s = a ++ lstrip_by p s /\ all_chars p a = true.
Proof.
  induction s as [|c s (a & Hs & Ha)]; [now exists []|].
  simpl. destruct (p c) eqn:Hc.
  - exists (c :: a). simpl. rewrite Hc, Ha. split; [now f_equal|reflexivity].
  - now exists [].
Qed.

Lemma rstrip_by_split (s : str) :
  exists b, s = rstrip_by p s ++ b /\ all_chars p b = true.
Proof.
  induction s as [|c s (b & Hs & Hb)]; [now exists []|].
  simpl. destruct (rstrip_by p s) as [|d r] eqn:Hr.
  - simpl in Hs. destruct (p c) eqn:Hc.
    + exists (c :: s). simpl. rewrite Hc. split; [reflexivity|].
      now apply rstrip_by_empty_iff.
    + exists b. simpl. split; [now f_equal|exact Hb].
  - exists b. split; [|exact Hb]. simpl. now f_equal.
Qed.

(** A text is what its strip is, between two margins of the class. *)
Lemma strip_by_split (s : str) :
  exists a b, s = a ++ strip_by p s ++ b
              /\ all_chars p a = true /\ all_chars p b = true.
Proof.
  destruct (lstrip_by_split s) as (a & Hs & Ha).
  destruct (rstrip_by_split (lstrip_by p s)) as (b & Hl & Hb).
  exists a, b. unfold strip_by. now rewrite <- Hl.
Qed.



End StripBy.

(** ** Rounding *)

(** [round_half_even] returns an integer nearest to the quotient: it is
    off by at most one half. *)
Lemma round_half_even_nearest (num den : Z) :
  0 < den ->
  2 * Z.abs (PyFloat.round_half_even num den * den - num) <= den.
Proof.
  intros Hden. unfold PyFloat.round_half_even.
  pose proof (Z.div_mod num den ltac:(lia)) as Hdm.
  pose proof (Z.mod_pos_bound num den Hden) as Hb.
  destruct (Z.compare_spec (2 * (num mod den)) den) as [He|Hl|Hg];
    [destruct (Z.even (num / den))| |]; nia.
Qed.

Lemma round_half_even_tie (num den : Z) :
  0 < den -> 2 * (num mod den) = den ->
  Z.even (PyFloat.round_half_even num den) = true.
Proof.
  intros Hden Ht. unfold PyFloat.round_half_even.
  rewrite Ht, Z.compare_refl.
  destruct (Z.even (num / den)) eqn:E; [exact E|].
  rewrite Z.even_add, E. reflexivity.
Qed.




(** ** Runs of characters *)

Section SpanFacts.
Import PyStr.

Lemma span_app (p : N -> bool) (s : str) :
  s = fst (span p s) ++ snd (span p s).
Proof.
  induction s as [|c s IH]; simpl; [reflexivity|].
  destruct (p c); [|reflexivity].
  destruct (span p s) as [a b]. simpl in *. now rewrite IH at 1.
Qed.

Lemma span_nonempty (p : N -> bool) (s : str) :
  nonempty (fst (span p s)) = true -> nonempty s = true.
Proof. destruct s; simpl; [discriminate|reflexivity]. Qed.

Lemma span_all (p : N -> bool) (s : str) :
  all_chars p (fst (span p s)) = true.
Proof.
  induction s as [|c s IH]; [reflexivity|]. simpl.
  destruct (p c) eqn:Hc; [|reflexivity].
  destruct (span p s) as [a b]. simpl in *. now rewrite Hc, IH.
Qed.

Lemma span_rest (p : N -> bool) (s : str) :
  starts_with p (snd (span p s)) = false.
Proof.
  induction s as [|c s IH]; [reflexivity|]. simpl.
  destruct (p c) eqn:Hc; [|exact Hc].
  destruct (span p s) as [a b]. exact IH.
Qed.

(** A run of [p] characters in front of a text that does not go on with
    one is what [span] splits off. *)
Lemma span_exact (p : N -> bool) (a b : str) :
  all_chars p a = true -> starts_with p b = false ->
  span p (a ++ b) = (a, b).
Proof.
  intros Ha Hb. induction a as [|c a IH].
  - destruct b as [|d b]; [reflexivity|]. simpl in *. now rewrite Hb.
  - simpl in Ha. apply andb_true_iff in Ha as [Hc Ha].
    simpl. now rewrite Hc, (IH Ha).
Qed.


Lemma at_end_cases (s : str) :
  Re.at_end s = true <-> s = [] \/ s = [LF].
Proof.
  destruct s as [|c [|d s]]; simpl.
  - split; auto.
  - rewrite N.eqb_eq. split; [intros ->; auto|].
    intros [H|H]; congruence.
  - split; [discriminate|]. intros [H|H]; discriminate.
Qed.

Lemma starts_with_app_l (p : N -> bool) (a b : str) :
  starts_with p (a ++ b) = false -> starts_with p a = false.
Proof. destruct a; simpl; auto. Qed.

End SpanFacts.

(** ** The characters that [float] reads *)

Section DigitFacts.
Import PyStr PyFloat.

(** A decimal digit lies in the run of ten that starts at the zero of
    its system. *)
Lemma decimal_value_run (c d : N) :
  decimal_value c = Some d ->
  exists z, In z decimal_zeros /\ (z <= c)%N /\ (c < z + 10)%N /\ d = (c - z)%N.
Proof.
  unfold decimal_value.
  destruct (List.find _ decimal_zeros) as [z|] eqn:E; [|discriminate].
  intros [= <-]. apply List.find_some in E as [Hin Hb].
  apply andb_true_iff in Hb as [H1 H2].
  apply N.leb_le in H1. apply N.ltb_lt in H2. eauto.
Qed.

Lemma decimal_value_lt (c d : N) : decimal_value c = Some d -> (d < 10)%N.
Proof. intros H. apply decimal_value_run in H as (z & _ & H1 & H2 & ->). lia. Qed.

Lemma decimal_zeros_ascii (z : N) :
  In z decimal_zeros -> z = DIGIT_ZERO \/ (1632 <= z)%N.
Proof.
  unfold decimal_zeros. intros H.
  repeat (destruct H as [<-|H]; [first [now left | right; lia]|]).
  destruct H.
Qed.

(** The ASCII digits are the only decimal digits of the ASCII range. *)
Lemma decimal_value_ascii (c d : N) :
  (c < 128)%N -> decimal_value c = Some d -> c = (DIGIT_ZERO + d)%N.
Proof.
  intros Hc H. apply decimal_value_run in H as (z & Hin & H1 & H2 & ->).
  apply decimal_zeros_ascii in Hin as [->|Hz]; lia.
Qed.

Lemma is_space_cases (c : N) :
  is_space c = true ->
  ((9 <= c <= 13) \/ (28 <= c <= 32) \/ c = 133 \/ c = 160 \/ c = 5760
   \/ (8192 <= c <= 8202) \/ c = 8232 \/ c = 8233 \/ c = 8239 \/ c = 8287
   \/ c = 12288)%N.
Proof.
  unfold is_space.
  rewrite !orb_true_iff, !andb_true_iff, !N.leb_le, !N.eqb_eq. tauto.
Qed.

(** No decimal digit is whitespace. *)
Lemma decimal_not_space (c d : N) : decimal_value c = Some d -> is_space c = false.
Proof.
  intros H. apply decimal_value_run in H as (z & Hin & H1 & H2 & _).
  destruct (is_space c) eqn:Hs; [|reflexivity]. exfalso.
  apply is_space_cases in Hs.
  assert ((c <= 32)%N \/ (133 <= c <= 160)%N \/ c = 5760%N
          \/ (8192 <= c <= 8287)%N \/ c = 12288%N) as Hc by lia.
  clear Hs. unfold decimal_zeros in Hin.
  repeat (destruct Hin as [<-|Hin]; [lia|]).
  destruct Hin.
Qed.

(** [float] reads a decimal digit as the ASCII digit of its value. *)
Lemma to_ascii_decimal (c d : N) :
  decimal_value c = Some d -> to_ascii c = (DIGIT_ZERO + d)%N.
Proof.
  intros H. unfold to_ascii. destruct (c <? 128)%N eqn:Hc.
  - apply N.ltb_lt in Hc. now apply decimal_value_ascii.
  - now rewrite (decimal_not_space c d H), H.
Qed.


Lemma is_decimal_value (c : N) :
  is_decimal c = true -> exists d, decimal_value c = Some d.
Proof. unfold is_decimal. destruct (decimal_value c); [eauto|discriminate]. Qed.

Lemma to_ascii_digit (c : N) :
  is_decimal c = true -> is_ascii_digit (to_ascii c) = true.
Proof.
  intros H. apply is_decimal_value in H as [d H].
  rewrite (to_ascii_decimal c d H). apply decimal_value_lt in H.
  unfold is_ascii_digit. apply andb_true_iff. split; [apply N.leb_le|apply N.leb_le]; lia.
Qed.


Lemma digits_value_from_app (a b : str) (acc : Z) :
  digits_value_from acc (a ++ b) = digits_value_from (digits_value_from acc a) b.
Proof. revert acc. induction a as [|c a IH]; intros acc; [reflexivity|]. apply IH. Qed.



Lemma digit_plain (c : N) : is_ascii_digit c = true -> plain_char c = true.
Proof. intros H. unfold plain_char. now rewrite H. Qed.






Lemma map_to_ascii_plain (s : str) :
  all_chars is_decimal s = true -> all_chars plain_char (map to_ascii s) = true.
Proof.
  intros H. rewrite all_chars_map. apply (all_chars_impl is_decimal); [|exact H].
  intros c Hc. now apply digit_plain, to_ascii_digit.
Qed.



End DigitFacts.

(** ** [safe_float] *)

Lemma safe_float_text (s : str) :
  safe_float (JStr s) =
    if PyStr.all_chars PyStr.is_space s then None
    else option_map PyFloat.round2
           (PyFloat.of_string (PyStr.remove_char COMMA (PyStr.strip s))).
Proof.
  unfold safe_float. cbn [py_str].
  rewrite nonempty_strip, negb_involutive.
  destruct (PyStr.all_chars PyStr.is_space s); [reflexivity|].
  destruct (PyFloat.of_string _); reflexivity.
Qed.

Lemma safe_float_none_iff (v : json_value) :
  safe_float v = None <->
    v = JNull
    \/ PyStr.all_chars PyStr.is_space (py_str v) = true
    \/ PyFloat.of_string (PyStr.remove_char COMMA (PyStr.strip (py_str v))) = None.
Proof.
  destruct v as [|s]; [simpl; split; auto|].
  rewrite safe_float_text. cbn [py_str].
  destruct (PyStr.all_chars PyStr.is_space s); [split; auto|].
  destruct (PyFloat.of_string _); simpl; split; auto; try discriminate.
  intros [?|[?|?]]; discriminate.
Qed.


(** ** Texts that [float] rejects *)

Section RejectFacts.
Import PyStr PyFloat.

Lemma ascii_digit_decimal (c : N) : is_ascii_digit c = true -> is_decimal c = true.
Proof.
  unfold is_ascii_digit. intros H. apply andb_true_iff in H as [H1 H2].
  apply N.leb_le in H1, H2.
  assert (c = 48 \/ c = 49 \/ c = 50 \/ c = 51 \/ c = 52 \/ c = 53 \/ c = 54
          \/ c = 55 \/ c = 56 \/ c = 57)%N as Hc by lia.
  repeat (destruct Hc as [->|Hc]; [reflexivity|]). now subst.
Qed.












End RejectFacts.






(** ** [parse_food_item] *)

Lemma text_field_missing (item : RawItem) (key : string) :
  PyStr.nonempty (PyStr.strip (get_or_empty item key)) = false <->
    text_missing item key.
Proof.
  unfold get_or_empty, get, text_missing, blank.
  destruct (item !! key) as [[|s]|]; cbn [default from_option id truthy py_str].
  - split; auto.
  - destruct (PyStr.nonempty s) eqn:Hs.
    + rewrite nonempty_strip. apply negb_false_iff.
    + apply nonempty_false in Hs. subst s. split; reflexivity.
  - split; auto.
Qed.

Lemma text_field_present (item : RawItem) (key : string) (s : str) :
  item !! key = Some (JStr s) ->
  PyStr.strip (get_or_empty item key) = PyStr.strip s.
Proof.
  intros H. unfold get_or_empty, get. rewrite H. cbn [default from_option id truthy py_str].
  destruct (PyStr.nonempty s) eqn:Hs; [reflexivity|].
  apply nonempty_false in Hs. now subst s.
Qed.

Lemma number_field_missing (item : RawItem) (key : string) :
  safe_float (get item key) = None <-> number_missing item key.
Proof.
  unfold get, number_missing, blank.
  destruct (item !! key) as [[|s]|]; cbn [default from_option id]; [split; auto| |split; auto].
  rewrite safe_float_none_iff. cbn [py_str]. split.
  - intros [H|H]; [discriminate|exact H].
  - intros H. now right.
Qed.

Lemma text_present_inv (item : RawItem) (key : string) :
  ~ text_missing item key ->
  exists s, item !! key = Some (JStr s) /\ blank s = false.
Proof.
  unfold text_missing. destruct (item !! key) as [[|s]|]; try tauto.
  intros H. exists s. split; [reflexivity|]. now destruct (blank s).
Qed.

Lemma number_present_inv (item : RawItem) (key : string) :
  ~ number_missing item key -> exists s, item !! key = Some (JStr s).
Proof.
  unfold number_missing. destruct (item !! key) as [[|s]|]; try tauto. eauto.
Qed.

Lemma parse_food_item_cases (item : RawItem) :
  (parse_food_item item = None <->
     text_missing item "FOOD_CD"
     \/ text_missing item "FOOD_NM_KR"
     \/ number_missing item "AMT_NUM1")
  /\ (forall f, parse_food_item item = Some f ->
        foodCd f = Some (PyStr.strip (get_or_empty item "FOOD_CD"))
        /\ name f = PyStr.strip (get_or_empty item "FOOD_NM_KR")
        /\ safe_float (get item "AMT_NUM1") = Some (calories f)).
Proof.
  rewrite <- !text_field_missing, <- number_field_missing.
  unfold parse_food_item.
  destruct (PyStr.nonempty (PyStr.strip (get_or_empty item "FOOD_CD")));
    destruct (PyStr.nonempty (PyStr.strip (get_or_empty item "FOOD_NM_KR")));
    cbn [negb orb]; try (split; [intuition congruence|discriminate]).
  destruct (safe_float (get item "AMT_NUM1")) as [cal|].
  - destruct (serving item) as [sz un]. split.
    + split; [discriminate|]. intros [?|[?|?]]; congruence.
    + intros f [= <-]. simpl. auto.
  - split; [intuition congruence|discriminate].
Qed.

(** C4.  [parse_food_item] returns [None] exactly when the food code or
    the name is absent, [None] or blank, or the calories field is
    absent, [None], blank or rejected by [float]; no other field takes
    part.  When the three are present and valid it returns a record
    that carries the stripped code, the stripped name and the parsed
    calories.  A calories text made of a comma, the separator FS and a
    5, a name that is an ideographic space and a code that is a
    no-break space each give [None]. *)
Theorem parse_food_item_none_iff :
  (forall item : RawItem,
     (parse_food_item item = None <->
        text_missing item "FOOD_CD"
        \/ text_missing item "FOOD_NM_KR"
        \/ number_missing item "AMT_NUM1")
     /\ (~ text_missing item "FOOD_CD" /\ ~ text_missing item "FOOD_NM_KR"
         /\ ~ number_missing item "AMT_NUM1" <->
         exists (f : food) (cd nm kcal : str),
           item !! "FOOD_CD" = Some (JStr cd)
           /\ item !! "FOOD_NM_KR" = Some (JStr nm)
           /\ item !! "AMT_NUM1" = Some (JStr kcal)
           /\ parse_food_item item = Some f
           /\ foodCd f = Some (PyStr.strip cd)
           /\ name f = PyStr.strip nm
           /\ safe_float (JStr kcal) = Some (calories f)))
  /\ parse_food_item (sample_item "A1" "Apple" "52" "100.000g") =
       Some (sample_food "A1" "Apple" 52 100 "g")
  /\ parse_food_item
       (<[ "AMT_NUM1" := JStr [COMMA; 28; 53]%N ]>
          (sample_item "A1" "Apple" "52" "100.000g")) = None
  /\ parse_food_item
       (<[ "FOOD_NM_KR" := JStr [12288]%N ]>
          (sample_item "A1" "Apple" "52" "100.000g")) = None
  /\ parse_food_item
       (<[ "FOOD_CD" := JStr [160]%N ]>
          (sample_item "A1" "Apple" "52" "100.000g")) = None
  /\ parse_food_item (delete "AMT_NUM1" (sample_item "A1" "Apple" "52" "100.000g")) = None.
Proof.
  split; [|repeat split; vm_compute; reflexivity].
  intros item. destruct (parse_food_item_cases item) as [Hnone Hsome].
  split; [exact Hnone|]. split.
  - intros (Hcd & Hnm & Hcal).
    destruct (parse_food_item item) as [f|] eqn:Hf;
      [|exfalso; pose proof (proj1 Hnone eq_refl); tauto].
    destruct (Hsome f eq_refl) as (H1 & H2 & H3).
    apply text_present_inv in Hcd as (cd & Ecd & _).
    apply text_present_inv in Hnm as (nm & Enm & _).
    apply number_present_inv in Hcal as (kcal & Ecal).
    exists f, cd, nm, kcal.
    rewrite (text_field_present _ _ _ Ecd) in H1.
    rewrite (text_field_present _ _ _ Enm) in H2.
    unfold get in H3. rewrite Ecal in H3. cbn [default from_option id] in H3.
    auto 10.
  - intros (f & cd & nm & kcal & _ & _ & _ & Hf & _).
    assert (parse_food_item item <> None) as Hn by congruence.
    rewrite Hnone in Hn. tauto.
Qed.

(** ** The [re] patterns *)

Section RegexFacts.
Import PyStr Re.

Lemma star_ext {R : Type} (p : N -> bool) (s : str)
    (k k' : str -> str -> option R) :
  (forall m r, k m r = k' m r) -> star p s k = star p s k'.
Proof.
  revert k k'. induction s as [|c s IH]; intros k k' H; simpl; [apply H|].
  rewrite (IH _ (fun m rest => k' (c :: m) rest)) by (intros; apply H).
  now rewrite H.
Qed.

Section Greedy.
Context {R : Type} (ok : str -> bool).
Hypothesis ok_closed : forall c r, ok r = false -> ok (c :: r) = false.

Lemma ok_closed_app (pre r : str) : ok r = false -> ok (pre ++ r) = false.
Proof.
  intros H. induction pre as [|c pre IH]; [exact H|].
  simpl. now apply ok_closed.
Qed.

(** When the rest of the pattern succeeds or fails on the remaining text
    alone, and failing on a text means failing on every longer one,
    backtracking never helps: the repetition takes its longest run. *)
Lemma star_greedy (p : N -> bool) (s : str) (f : str -> str -> R) :
  star p s (fun m r => if ok r then Some (f m r) else None) =
    if ok (snd (span p s)) then Some (f (fst (span p s)) (snd (span p s))) else None.
Proof.
  revert f. induction s as [|c s IH]; intros f; simpl; [reflexivity|].
  destruct (p c); [|reflexivity].
  rewrite (IH (fun m r => f (c :: m) r)).
  destruct (span p s) as [a b] eqn:Hsp. simpl.
  destruct (ok b) eqn:Hb; [reflexivity|].
  assert (ok (c :: s) = false) as ->; [|reflexivity].
  apply ok_closed. rewrite (span_app p s), Hsp. simpl.
  now apply ok_closed_app.
Qed.

Lemma plus_greedy (p : N -> bool) (s : str) (f : str -> str -> R) :
  plus p s (fun m r => if ok r then Some (f m r) else None) =
    if nonempty (fst (span p s)) && ok (snd (span p s))
    then Some (f (fst (span p s)) (snd (span p s))) else None.
Proof.
  destruct s as [|c s]; simpl; [reflexivity|].
  destruct (p c); [|reflexivity].
  rewrite (star_greedy p s (fun m r => f (c :: m) r)).
  destruct (span p s) as [a b]. reflexivity.
Qed.

End Greedy.

(** The end-of-text test fails on every extension of a text it fails on. *)
Lemma at_end_closed (c : N) (r : str) :
  at_end r = false -> at_end (c :: r) = false.
Proof. destruct r; simpl; [discriminate|reflexivity]. Qed.

Lemma line_ok_closed (c : N) (r : str) :
  line_ok r = false -> line_ok (c :: r) = false.
Proof.
  unfold line_ok. simpl. destruct (dot c).
  - destruct (span dot r). simpl. auto.
  - simpl. destruct r; simpl; [discriminate|reflexivity].
Qed.

Lemma tail_ok_closed (c : N) (r : str) :
  tail_ok r = false -> tail_ok (c :: r) = false.
Proof.
  unfold tail_ok. simpl. destruct (is_space c).
  - destruct (span is_space r). simpl. auto.
  - simpl. intros H. apply line_ok_closed.
    rewrite (span_app is_space r). now apply ok_closed_app; [apply line_ok_closed|].
Qed.

(** The first pattern matches exactly when the text starts with a run of
    digits, commas and dots and, after the whitespace that follows the
    run, has no line feed except possibly as its last character.  Group
    1 is the longest such run and group 2 the text after the whitespace,
    up to the line feed. *)
Lemma match_number_unit_spec (s : str) :
  match_number_unit s =
    let '(g1, r1) := span numeric_char s in
    let '(_, r2) := span is_space r1 in
    let '(g2, r3) := span dot r2 in
    if nonempty g1 && at_end r3 then Some (g1, g2) else None.
Proof.
  unfold match_number_unit.
  transitivity
    (plus numeric_char s (fun g1 r1 =>
       if tail_ok r1
       then Some (g1, fst (span dot (snd (span is_space r1)))) else None)).
  - destruct s as [|c s]; simpl; [reflexivity|].
    destruct (numeric_char c); [|reflexivity].
    apply star_ext. intros m r.
    transitivity
      (star is_space r (fun _ r2 =>
         if line_ok r2 then Some (c :: m, fst (span dot r2)) else None)).
    + apply star_ext. intros _ r2.
      apply (star_greedy at_end at_end_closed dot r2 (fun g2 _ => (c :: m, g2))).
    + apply (star_greedy line_ok line_ok_closed is_space r
               (fun _ r2 => (c :: m, fst (span dot r2)))).
  - rewrite (plus_greedy tail_ok tail_ok_closed numeric_char s
               (fun g1 r1 => (g1, fst (span dot (snd (span is_space r1)))))).
    unfold tail_ok, line_ok.
    destruct (span numeric_char s) as [g1 r1]. simpl.
    destruct (span is_space r1) as [ws r2]. simpl.
    destruct (span dot r2) as [g2 r3]. reflexivity.
Qed.

Lemma match_number_spec (s : str) :
  match_number s =
    let '(g1, _) := span numeric_char s in
    if nonempty g1 then Some g1 else None.
Proof.
  unfold match_number.
  rewrite (plus_greedy (fun _ => true) (fun _ _ e => e) numeric_char s
             (fun g1 _ => g1)).
  destruct (span numeric_char s) as [g1 r1]. simpl.
  now rewrite andb_true_r.
Qed.

End RegexFacts.

(** ** Serving size and unit *)

Lemma serving_primary_text (item : RawItem) :
  let z_field := get item "Z10500" in
  let '(num, r1) := PyStr.span Re.numeric_char (PyStr.strip (py_str z_field)) in
  let '(_, r2) := PyStr.span PyStr.is_space r1 in
  let '(unit_text, r3) := PyStr.span Re.dot r2 in
  serving_primary item =
    if truthy z_field && PyStr.nonempty num && Re.at_end r3
    then (safe_float (JStr num), or_None (PyStr.strip unit_text))
    else (None, None).
Proof.
  cbv zeta. unfold serving_primary.
  destruct (truthy (get item "Z10500")) eqn:Ht; simpl andb.
  - destruct (PyStr.nonempty (PyStr.strip (py_str (get item "Z10500")))) eqn:Hne.
    + rewrite match_number_unit_spec.
      destruct (PyStr.span Re.numeric_char _) as [num r1].
      destruct (PyStr.span PyStr.is_space r1) as [ws r2].
      destruct (PyStr.span Re.dot r2) as [u r3].
      destruct (PyStr.nonempty num && Re.at_end r3); reflexivity.
    + apply nonempty_false in Hne. rewrite Hne. reflexivity.
  - destruct (PyStr.span Re.numeric_char _) as [num r1].
    destruct (PyStr.span PyStr.is_space r1) as [ws r2].
    destruct (PyStr.span Re.dot r2) as [u r3]. reflexivity.
Qed.

Lemma serving_primary_parts (item : RawItem) :
  serving_primary item = primary_by_parts item.
Proof.
  pose proof (serving_primary_text item) as H. cbv zeta in H.
  unfold primary_by_parts. unfold get in H.
  destruct (item !! "Z10500") as [[|z]|]; cbn [default from_option id py_str truthy] in H.
  - destruct (PyStr.span Re.numeric_char _) as [num r1].
    destruct (PyStr.span PyStr.is_space r1) as [ws r2].
    destruct (PyStr.span Re.dot r2) as [u r3]. exact H.
  - destruct (PyStr.span Re.numeric_char (PyStr.strip z)) as [num r1] eqn:Hsp.
    destruct (PyStr.span PyStr.is_space r1) as [ws r2].
    destruct (PyStr.span Re.dot r2) as [u r3].
    rewrite H. unfold or_None. destruct (PyStr.nonempty z) eqn:Hz.
    + now destruct (PyStr.strip u).
    + apply nonempty_false in Hz. subst z. injection Hsp as <- _. reflexivity.
  - destruct (PyStr.span Re.numeric_char _) as [num r1].
    destruct (PyStr.span PyStr.is_space r1) as [ws r2].
    destruct (PyStr.span Re.dot r2) as [u r3]. exact H.
Qed.

Lemma serving_fallback_parts (item : RawItem) :
  serving_fallback item = fallback_by_parts item.
Proof.
  unfold serving_fallback, fallback_by_parts.
  destruct (item !! "SERVING_SIZE") as [[|v]|]; cbn [default from_option id truthy py_str];
    [reflexivity| |reflexivity].
  rewrite match_number_spec.
  destruct (PyStr.span Re.numeric_char (PyStr.strip v)) as [num r1] eqn:Hsp.
  destruct (PyStr.nonempty v) eqn:Hv; [now destruct (PyStr.nonempty num)|].
  apply nonempty_false in Hv. subst v. injection Hsp as <- _. reflexivity.
Qed.

(** C8, as the code has it.  When the stripped [Z10500] text starts with
    a run of digits, commas and dots and has no line feed after the
    whitespace that follows the run, the primary descriptor gives the
    serving size, the safe numeric parse of that run, and the unit, the
    stripped remaining text when it is not empty; otherwise it gives
    neither.  The secondary field [SERVING_SIZE] is consulted whenever
    the primary gives no size (line 104) and contributes the safe
    numeric parse of its own leading run; the unit only ever comes from
    the primary.  The descriptor 900.000g gives 900.0 and g, and 500
    gives 500.0 and no unit; 100, an ideographic space and g give 100.0
    and g, as do the full-width digits of 100 and g; with 100g, a line
    feed and x the size comes from the secondary field. *)
Theorem serving_spec :
  (forall item : RawItem,
     serving_primary item = primary_by_parts item
     /\ serving_fallback item = fallback_by_parts item
     /\ serving item =
          (match fst (primary_by_parts item) with
           | Some size => Some size
           | None => fallback_by_parts item
           end,
           snd (primary_by_parts item)))
  /\ serving ({[ "Z10500" := JStr (lit "900.000g") ]} : RawItem) =
       (Some 900%float, Some (lit "g"))
  /\ serving ({[ "Z10500" := JStr (lit "500") ]} : RawItem) = (Some 500%float, None)
  /\ serving ({[ "Z10500" := JStr [49; 48; 48; 12288; 103]%N ]} : RawItem) =
       (Some 100%float, Some (lit "g"))
  /\ serving ({[ "Z10500" := JStr [65297; 65296; 65296; 103]%N ]} : RawItem) =
       (Some 100%float, Some (lit "g"))
  /\ serving (<[ "SERVING_SIZE" := JStr (lit "30") ]>
                ({[ "Z10500" := JStr [49; 48; 48; 103; LF; 120]%N ]} : RawItem)) =
       (Some 30%float, None).
Proof.
  split; [|repeat split; vm_compute; reflexivity].
  intros item. split; [apply serving_primary_parts|].
  split; [apply serving_fallback_parts|].
  unfold serving. rewrite serving_primary_parts, serving_fallback_parts.
  destruct (primary_by_parts item) as [[size|] u]; reflexivity.
Qed.

(** C8 as stated fails: with a primary descriptor that is present and
    not empty but does not start with a number, the size is taken from
    the secondary field. *)
Lemma serving_fallback_with_primary_present :
  let item : RawItem :=
    <[ "SERVING_SIZE" := JStr (lit "100") ]> {[ "Z10500" := JStr (lit "abc") ]} in
  primary_missing item = false
  /\ fallback_taken item = true
  /\ serving item = (Some 100%float, None)
  /\ serving (delete "SERVING_SIZE" item) = (None, None).
Proof. vm_compute. repeat split; reflexivity. Qed.

(** ** Deduplication *)

Section DedupeFacts.
Implicit Types (seen : gset str) (foods unique : list food) (f : food).

Lemma dedupe_loop_cons seen unique f rest :
  dedupe_loop seen unique (f :: rest) =
    if kept seen f
    then dedupe_loop (seen_after seen [f]) (unique ++ [f]) rest
    else dedupe_loop seen unique rest.
Proof.
  unfold kept. simpl. destruct (foodCd f) as [cd|]; [|reflexivity].
  destruct (PyStr.nonempty cd && negb (bool_decide (cd ∈ seen))); reflexivity.
Qed.

Lemma seen_after_kept seen f cd :
  kept seen f = true -> foodCd f = Some cd -> seen_after seen [f] = {[cd]} ∪ seen.
Proof. unfold kept. simpl. intros H E. rewrite E in *. now rewrite H. Qed.

Lemma kept_inv seen f :
  kept seen f = true ->
  exists cd, foodCd f = Some cd /\ PyStr.nonempty cd = true /\ cd ∉ seen.
Proof.
  unfold kept. destruct (foodCd f) as [cd|]; [|discriminate].
  intros H. apply andb_true_iff in H as [H1 H2].
  exists cd. repeat split; auto.
  apply negb_true_iff, bool_decide_eq_false in H2. exact H2.
Qed.

Lemma kept_false seen f cd :
  kept seen f = false -> foodCd f = Some cd -> PyStr.nonempty cd = true -> cd ∈ seen.
Proof.
  unfold kept. intros H E Hne. rewrite E, Hne in H. simpl in H.
  apply negb_false_iff, bool_decide_eq_true in H. exact H.
Qed.

(** The records already kept stay in front. *)
Lemma dedupe_loop_acc seen unique foods :
  dedupe_loop seen unique foods = unique ++ dedupe_loop seen [] foods.
Proof.
  revert seen unique. induction foods as [|f rest IH]; intros seen unique.
  - simpl. now rewrite app_nil_r.
  - rewrite !dedupe_loop_cons. destruct (kept seen f); [|apply IH].
    rewrite IH. rewrite (IH _ ([] ++ [f])). now rewrite <- app_assoc.
Qed.

Lemma dedupe_loop_step seen f rest :
  dedupe_loop seen [] (f :: rest) =
    if kept seen f
    then f :: dedupe_loop (seen_after seen [f]) [] rest
    else dedupe_loop seen [] rest.
Proof.
  rewrite dedupe_loop_cons. destruct (kept seen f); [|reflexivity].
  now rewrite dedupe_loop_acc.
Qed.

Lemma seen_after_app seen pre rest :
  seen_after seen (pre ++ rest) = seen_after (seen_after seen pre) rest.
Proof.
  revert seen. induction pre as [|f pre IH]; intros seen; [reflexivity|].
  simpl. destruct (foodCd f) as [cd|]; [|apply IH].
  destruct (PyStr.nonempty cd && negb (bool_decide (cd ∈ seen))); apply IH.
Qed.

(** The loop over a list run in two parts. *)
Lemma dedupe_loop_app seen unique pre rest :
  dedupe_loop seen unique (pre ++ rest) =
    dedupe_loop (seen_after seen pre) (dedupe_loop seen unique pre) rest.
Proof.
  revert seen unique. induction pre as [|f pre IH]; intros seen unique; [reflexivity|].
  simpl. destruct (foodCd f) as [cd|]; [|apply IH].
  destruct (PyStr.nonempty cd && negb (bool_decide (cd ∈ seen))); apply IH.
Qed.

(** [seen] holds the codes it started with and the non-empty codes of
    the records visited. *)
Lemma seen_after_spec seen pre (cd : str) :
  cd ∈ seen_after seen pre <->
    cd ∈ seen \/ (PyStr.nonempty cd = true /\ Some cd ∈ map foodCd pre).
Proof.
  revert seen. induction pre as [|f pre IH]; intros seen.
  - simpl. split; [auto|]. intros [H|[_ H]]; [exact H|]. inversion H.
  - change (f :: pre) with ([f] ++ pre). rewrite seen_after_app, IH.
    simpl map. rewrite elem_of_cons.
    destruct (kept seen f) eqn:Hk.
    + destruct (kept_inv _ _ Hk) as (k & Hf & Hne & Hns).
      rewrite (seen_after_kept _ _ _ Hk Hf), Hf.
      rewrite elem_of_union, elem_of_singleton.
      split.
      * intros [[->|H]|[H1 H2]]; auto.
      * intros [H|[H1 [H2|H2]]]; auto. inversion H2; subst. auto.
    + assert (seen_after seen [f] = seen) as ->.
      { unfold kept in Hk. simpl. destruct (foodCd f); [|reflexivity].
        now rewrite Hk. }
      split.
      * intros [H|[H1 H2]]; auto.
      * intros [H|[H1 [H2|H2]]]; auto.
        left. symmetry in H2. exact (kept_false _ _ _ Hk H2 H1).
Qed.

Lemma key_truthy_kept seen f :
  kept seen f = true -> key_truthy (foodCd f) = true.
Proof.
  intros H. destruct (kept_inv _ _ H) as (cd & -> & Hne & _). exact Hne.
Qed.

(** Every record the loop keeps has a non-empty code that was not in
    [seen], and comes from the input. *)
Lemma dedupe_loop_elem seen foods f :
  f ∈ dedupe_loop seen [] foods ->
  f ∈ foods /\ exists cd, foodCd f = Some cd /\ PyStr.nonempty cd = true /\ cd ∉ seen.
Proof.
  revert seen. induction foods as [|g rest IH]; intros seen.
  - simpl. intros H. inversion H.
  - rewrite dedupe_loop_step. destruct (kept seen g) eqn:Hk.
    + rewrite elem_of_cons. intros [->|H].
      * split; [left|]. now apply kept_inv.
      * destruct (kept_inv _ _ Hk) as (k & Hg & _ & _).
        rewrite (seen_after_kept _ _ _ Hk Hg) in H.
        apply IH in H as (Hin & cd & Hf & Hne & Hns).
        split; [now right|]. exists cd. repeat split; auto.
        intros Hs. apply Hns. apply elem_of_union. now right.
    + intros H. apply IH in H as (Hin & H). split; [now right|exact H].
Qed.

Lemma dedupe_loop_NoDup seen foods :
  NoDup (map foodCd (dedupe_loop seen [] foods)).
Proof.
  revert seen. induction foods as [|g rest IH]; intros seen; [constructor|].
  rewrite dedupe_loop_step. destruct (kept seen g) eqn:Hk; [|apply IH].
  destruct (kept_inv _ _ Hk) as (k & Hg & _ & _).
  rewrite (seen_after_kept _ _ _ Hk Hg).
  simpl map. constructor; [|apply IH]. rewrite Hg.
  intros Hin. apply list_elem_of_In, in_map_iff in Hin as (f & Hf & Hin).
  apply list_elem_of_In, dedupe_loop_elem in Hin as (_ & cd & Hf' & _ & Hns).
  apply Hns. apply elem_of_union. left. apply elem_of_singleton. congruence.
Qed.

Lemma bool_decide_union_ne seen (k cd : str) :
  k <> cd -> bool_decide (cd ∈ {[k]} ∪ seen) = bool_decide (cd ∈ seen).
Proof.
  intros Hne. apply bool_decide_ext.
  rewrite elem_of_union, elem_of_singleton. intuition congruence.
Qed.

Lemma bool_decide_union_eq seen (cd : str) :
  bool_decide (cd ∈ {[cd]} ∪ seen) = true.
Proof. apply bool_decide_eq_true. apply elem_of_union. left. now apply elem_of_singleton. Qed.

Lemma has_code_true cd f : has_code cd f = true <-> foodCd f = Some cd.
Proof. unfold has_code. apply bool_decide_eq_true. Qed.

Lemma has_code_false cd f : has_code cd f = false <-> foodCd f <> Some cd.
Proof. unfold has_code. apply bool_decide_eq_false. Qed.

(** A record that carries [cd] and is not kept: [cd] is empty or seen. *)
Lemma not_kept_code seen f cd :
  kept seen f = false -> has_code cd f = true ->
  PyStr.nonempty cd && negb (bool_decide (cd ∈ seen)) = false.
Proof.
  intros Hk Hc. apply has_code_true in Hc.
  unfold kept in Hk. now rewrite Hc in Hk.
Qed.

(** The first record with a given code is the same before and after. *)
Lemma dedupe_loop_find seen foods (cd : str) :
  List.find (has_code cd) (dedupe_loop seen [] foods) =
    if PyStr.nonempty cd && negb (bool_decide (cd ∈ seen))
    then List.find (has_code cd) foods else None.
Proof.
  revert seen. induction foods as [|g rest IH]; intros seen.
  - simpl. now destruct (_ && _).
  - rewrite dedupe_loop_step. destruct (kept seen g) eqn:Hk.
    + destruct (kept_inv _ _ Hk) as (k & Hg & Hne & Hns).
      rewrite (seen_after_kept _ _ _ Hk Hg). simpl List.find.
      destruct (has_code cd g) eqn:Hc.
      * apply has_code_true in Hc. assert (k = cd) as -> by congruence.
        rewrite Hne. rewrite (bool_decide_eq_false_2 _ Hns). reflexivity.
      * apply has_code_false in Hc.
        rewrite IH, bool_decide_union_ne by congruence. reflexivity.
    + rewrite IH. simpl List.find. destruct (has_code cd g) eqn:Hc; [|reflexivity].
      now rewrite (not_kept_code _ _ _ Hk Hc).
Qed.

(** Each code is carried by at most one of the records kept, and by one
    exactly when it is not empty, not seen before, and in the input. *)
Lemma dedupe_loop_count seen foods (cd : str) :
  length (List.filter (has_code cd) (dedupe_loop seen [] foods)) =
    if PyStr.nonempty cd && negb (bool_decide (cd ∈ seen))
       && List.existsb (has_code cd) foods
    then 1%nat else 0%nat.
Proof.
  revert seen. induction foods as [|g rest IH]; intros seen.
  - simpl. now rewrite andb_false_r.
  - rewrite dedupe_loop_step. destruct (kept seen g) eqn:Hk.
    + destruct (kept_inv _ _ Hk) as (k & Hg & Hne & Hns).
      rewrite (seen_after_kept _ _ _ Hk Hg). simpl List.filter. simpl List.existsb.
      destruct (has_code cd g) eqn:Hc.
      * apply has_code_true in Hc. assert (k = cd) as -> by congruence.
        simpl length. rewrite IH, bool_decide_union_eq, Hne.
        rewrite (bool_decide_eq_false_2 _ Hns). now rewrite andb_false_r.
      * apply has_code_false in Hc.
        rewrite IH, bool_decide_union_ne by congruence. reflexivity.
    + rewrite IH. simpl List.existsb. destruct (has_code cd g) eqn:Hc; [|reflexivity].
      now rewrite (not_kept_code _ _ _ Hk Hc).
Qed.

(** A record at the end is kept exactly when its code is not empty and
    no earlier record carries it. *)
Lemma dedupe_loop_snoc pre f :
  dedupe_loop ∅ [] (pre ++ [f]) =
    dedupe_loop ∅ [] pre ++
      (if key_truthy (foodCd f) && negb (bool_decide (foodCd f ∈ map foodCd pre))
       then [f] else []).
Proof.
  rewrite dedupe_loop_app, dedupe_loop_acc. f_equal.
  rewrite dedupe_loop_step. simpl dedupe_loop.
  assert (kept (seen_after ∅ pre) f =
          key_truthy (foodCd f) && negb (bool_decide (foodCd f ∈ map foodCd pre))) as ->;
    [|reflexivity].
  unfold kept, key_truthy. destruct (foodCd f) as [cd|]; [|reflexivity].
  destruct (PyStr.nonempty cd) eqn:Hne; [|reflexivity]. simpl. f_equal.
  apply bool_decide_ext. rewrite seen_after_spec, elem_of_empty. intuition.
Qed.

(** A list of records with distinct non-empty unseen codes is left as is. *)
Lemma dedupe_loop_fixed seen foods :
  Forall (fun f => exists cd, foodCd f = Some cd /\ PyStr.nonempty cd = true /\ cd ∉ seen)
    foods ->
  NoDup (map foodCd foods) ->
  dedupe_loop seen [] foods = foods.
Proof.
  revert seen. induction foods as [|g rest IH]; intros seen Hall Hnd; [reflexivity|].
  apply Forall_cons in Hall as [(cd & Hg & Hne & Hns) Hall].
  simpl map in Hnd. apply NoDup_cons in Hnd as [Hfresh Hnd].
  assert (kept seen g = true) as Hk.
  { unfold kept. rewrite Hg, Hne. now rewrite (bool_decide_eq_false_2 _ Hns). }
  rewrite dedupe_loop_step, Hk, (seen_after_kept _ _ _ Hk Hg). f_equal.
  apply IH; [|exact Hnd].
  apply Forall_forall. intros f Hin.
  pose proof (proj1 (Forall_forall _ _) Hall f Hin) as (cd' & Hf & Hne' & Hns').
  exists cd'. repeat split; auto.
  rewrite elem_of_union, elem_of_singleton. intros [->|H]; [|tauto].
  apply Hfresh. rewrite Hg, <- Hf. apply list_elem_of_In, in_map, list_elem_of_In, Hin.
Qed.

(** Records without a usable code can be removed beforehand. *)
Lemma dedupe_loop_filter seen foods :
  dedupe_loop seen [] (List.filter (fun f => key_truthy (foodCd f)) foods) =
    dedupe_loop seen [] foods.
Proof.
  revert seen. induction foods as [|g rest IH]; intros seen; [reflexivity|].
  simpl List.filter. rewrite (dedupe_loop_step seen g rest).
  destruct (key_truthy (foodCd g)) eqn:Hkey.
  - rewrite dedupe_loop_step. destruct (kept seen g); now rewrite IH.
  - assert (kept seen g = false) as ->; [|apply IH].
    unfold kept, key_truthy in *. destruct (foodCd g); [|reflexivity].
    now rewrite Hkey.
Qed.

End DedupeFacts.

(** C5.  For every input list: no two records of the output carry the
    same [foodCd]; a code is carried by exactly one output record when
    it is (not empty and) carried by some input record, and by none
    otherwise; the output record carrying a code is the first input
    record carrying it; the records stay in input order, a record being
    kept exactly when its code is not empty and no earlier record
    carries it; and deduplicating twice is the same as once. *)
Theorem deduplicate_foods_spec (foods : list food) :
  NoDup (map foodCd (deduplicate_foods foods))
  /\ (forall cd : str,
        length (List.filter (has_code cd) (deduplicate_foods foods)) =
          if PyStr.nonempty cd && List.existsb (has_code cd) foods
          then 1%nat else 0%nat)
  /\ (forall cd : str,
        List.find (has_code cd) (deduplicate_foods foods) =
          if PyStr.nonempty cd then List.find (has_code cd) foods else None)
  /\ (forall (pre : list food) (f : food),
        deduplicate_foods (pre ++ [f]) =
          deduplicate_foods pre ++
            (if key_truthy (foodCd f) && negb (bool_decide (foodCd f ∈ map foodCd pre))
             then [f] else []))
  /\ deduplicate_foods (deduplicate_foods foods) = deduplicate_foods foods.
Proof.
  unfold deduplicate_foods. repeat split.
  - apply dedupe_loop_NoDup.
  - intros cd. rewrite dedupe_loop_count.
    rewrite (bool_decide_eq_false_2 (cd ∈ (∅ : gset str))) by apply not_elem_of_empty.
    simpl negb. now rewrite andb_true_r.
  - intros cd. rewrite dedupe_loop_find.
    rewrite (bool_decide_eq_false_2 (cd ∈ (∅ : gset str))) by apply not_elem_of_empty.
    simpl negb. now rewrite andb_true_r.
  - apply dedupe_loop_snoc.
  - apply dedupe_loop_fixed; [|apply dedupe_loop_NoDup].
    apply Forall_forall. intros f Hin.
    apply dedupe_loop_elem in Hin as (_ & H). exact H.
Qed.

(** C10.  Every record of the output has a [foodCd] that is present and
    not empty; the records whose [foodCd] is absent or empty are dropped
    and have no other effect: the result is the same as on the input
    without them.  The function is total: it gives a result on every
    list, whatever the codes. *)
Theorem deduplicate_foods_keys (foods : list food) :
  Forall (fun f => exists cd, foodCd f = Some cd /\ cd <> [])
    (deduplicate_foods foods)
  /\ Forall (fun f => key_truthy (foodCd f) = false -> f ∉ deduplicate_foods foods) foods
  /\ deduplicate_foods (List.filter (fun f => key_truthy (foodCd f)) foods) =
       deduplicate_foods foods.
Proof.
  unfold deduplicate_foods. repeat split.
  - apply Forall_forall. intros f Hin.
    apply dedupe_loop_elem in Hin as (_ & cd & Hf & Hne & _).
    exists cd. split; [exact Hf|]. now apply nonempty_true.
  - apply Forall_forall. intros f _ Hkey Hin.
    apply dedupe_loop_elem in Hin as (_ & cd & Hf & Hne & _).
    rewrite Hf in Hkey. simpl in Hkey. congruence.
  - apply dedupe_loop_filter.
Qed.

(** ** The pagination loop *)

Section LoopFacts.
Implicit Types (st : state) (script : list fetch_result) (fuel : nat).

Lemma outer_while_resume fuel include_all st script :
  outer_while (S fuel) include_all st script =
    resume fuel include_all (set_retry_count st 0) script.
Proof. reflexivity. Qed.

(** One round of the inner loop, seen from the rest of the run. *)
Lemma resume_cons fuel include_all st r script :
  retry_count st < max_retries ->
  resume fuel include_all st (r :: script) =
    match try_page include_all st r with
    | (waits, Continue st') =>
        prepend (EvFetch (page_no st) :: waits) (resume fuel include_all st' script)
    | (waits, Break st') =>
        prepend (EvFetch (page_no st) :: waits ++ [EvSleep (FloatSeconds RATE_LIMIT_DELAY)])
          (outer_while fuel include_all (set_page_no st' (page_no st' + 1)) script)
    | (waits, Return why foods) => (EvFetch (page_no st) :: waits, Finished why foods)
    end.
Proof.
  intros Hrc. apply Z.ltb_lt in Hrc. unfold resume, prepend. simpl inner_while.
  rewrite Hrc. destruct (try_page include_all st r) as [waits [st'|st'|why foods]].
  - destruct (inner_while include_all st' script) as [[tr ex] rest].
    destruct ex as [st''|why foods|st''].
    + destruct (outer_while fuel include_all _ rest) as [tr' out]. simpl.
      now rewrite <- !app_assoc.
    + reflexivity.
    + reflexivity.
  - destruct (outer_while fuel include_all _ script) as [tr' out]. simpl.
    now rewrite <- !app_assoc.
  - reflexivity.
Qed.

(** With attempts left and an answer in the script, the next event of
    the run is the fetch of the current page. *)
Lemma resume_fetches_current_page fuel include_all st r script :
  retry_count st < max_retries ->
  exists tr out,
    resume fuel include_all st (r :: script) = (EvFetch (page_no st) :: tr, out).
Proof.
  intros Hrc. rewrite (resume_cons _ _ _ _ _ Hrc).
  destruct (try_page include_all st r) as [waits [st'|st'|why foods]];
    unfold prepend; simpl; eauto.
Qed.

(** The inner loop leaves a suffix of the script, and a proper one when
    it gets past line 150 with an answer to read. *)
Lemma inner_while_rest include_all st script tr ex rest :
  inner_while include_all st script = (tr, ex, rest) ->
  (length rest <= length script)%nat
  /\ (forall st', ex = LoopLeft st' -> retry_count st < max_retries ->
        (length rest < length script)%nat).
Proof.
  revert st tr ex rest. induction script as [|r script IH]; intros st tr ex rest.
  - simpl. destruct (retry_count st <? max_retries) eqn:Hrc; intros [= <- <- <-].
    + split; [reflexivity|]. discriminate.
    + split; [reflexivity|]. intros st' _ H. apply Z.ltb_ge in Hrc. lia.
  - simpl. destruct (retry_count st <? max_retries) eqn:Hrc.
    + destruct (try_page include_all st r) as [waits [st'|st'|why foods]].
      * destruct (inner_while include_all st' script) as [[tr1 ex1] rest1] eqn:Hin.
        intros [= <- <- <-]. destruct (IH _ _ _ _ Hin) as [Hle _].
        split; simpl; [lia|]. intros; lia.
      * intros [= <- <- <-]. split; simpl; [lia|]. intros; lia.
      * intros [= <- <- <-]. split; simpl; [lia|]. intros; lia.
    + intros [= <- <- <-]. split; [reflexivity|].
      intros st' _ H. apply Z.ltb_ge in Hrc. lia.
Qed.

(** One round of the outer loop more than the script is long is enough. *)
Lemma outer_while_enough fuel include_all st script :
  (length script < fuel)%nat ->
  snd (outer_while fuel include_all st script) <> OutOfFuel.
Proof.
  revert st script. induction fuel as [|fuel IH]; intros st script Hlen; [lia|].
  simpl.
  destruct (inner_while include_all (set_retry_count st 0) script) as [[tr ex] rest] eqn:Hin.
  destruct ex as [st'|why foods|st']; [|discriminate|discriminate].
  destruct (inner_while_rest _ _ _ _ _ _ Hin) as [_ Hlt].
  specialize (Hlt st' eq_refl ltac:(reflexivity)).
  specialize (IH (set_page_no st' (page_no st' + 1)) rest ltac:(lia)).
  destruct (outer_while fuel include_all _ rest) as [tr' out]. exact IH.
Qed.

(** [download_all_foods] gives a result on every script: it returns, or
    it is waiting for the answer to a fetch beyond the script. *)
Lemma download_all_foods_total include_all script :
  snd (download_all_foods include_all script) <> OutOfFuel.
Proof. apply outer_while_enough. lia. Qed.

End LoopFacts.

Section LoopSteps.
Implicit Types (st : state) (script : list fetch_result) (fuel : nat).

(** The first event of a round of the outer loop that has an answer to
    read is the fetch of the current page. *)
Lemma outer_while_fetches_current_page fuel include_all st r script :
  exists tr out,
    outer_while (S fuel) include_all st (r :: script) = (EvFetch (page_no st) :: tr, out).
Proof.
  rewrite outer_while_resume.
  apply (resume_fetches_current_page fuel include_all (set_retry_count st 0) r script).
  reflexivity.
Qed.

(** What [try_page] does on each kind of answer. *)
Lemma try_page_code include_all st data (code : string) :
  resultCode data = Some code ->
  try_page include_all st (Returns data) =
    if String.eqb code "00" then ([], process_page include_all st data)
    else if String.eqb code "03" then ([], Return DataEnd (all_foods st))
    else if String.eqb code "22"
    then ([EvSleep (IntSeconds 60)], Continue (set_retry_count st (retry_count st + 1)))
    else ([EvSleep (IntSeconds 5)], Continue (set_retry_count st (retry_count st + 1))).
Proof.
  intros H. unfold try_page. rewrite H. simpl default.
  destruct (String.eqb code "00"); reflexivity.
Qed.

(** An answer with an error code other than 03 and 22: one more attempt
    used, a wait of 5 seconds, and the run goes on from line 150. *)
Lemma api_error_attempt fuel include_all st data (code : string) script :
  retry_count st < max_retries ->
  resultCode data = Some code ->
  String.eqb code "00" = false ->
  String.eqb code "03" = false ->
  String.eqb code "22" = false ->
  resume fuel include_all st (Returns data :: script) =
    prepend [EvFetch (page_no st); EvSleep (IntSeconds 5)]
      (resume fuel include_all (set_retry_count st (retry_count st + 1)) script).
Proof.
  intros Hrc Hcode H00 H03 H22.
  rewrite (resume_cons _ _ _ _ _ Hrc), (try_page_code _ _ _ _ Hcode), H00, H03, H22.
  reflexivity.
Qed.

(** With no attempt left at line 150 the inner loop is over and the run
    moves to the next page: there is no abort on this path. *)
Lemma resume_exhausted fuel include_all st script :
  max_retries <= retry_count st ->
  resume fuel include_all st script =
    prepend [EvSleep (FloatSeconds RATE_LIMIT_DELAY)]
      (outer_while fuel include_all (set_page_no st (page_no st + 1)) script).
Proof.
  intros Hrc. apply Z.ltb_ge in Hrc. unfold resume, prepend.
  destruct script as [|r script]; simpl inner_while; rewrite Hrc;
    destruct (outer_while fuel include_all _ _) as [tr out]; reflexivity.
Qed.

(** The result of the outer loop does not depend on the fuel, once there
    is enough of it. *)
Lemma outer_while_fuel fuel fuel' include_all st script :
  (length script < fuel)%nat -> (length script < fuel')%nat ->
  outer_while fuel include_all st script = outer_while fuel' include_all st script.
Proof.
  revert fuel' st script.
  induction fuel as [|fuel IH]; intros fuel' st script Hlen Hlen'; [lia|].
  destruct fuel' as [|fuel']; [lia|]. simpl.
  destruct (inner_while include_all (set_retry_count st 0) script) as [[tr ex] rest] eqn:Hin.
  destruct ex as [st'|why foods|st']; [|reflexivity|reflexivity].
  destruct (inner_while_rest _ _ _ _ _ _ Hin) as [_ Hlt].
  specialize (Hlt st' eq_refl ltac:(reflexivity)).
  rewrite (IH fuel' (set_page_no st' (page_no st' + 1)) rest) by lia.
  reflexivity.
Qed.

End LoopSteps.

(** C1, as the code has it.  At a fetch of the inner loop, a page whose
    result code is 22 makes the controller wait 60 seconds and add one
    to the per-page retry counter, nothing else changing; while the
    counter is still below 3 the next fetch asks for the same page
    number. *)
Theorem rate_limit_retry (fuel : nat) (include_all : bool) (st : state)
    (data : RawPage) (script : list fetch_result) :
  retry_count st < max_retries ->
  resultCode data = Some "22" ->
  let st' := set_retry_count st (retry_count st + 1) in
  try_page include_all st (Returns data) = ([EvSleep (IntSeconds 60)], Continue st')
  /\ resume fuel include_all st (Returns data :: script) =
       prepend [EvFetch (page_no st); EvSleep (IntSeconds 60)]
         (resume fuel include_all st' script)
  /\ page_no st' = page_no st
  /\ all_foods st' = all_foods st
  /\ retry_count st' = retry_count st + 1
  /\ (retry_count st' < max_retries ->
      forall r script', exists tr out,
        resume fuel include_all st' (r :: script') = (EvFetch (page_no st) :: tr, out)).
Proof.
  intros Hrc Hcode st'.
  assert (try_page include_all st (Returns data) =
          ([EvSleep (IntSeconds 60)], Continue st')) as Htry.
  { rewrite (try_page_code _ _ _ _ Hcode). reflexivity. }
  split; [exact Htry|]. split.
  - rewrite (resume_cons _ _ _ _ _ Hrc), Htry. reflexivity.
  - repeat split. intros Hrc' r script'.
    apply (resume_fetches_current_page fuel include_all st' r script' Hrc').
Qed.

(** The first answer of a run is a rate limit. *)
Lemma rate_limit_retry_witness :
  resume 0 false initial_state [Returns (code_page "22")] =
    ([EvFetch 1; EvSleep (IntSeconds 60)],
     Pending (set_retry_count initial_state 1)).
Proof.
  exact (proj1 (proj2 (rate_limit_retry 0 false initial_state (code_page "22") []
                         eq_refl eq_refl))).
Defined.

(** C1 as stated fails: the rate-limit retry takes a position of the
    retry counter.  After one answer with code 22 the counter is 1, and
    two failed fetches after it abort the run, the wait between them
    being that of a second attempt. *)
Lemma rate_limit_consumes_retry :
  (exists st',
      snd (try_page false initial_state (Returns (code_page "22"))) = Continue st'
      /\ retry_count st' = 1
      /\ retry_count st' <> retry_count initial_state)
  /\ download_all_foods false [Returns (code_page "22"); Raises; Raises] =
       ([EvFetch 1; EvSleep (IntSeconds 60); EvFetch 1; EvSleep (IntSeconds 10); EvFetch 1],
        Finished RetriesExceeded []).
Proof.
  split; [|vm_compute; reflexivity].
  eexists. split; [reflexivity|]. split; [reflexivity|]. discriminate.
Qed.

(** C2: the code at the failing input.  Three answers with an error code
    for page 1 are each followed by a wait of 5 seconds; after the third
    the run is not aborted: it goes on to page 2 and returns what that
    page holds. *)
Theorem api_error_exhaustion_skips_page :
  download_all_foods false
    [Returns (code_page "99"); Returns (code_page "99"); Returns (code_page "99");
     Returns (ok_page 1 [sample_item "A1" "Apple" "52" "100.000g"])] =
    ([EvFetch 1; EvSleep (IntSeconds 5); EvFetch 1; EvSleep (IntSeconds 5);
      EvFetch 1; EvSleep (IntSeconds 5);
      EvSleep (FloatSeconds RATE_LIMIT_DELAY); EvFetch 2],
     Finished Complete [sample_food "A1" "Apple" 52 100 "g"])
  /\ run_state_of
       (snd (download_all_foods false
               [Returns (code_page "99"); Returns (code_page "99");
                Returns (code_page "99")])) = FETCHING.
Proof. split; vm_compute; reflexivity. Qed.

(** C3.  At a fetch of the inner loop, when [fetch_page] raises, the
    retry counter is incremented.  If it is then below 3 the controller
    waits 5 times the counter and the next fetch asks for the same page,
    the records unchanged; otherwise the run returns the records it had,
    in the aborted state.  Three failures in a row on a page abort the
    run with the records accumulated before that page. *)
Theorem fetch_failure_retry (fuel : nat) (include_all : bool) (st : state)
    (script : list fetch_result) :
  retry_count st < max_retries ->
  let st' := set_retry_count st (retry_count st + 1) in
  (retry_count st + 1 < max_retries ->
     resume fuel include_all st (Raises :: script) =
       prepend [EvFetch (page_no st); EvSleep (IntSeconds (5 * (retry_count st + 1)))]
         (resume fuel include_all st' script)
     /\ page_no st' = page_no st
     /\ all_foods st' = all_foods st
     /\ forall r script', exists tr out,
          resume fuel include_all st' (r :: script') = (EvFetch (page_no st) :: tr, out))
  /\ (max_retries <= retry_count st + 1 ->
        resume fuel include_all st (Raises :: script) =
          ([EvFetch (page_no st)], Finished RetriesExceeded (all_foods st))
        /\ run_state_of (Finished RetriesExceeded (all_foods st)) = ABORTED)
  /\ outer_while (S fuel) include_all st (Raises :: Raises :: Raises :: script) =
       ([EvFetch (page_no st); EvSleep (IntSeconds 5);
         EvFetch (page_no st); EvSleep (IntSeconds 10);
         EvFetch (page_no st)],
        Finished RetriesExceeded (all_foods st)).
Proof.
  intros Hrc st'. split; [|split].
  - intros Hnext. split.
    + rewrite (resume_cons _ _ _ _ _ Hrc). unfold try_page. fold st'.
      change (retry_count st') with (retry_count st + 1).
      apply Z.ltb_lt in Hnext. rewrite Hnext. reflexivity.
    + repeat split. intros r script'.
      apply (resume_fetches_current_page fuel include_all st' r script' Hnext).
  - intros Hlast. split; [|reflexivity].
    rewrite (resume_cons _ _ _ _ _ Hrc). unfold try_page. fold st'.
    change (retry_count st') with (retry_count st + 1).
    apply Z.ltb_ge in Hlast. rewrite Hlast. reflexivity.
  - reflexivity.
Qed.

(** A failed fetch with two attempts already used. *)
Lemma fetch_failure_retry_witness :
  resume 0 false (set_retry_count initial_state 2) [Raises] =
    ([EvFetch 1], Finished RetriesExceeded []).
Proof.
  exact (proj1 (proj1 (proj2 (fetch_failure_retry 0 false
                                (set_retry_count initial_state 2) [] eq_refl))
                 ltac:(discriminate))).
Defined.

(** C6.  At a fetch of the inner loop, a page whose result code is 03
    ends the run at once in the done state: the result is the list of
    records accumulated before it, and nothing of that page is read. *)
Theorem no_more_data_ends_run (fuel : nat) (include_all : bool) (st : state)
    (data : RawPage) (script : list fetch_result) :
  retry_count st < max_retries ->
  resultCode data = Some "03" ->
  resume fuel include_all st (Returns data :: script) =
    ([EvFetch (page_no st)], Finished DataEnd (all_foods st))
  /\ run_state_of (snd (resume fuel include_all st (Returns data :: script))) = DONE.
Proof.
  intros Hrc Hcode.
  assert (resume fuel include_all st (Returns data :: script) =
          ([EvFetch (page_no st)], Finished DataEnd (all_foods st))) as H.
  { rewrite (resume_cons _ _ _ _ _ Hrc), (try_page_code _ _ _ _ Hcode). reflexivity. }
  split; [exact H|]. now rewrite H.
Qed.

(** A page with code 03 that carries an item all the same. *)
Lemma no_more_data_ends_run_witness :
  resume 0 false initial_state
    [Returns {| resultCode := Some "03"; totalCount := Some 7;
                items := Some (ItemsList [sample_item "A1" "Apple" "52" "100.000g"]) |}] =
    ([EvFetch 1], Finished DataEnd []).
Proof.
  exact (proj1 (no_more_data_ends_run 0 false initial_state
                  {| resultCode := Some "03"; totalCount := Some 7;
                     items := Some (ItemsList [sample_item "A1" "Apple" "52" "100.000g"]) |}
                  [] eq_refl eq_refl)).
Defined.

Lemma list_truthy_false {A : Type} (l : list A) :
  negb (list_truthy l) = true <-> l = [].
Proof. destruct l; simpl; split; congruence. Qed.

(** [process_page] with the components of the scan named. *)
Lemma process_page_spec (include_all : bool) (st : state) (data : RawPage) :
  let total := match total_count st with
               | Some t => t
               | None => default 0 (totalCount data)
               end in
  let page_items := items_list (items data) in
  let fetched := fetched_count st + Z.of_nat (length page_items) in
  let scanned := scan_items include_all page_items (skipped_count st) [] in
  process_page include_all st data =
    if negb (list_truthy page_items) || (total <=? fetched)
    then Return Complete (all_foods st ++ snd scanned)
    else Break {| all_foods := all_foods st ++ snd scanned; page_no := page_no st;
                  total_count := Some total; fetched_count := fetched;
                  skipped_count := fst scanned; retry_count := retry_count st |}.
Proof.
  cbv zeta. unfold process_page.
  destruct (total_count st) as [t|];
    destruct (scan_items include_all _ (skipped_count st) []) as [sk pf]; reflexivity.
Qed.

(** C7.  At a fetch of the inner loop, a page with result code 00 ends
    the run, in the done state and with the records accumulated
    including those of this page, exactly when the page has no raw item
    or the count of items fetched so far has reached the total count;
    a page without items does so whatever the total.  Otherwise the run
    goes on with the page number advanced by one, after the inter-page
    pause, and its next fetch asks for that page. *)
Theorem page_termination_check (fuel : nat) (include_all : bool) (st : state)
    (data : RawPage) (script : list fetch_result) :
  retry_count st < max_retries ->
  resultCode data = Some "00" ->
  let total := match total_count st with
               | Some t => t
               | None => default 0 (totalCount data)
               end in
  let page_items := items_list (items data) in
  let fetched := fetched_count st + Z.of_nat (length page_items) in
  let scanned := scan_items include_all page_items (skipped_count st) [] in
  let foods := all_foods st ++ snd scanned in
  let next := {| all_foods := foods; page_no := page_no st + 1;
                 total_count := Some total; fetched_count := fetched;
                 skipped_count := fst scanned; retry_count := retry_count st |} in
  ((exists fs, snd (try_page include_all st (Returns data)) = Return Complete fs)
     <-> page_items = [] \/ total <= fetched)
  /\ (page_items = [] \/ total <= fetched ->
        resume fuel include_all st (Returns data :: script) =
          ([EvFetch (page_no st)], Finished Complete foods)
        /\ run_state_of (Finished Complete foods) = DONE)
  /\ (page_items <> [] /\ fetched < total ->
        resume fuel include_all st (Returns data :: script) =
          prepend [EvFetch (page_no st); EvSleep (FloatSeconds RATE_LIMIT_DELAY)]
            (outer_while fuel include_all next script)
        /\ forall fuel' r script', exists tr out,
             outer_while (S fuel') include_all next (r :: script') =
               (EvFetch (page_no st + 1) :: tr, out)).
Proof.
  intros Hrc Hcode total page_items fetched scanned foods next.
  pose proof (process_page_spec include_all st data) as Hpp. cbv zeta in Hpp.
  fold total page_items fetched scanned foods in Hpp.
  assert (negb (list_truthy page_items) || (total <=? fetched) = true
          <-> page_items = [] \/ total <= fetched) as Hcond.
  { rewrite orb_true_iff, list_truthy_false, Z.leb_le. reflexivity. }
  assert (try_page include_all st (Returns data) =
          ([], process_page include_all st data)) as Htry.
  { rewrite (try_page_code include_all st data "00" Hcode). reflexivity. }
  split; [|split].
  - rewrite Htry, Hpp. simpl snd. rewrite <- Hcond.
    destruct (negb (list_truthy page_items) || (total <=? fetched)).
    + split; [reflexivity|]. intros _. now exists foods.
    + split; [|discriminate]. intros [fs Hfs]. discriminate.
  - intros H. apply Hcond in H. split; [|reflexivity].
    rewrite (resume_cons _ _ _ _ _ Hrc), Htry, Hpp, H. reflexivity.
  - intros [Hne Hlt]. split.
    + assert (negb (list_truthy page_items) || (total <=? fetched) = false) as Hf.
      { apply not_true_is_false. rewrite Hcond. intros [H|H]; [congruence|lia]. }
      rewrite (resume_cons _ _ _ _ _ Hrc), Htry, Hpp, Hf. reflexivity.
    + intros fuel' r script'.
      apply (outer_while_fetches_current_page fuel' include_all next r script').
Qed.

(** A page without items while the total is 500. *)
Lemma page_termination_check_witness :
  resume 0 false initial_state [Returns (ok_page 500 [])] =
    ([EvFetch 1], Finished Complete []).
Proof.
  exact (proj1 (proj1 (proj2 (page_termination_check 0 false initial_state
                                (ok_page 500 []) [] eq_refl eq_refl))
                 (or_introl eq_refl))).
Defined.

(** ** A run from end to end *)

(** Page 1 holds one representative item and page 2 answers 03: the run
    fetches both pages and returns the record of that item; after
    deduplication it is the only record. *)
Example one_page_then_end :
  download_all_foods false
    [Returns (ok_page 1000 [sample_item "A1" "Apple" "52" "100.000g"]);
     Returns (code_page "03")] =
    ([EvFetch 1; EvSleep (FloatSeconds RATE_LIMIT_DELAY); EvFetch 2],
     Finished DataEnd [sample_food "A1" "Apple" 52 100 "g"])
  /\ deduplicate_foods
       [sample_food "A1" "Apple" 52 100 "g"; sample_food "A1" "Apple (copy)" 52 100 "g"] =
       [sample_food "A1" "Apple" 52 100 "g"].
Proof. split; vm_compute; reflexivity. Qed.

(* ===================================================================== *)
(** * Further properties *)

(** ** More on [strip] *)

Section StripFacts.
Import PyStr.

Lemma rstrip_idempotent (s : str) : rstrip (rstrip s) = rstrip s.
Proof.
  induction s as [|c s IH]; [reflexivity|]. simpl.
  destruct (rstrip s) as [|d r] eqn:Hr.
  - destruct (is_space c) eqn:Hc; [reflexivity|]. simpl. now rewrite Hc.
  - simpl. simpl in IH. now rewrite IH.
Qed.

(** [rstrip] keeps a first character that is not whitespace. *)
Lemma rstrip_head (c : N) (s : str) :
  is_space c = false -> exists r, rstrip (c :: s) = c :: r.
Proof.
  intros Hc. simpl. destruct (rstrip s) as [|d r]; rewrite ?Hc; eauto.
Qed.

Lemma lstrip_rstrip_lstrip (s : str) :
  lstrip (rstrip (lstrip s)) = rstrip (lstrip s).
Proof.
  induction s as [|c s IH]; [reflexivity|]. simpl lstrip_by at 2 3.
  destruct (is_space c) eqn:Hc; [exact IH|].
  destruct (rstrip_head c s Hc) as [r ->]. simpl. now rewrite Hc.
Qed.

(** Stripping twice is stripping once: a stripped text has no
    whitespace left at either end. *)
Lemma strip_idempotent (s : str) : strip (strip s) = strip s.
Proof.
  unfold strip_by. rewrite lstrip_rstrip_lstrip. apply rstrip_idempotent.
Qed.

Lemma all_space_lstrip (s : str) :
  all_chars is_space (lstrip s) = all_chars is_space s.
Proof.
  induction s as [|c s IH]; [reflexivity|]. simpl.
  destruct (is_space c) eqn:Hc; simpl; [exact IH|]. now rewrite Hc.
Qed.

Lemma all_space_rstrip (s : str) :
  all_chars is_space (rstrip s) = all_chars is_space s.
Proof.
  induction s as [|c s IH]; [reflexivity|]. simpl.
  destruct (rstrip s) as [|d r] eqn:Hr.
  - assert (all_chars is_space s = true) as -> by now apply rstrip_empty_iff.
    destruct (is_space c) eqn:Hc; simpl; now rewrite ?Hc.
  - simpl. simpl in IH. now rewrite IH.
Qed.

Lemma all_space_strip (s : str) :
  all_chars is_space (strip s) = all_chars is_space s.
Proof. unfold strip_by. now rewrite all_space_rstrip, all_space_lstrip. Qed.

(** A text that is not empty and is its own strip is not blank. *)
Lemma stripped_not_blank (s : str) :
  strip s = s -> s <> [] -> all_chars is_space s = false.
Proof.
  intros Hs Hne. destruct (all_chars is_space s) eqn:H; [|reflexivity].
  apply strip_empty_iff in H. congruence.
Qed.

End StripFacts.

(** ** More on [parse_food_item] *)

Section ParseFacts.
Import PyStr.

Lemma or_None_Some (s u : str) :
  or_None s = Some u -> u = s /\ s <> [].
Proof.
  unfold or_None. destruct (nonempty s) eqn:H; [|discriminate].
  intros [= <-]. split; [reflexivity|]. now apply nonempty_true.
Qed.

Lemma or_None_strip_clean (s u : str) :
  or_None (strip s) = Some u -> clean_text u.
Proof.
  intros H. apply or_None_Some in H as [-> Hne].
  split; [exact Hne|apply strip_idempotent].
Qed.

Lemma serving_unit_clean (item : RawItem) (u : str) :
  snd (serving item) = Some u -> clean_text u.
Proof.
  unfold serving. destruct (serving_primary item) as [sz un] eqn:Hp.
  simpl. intros ->. unfold serving_primary in Hp.
  destruct (truthy _ && nonempty _); [|discriminate].
  destruct (Re.match_number_unit _) as [[g1 g2]|]; [|discriminate].
  injection Hp as _ Hu. now apply or_None_strip_clean in Hu.
Qed.

Lemma maker_name_clean (item : RawItem) (m : str) :
  maker_name item = Some m -> clean_text m /\ m <> lit "None".
Proof.
  unfold maker_name. destruct (truthy (get item "MAKER_NM")) eqn:Ht; [|discriminate].
  simpl andb.
  destruct (eqb (strip (py_str (get item "MAKER_NM"))) (lit "None")) eqn:He;
    [discriminate|].
  simpl negb. cbv iota. intros H.
  pose proof (or_None_strip_clean _ _ H) as Hc.
  apply or_None_Some in H as [-> _].
  split; [exact Hc|]. now apply eqb_neq.
Qed.

End ParseFacts.

Lemma parse_food_item_shape (item : RawItem) (f : food) :
  parse_food_item item = Some f -> well_formed f.
Proof.
  unfold parse_food_item.
  destruct (PyStr.nonempty (PyStr.strip (get_or_empty item "FOOD_CD"))) eqn:Hcd;
    [|discriminate].
  destruct (PyStr.nonempty (PyStr.strip (get_or_empty item "FOOD_NM_KR"))) eqn:Hnm;
    [|discriminate].
  simpl negb. simpl orb. cbv iota.
  destruct (safe_float (get item "AMT_NUM1")) as [cal|]; [|discriminate].
  destruct (serving item) as [sz un] eqn:Hsv.
  intros [= <-]. unfold well_formed. simpl.
  apply nonempty_true in Hcd, Hnm.
  split; [|split; [|split; [|split]]].
  - eexists. split; [reflexivity|]. split; [exact Hcd|apply strip_idempotent].
  - split; [exact Hnm|apply strip_idempotent].
  - intros u Hu. apply (serving_unit_clean item). now rewrite Hsv.
  - intros g Hg. now apply or_None_strip_clean in Hg.
  - intros m Hm. now apply maker_name_clean in Hm.
Qed.

(** X1.  Every record that [parse_food_item] returns has a food code and
    a name that are not empty and carry no whitespace at either end; a
    serving unit, a group name and a maker name, when present, are such
    texts too, and the maker name is never the text None. *)
Theorem parse_food_item_well_formed (item : RawItem) (f : food) :
  parse_food_item item = Some f -> well_formed f.
Proof. apply parse_food_item_shape. Qed.

Lemma parse_food_item_well_formed_witness :
  well_formed (sample_food "A1" "Apple" 52 100 "g").
Proof.
  apply (parse_food_item_well_formed (sample_item "A1" "Apple" "52" "100.000g")).
  vm_compute. reflexivity.
Defined.

(** X2.  [parse_food_item] reads thirteen keys of the raw item and no
    other: two items that agree on those keys give the same result, so
    adding, changing or removing any other key changes nothing. *)
Theorem parse_food_item_reads_only (item1 item2 : RawItem) :
  Forall (fun k => item1 !! k = item2 !! k) parse_keys ->
  parse_food_item item1 = parse_food_item item2.
Proof.
  unfold parse_keys. intros H.
  repeat (apply Forall_cons in H as [? H]).
  unfold parse_food_item, serving, serving_primary, serving_fallback, maker_name,
    get_or_empty, get.
  repeat match goal with
         | E : item1 !! _ = item2 !! _ |- _ => rewrite E; clear E
         end.
  reflexivity.
Qed.

Lemma parse_food_item_reads_only_witness :
  parse_food_item
    (<[ "DB_GRP_NM" := JStr (lit "x") ]> (sample_item "A1" "Apple" "52" "100.000g")) =
  parse_food_item (delete "DB_CLASS_CM" (sample_item "A1" "Apple" "52" "100.000g")).
Proof.
  apply parse_food_item_reads_only.
  unfold parse_keys. repeat constructor.
Defined.

(** ** More on [safe_float] *)

Section SafeFloatFacts.
Import PyStr.

Lemma lstrip_rstrip_comm (s : str) : lstrip (rstrip s) = rstrip (lstrip s).
Proof. apply lstrip_rstrip_by_comm. Qed.

Lemma comma_not_space : is_space COMMA = false.
Proof. reflexivity. Qed.

Lemma eqb_comma_space (c : N) : (c =? COMMA)%N = true -> is_space c = false.
Proof. intros H. apply N.eqb_eq in H. now subst. Qed.

Lemma lstrip_remove_lstrip (s : str) :
  lstrip (remove_char COMMA (lstrip s)) = lstrip (remove_char COMMA s).
Proof.
  induction s as [|c s IH]; [reflexivity|]. simpl lstrip_by at 2.
  destruct (is_space c) eqn:Hc; [|reflexivity].
  simpl remove_char. destruct (c =? COMMA)%N eqn:E.
  - apply eqb_comma_space in E. congruence.
  - simpl. now rewrite Hc.
Qed.

Lemma remove_all_space (s : str) :
  all_chars is_space s = true -> remove_char COMMA s = s.
Proof.
  induction s as [|c s IH]; [reflexivity|]. simpl.
  intros H. apply andb_true_iff in H as [Hc Hs].
  destruct (c =? COMMA)%N eqn:E.
  - apply eqb_comma_space in E. congruence.
  - now rewrite IH.
Qed.

Lemma rstrip_cons_ext (c : N) (s t : str) :
  rstrip s = rstrip t -> rstrip (c :: s) = rstrip (c :: t).
Proof. intros H. simpl. now rewrite H. Qed.

Lemma rstrip_remove_rstrip (s : str) :
  rstrip (remove_char COMMA (rstrip s)) = rstrip (remove_char COMMA s).
Proof.
  induction s as [|c s IH]; [reflexivity|].
  cbn [rstrip_by]. destruct (rstrip s) as [|d r] eqn:Hr.
  - assert (all_chars is_space s = true) as Hs by now apply rstrip_empty_iff.
    cbn [remove_char]. rewrite (remove_all_space s Hs).
    destruct (c =? COMMA)%N eqn:E.
    + rewrite (eqb_comma_space c E). cbn [remove_char]. rewrite E.
      cbn [rstrip_by]. now rewrite Hr.
    + destruct (is_space c) eqn:Hc.
      * cbn [remove_char rstrip_by]. now rewrite Hr, Hc.
      * cbn [remove_char]. rewrite E. cbn [remove_char rstrip_by]. now rewrite Hr, Hc.
  - cbn [remove_char]. destruct (c =? COMMA)%N; [exact IH|].
    apply rstrip_cons_ext. exact IH.
Qed.

(** Removing the commas before or after stripping gives the same text
    once stripped again. *)
Lemma strip_remove_strip (s : str) :
  strip (remove_char COMMA (strip s)) = strip (remove_char COMMA s).
Proof.
  unfold strip_by.
  rewrite <- (lstrip_rstrip_comm (remove_char COMMA (rstrip (lstrip s)))).
  rewrite rstrip_remove_rstrip, lstrip_rstrip_comm, lstrip_remove_lstrip.
  reflexivity.
Qed.

Lemma remove_char_idempotent (c : N) (s : str) :
  remove_char c (remove_char c s) = remove_char c s.
Proof.
  induction s as [|d s IH]; [reflexivity|]. simpl.
  destruct (d =? c)%N eqn:E; [exact IH|]. simpl. now rewrite E, IH.
Qed.

Lemma all_space_remove (s : str) :
  all_chars is_space s = true -> all_chars is_space (remove_char COMMA s) = true.
Proof. intros H. now rewrite remove_all_space. Qed.

(** What holds of every character of a text holds of those that
    [replace] and [strip] leave. *)
Lemma all_chars_remove (q : N -> bool) (c : N) (s : str) :
  all_chars q s = true -> all_chars q (remove_char c s) = true.
Proof.
  induction s as [|d s IH]; [reflexivity|]. simpl.
  intros H. apply andb_true_iff in H as [Hd Hs].
  destruct (d =? c)%N; simpl; [auto|]. now rewrite Hd, IH.
Qed.

Lemma all_chars_strip (q : N -> bool) (s : str) :
  all_chars q s = true -> all_chars q (strip s) = true.
Proof.
  intros H. destruct (strip_by_split is_space s) as (a & b & Hs & _ & _).
  rewrite Hs, !all_chars_app in H.
  apply andb_true_iff in H as [_ H]. now apply andb_true_iff in H as [H _].
Qed.

(** Whitespace other than the separators is read by [float] as the
    whitespace that it skips. *)
Lemma to_ascii_c_space (c : N) :
  is_space c = true -> is_separator c = false ->
  PyFloat.is_c_space (PyFloat.to_ascii c) = true.
Proof.
  intros Hs Hsep. unfold PyFloat.to_ascii. destruct (c <? 128)%N eqn:Hc.
  - apply N.ltb_lt in Hc. apply is_space_cases in Hs.
    unfold is_separator in Hsep. apply andb_false_iff in Hsep.
    rewrite !N.leb_gt in Hsep.
    unfold PyFloat.is_c_space. apply orb_true_iff.
    rewrite andb_true_iff, !N.leb_le, N.eqb_eq. lia.
  - now rewrite Hs.
Qed.

Lemma map_to_ascii_c_space (a : str) :
  all_chars is_space a = true ->
  all_chars (fun c => negb (is_separator c)) a = true ->
  all_chars PyFloat.is_c_space (map PyFloat.to_ascii a) = true.
Proof.
  induction a as [|c a IH]; [reflexivity|]. simpl.
  intros H1 H2. apply andb_true_iff in H1 as [Hc Ha].
  apply andb_true_iff in H2 as [Hs Hb]. apply negb_true_iff in Hs.
  now rewrite (to_ascii_c_space c Hc Hs), IH.
Qed.

(** On a text without separators [float] looks at the stripped text
    only. *)
Lemma of_string_strip (s : str) :
  all_chars (fun c => negb (is_separator c)) s = true ->
  PyFloat.of_string (strip s) = PyFloat.of_string s.
Proof.
  intros H. destruct (strip_by_split is_space s) as (a & b & Hs & Ha & Hb).
  rewrite Hs in H at 1. rewrite !all_chars_app in H.
  apply andb_true_iff in H as [Hsa H]. apply andb_true_iff in H as [_ Hsb].
  unfold PyFloat.of_string. rewrite Hs at 2. rewrite !map_app.
  rewrite (strip_by_margins PyFloat.is_c_space); [reflexivity| |];
    now apply map_to_ascii_c_space.
Qed.

Lemma of_string_ext (s t : str) :
  all_chars (fun c => negb (is_separator c)) s = true ->
  all_chars (fun c => negb (is_separator c)) t = true ->
  strip s = strip t -> PyFloat.of_string s = PyFloat.of_string t.
Proof.
  intros Hs Ht H.
  rewrite <- (of_string_strip s Hs), <- (of_string_strip t Ht). now rewrite H.
Qed.

Lemma of_string_blank (s : str) :
  all_chars (fun c => negb (is_separator c)) s = true ->
  all_chars is_space s = true -> PyFloat.of_string s = None.
Proof.
  intros Hsep H. rewrite <- (of_string_strip s Hsep).
  apply strip_empty_iff in H. now rewrite H.
Qed.

End SafeFloatFacts.

(** X3.  [safe_float] does not depend on whitespace around the text,
    nor, when the text holds none of the separators FS, GS, RS and US,
    on commas anywhere in it: stripping the text first, or removing its
    commas first, gives the same result.  A separator that a comma
    keeps away from the margin makes the difference: a comma, FS and a
    5 give [None], and FS and a 5 give 5.0. *)
Theorem safe_float_ignores_commas_and_margins :
  (forall s : str, safe_float (JStr (PyStr.strip s)) = safe_float (JStr s))
  /\ (forall s : str,
        PyStr.all_chars (fun c => negb (is_separator c)) s = true ->
        safe_float (JStr (PyStr.remove_char COMMA s)) = safe_float (JStr s))
  /\ safe_float (JStr [COMMA; 28; 53]%N) = None
  /\ safe_float (JStr (PyStr.remove_char COMMA [COMMA; 28; 53]%N)) = Some 5%float.
Proof.
  split; [|split; [|split; vm_compute; reflexivity]].
  - intros s. rewrite !safe_float_text, all_space_strip, strip_idempotent. reflexivity.
  - intros s Hsep. rewrite !safe_float_text.
    assert (PyFloat.of_string
              (PyStr.remove_char COMMA (PyStr.strip (PyStr.remove_char COMMA s))) =
            PyFloat.of_string (PyStr.remove_char COMMA (PyStr.strip s))) as Heq.
    { apply of_string_ext.
      - now apply all_chars_remove, all_chars_strip, all_chars_remove.
      - now apply all_chars_remove, all_chars_strip.
      - rewrite !strip_remove_strip. now rewrite remove_char_idempotent. }
    rewrite Heq.
    destruct (PyStr.all_chars PyStr.is_space s) eqn:Hs.
    + now rewrite (all_space_remove s Hs).
    + destruct (PyStr.all_chars PyStr.is_space (PyStr.remove_char COMMA s)) eqn:Hr;
        [|reflexivity].
      rewrite (of_string_ext _ (PyStr.remove_char COMMA s)).
      * now rewrite (of_string_blank _ (all_chars_remove _ _ _ Hsep) Hr).
      * now apply all_chars_remove, all_chars_strip.
      * now apply all_chars_remove.
      * rewrite strip_remove_strip. reflexivity.
Qed.

Lemma safe_float_ignores_commas_and_margins_witness :
  safe_float (JStr (PyStr.remove_char COMMA (lit " 1,234.5 "))) =
    safe_float (JStr (lit " 1,234.5 ")).
Proof.
  apply (proj1 (proj2 safe_float_ignores_commas_and_margins) (lit " 1,234.5 ")).
  reflexivity.
Defined.

Section CaseFacts.
Import PyStr.

Lemma lower_variant (d : N) : In d (char_variants (lower d)).
Proof.
  unfold lower, char_variants.
  destruct ((65 <=? d)%N && (d <=? 90)%N) eqn:Hu.
  - apply andb_true_iff in Hu as [H1 H2]. apply N.leb_le in H1, H2.
    assert ((97 <=? d + 32)%N && (d + 32 <=? 122)%N = true) as ->.
    { apply andb_true_iff. split; apply N.leb_le; lia. }
    right. left. lia.
  - destruct ((97 <=? d)%N && (d <=? 122)%N); now left.
Qed.

(** A text that lower-cases to [w] is one of the spellings of [w]. *)
Lemma lowercase_variants (t w : str) : lowercase t = w -> In t (variants w).
Proof.
  revert w. induction t as [|d t IH]; intros w <-; [now left|].
  unfold lowercase. cbn [map variants]. apply in_flat_map.
  exists t. split; [now apply IH|].
  apply in_map_iff. exists d. split; [reflexivity|apply lower_variant].
Qed.

Lemma safe_float_of_strip (s t : str) (x : float) :
  strip s = t -> t <> [] ->
  option_map PyFloat.round2 (PyFloat.of_string (remove_char COMMA t)) = Some x ->
  safe_float (JStr s) = Some x.
Proof.
  intros Hs Hne Hx. rewrite safe_float_text, Hs, Hx.
  destruct (all_chars is_space s) eqn:H; [|reflexivity].
  apply strip_empty_iff in H. congruence.
Qed.

Lemma safe_float_word (w : str) (x : float) :
  w <> [] ->
  Forall (fun t => option_map PyFloat.round2
                     (PyFloat.of_string (remove_char COMMA t)) = Some x) (variants w) ->
  forall s, lowercase (strip s) = w -> safe_float (JStr s) = Some x.
Proof.
  intros Hne Hall s Hs.
  apply (safe_float_of_strip s (strip s) x); [reflexivity| |].
  - intros E. rewrite E in Hs. simpl in Hs. congruence.
  - apply lowercase_variants in Hs.
    exact (proj1 (List.Forall_forall _ _) Hall _ Hs).
Qed.

End CaseFacts.

(** X4.  [safe_float] does not reject the words that [float] reads as
    special values: a text that is nan, inf or infinity, in any mix of
    upper and lower case and with whitespace around it, gives NaN or an
    infinity, with the sign of a leading minus, and not [None]. *)
Theorem safe_float_accepts_nonfinite (s : str) :
  (PyStr.lowercase (PyStr.strip s) = lit "nan" -> safe_float (JStr s) = Some nan)
  /\ (PyStr.lowercase (PyStr.strip s) = lit "inf"
      \/ PyStr.lowercase (PyStr.strip s) = lit "infinity" ->
      safe_float (JStr s) = Some infinity)
  /\ (PyStr.lowercase (PyStr.strip s) = lit "-inf"
      \/ PyStr.lowercase (PyStr.strip s) = lit "-infinity" ->
      safe_float (JStr s) = Some neg_infinity).
Proof.
  split; [|split].
  - apply safe_float_word; [discriminate|].
    vm_compute variants. repeat (apply Forall_cons; split; [vm_compute; reflexivity|]).
    apply Forall_nil. exact I.
  - intros [H|H]; revert H; apply safe_float_word; try discriminate.
    + vm_compute variants. repeat (apply Forall_cons; split; [vm_compute; reflexivity|]).
      apply Forall_nil. exact I.
    + vm_compute variants. repeat (apply Forall_cons; split; [vm_compute; reflexivity|]).
      apply Forall_nil. exact I.
  - intros [H|H]; revert H; apply safe_float_word; try discriminate.
    + vm_compute variants. repeat (apply Forall_cons; split; [vm_compute; reflexivity|]).
      apply Forall_nil. exact I.
    + vm_compute variants. repeat (apply Forall_cons; split; [vm_compute; reflexivity|]).
      apply Forall_nil. exact I.
Qed.

Lemma safe_float_accepts_nonfinite_witness :
  safe_float (JStr (lit " NaN ")) = Some nan.
Proof.
  apply (proj1 (safe_float_accepts_nonfinite (lit " NaN "))). reflexivity.
Defined.

(** ** More on the serving descriptor *)

(** X5.  The descriptor pattern of line 96 matches a text, with groups
    [g1] and [g2], exactly when the text is [g1], then whitespace, then
    [g2], then nothing or one final line feed, where [g1] is a run of
    digits, commas and dots that is not empty and is not followed by
    one more, the whitespace is all that follows it, and [g2] holds no
    line feed.  So the split is unique: backtracking never yields a
    shorter number or a unit that starts with whitespace. *)
Theorem match_number_unit_iff (s g1 g2 : str) :
  Re.match_number_unit s = Some (g1, g2) <->
  exists ws tail : str,
    s = g1 ++ ws ++ g2 ++ tail
    /\ g1 <> []
    /\ PyStr.all_chars Re.numeric_char g1 = true
    /\ starts_with Re.numeric_char (ws ++ g2 ++ tail) = false
    /\ PyStr.all_chars PyStr.is_space ws = true
    /\ starts_with PyStr.is_space (g2 ++ tail) = false
    /\ PyStr.all_chars Re.dot g2 = true
    /\ (tail = [] \/ tail = [LF]).
Proof.
  rewrite match_number_unit_spec. split.
  - pose proof (span_app Re.numeric_char s) as H1.
    pose proof (span_all Re.numeric_char s) as A1.
    pose proof (span_rest Re.numeric_char s) as R1.
    destruct (PyStr.span Re.numeric_char s) as [n r1]. simpl in H1, A1, R1.
    pose proof (span_app PyStr.is_space r1) as H2.
    pose proof (span_all PyStr.is_space r1) as A2.
    pose proof (span_rest PyStr.is_space r1) as R2.
    destruct (PyStr.span PyStr.is_space r1) as [ws r2]. simpl in H2, A2, R2.
    pose proof (span_app Re.dot r2) as H3.
    pose proof (span_all Re.dot r2) as A3.
    destruct (PyStr.span Re.dot r2) as [u r3]. simpl in H3, A3.
    destruct (PyStr.nonempty n) eqn:Hn; [|discriminate].
    destruct (Re.at_end r3) eqn:He; [|discriminate].
    simpl. intros [= <- <-].
    exists ws, r3. subst r2 r1.
    repeat split; auto.
    + now apply nonempty_true.
    + now apply at_end_cases.
  - intros (ws & tail & -> & Hne & A1 & R1 & A2 & R2 & A3 & Ht).
    rewrite (span_exact _ _ _ A1 R1), (span_exact _ _ _ A2 R2).
    assert (starts_with Re.dot tail = false) as R3
      by (destruct Ht as [->| ->]; reflexivity).
    rewrite (span_exact _ _ _ A3 R3).
    apply nonempty_true in Hne. rewrite Hne.
    apply at_end_cases in Ht. now rewrite Ht.
Qed.

Lemma get_insert_ne (item : RawItem) (k k' : string) (v : json_value) :
  k <> k' -> get (<[ k := v ]> item) k' = get item k'.
Proof. intros H. unfold get. now rewrite lookup_insert_ne. Qed.

Lemma get_delete_ne (item : RawItem) (k k' : string) :
  k <> k' -> get (delete k item) k' = get item k'.
Proof. intros H. unfold get. now rewrite lookup_delete_ne. Qed.

(** X6.  The secondary field is consulted for the size only, and only
    when the primary gives none: the unit is the same whatever
    [SERVING_SIZE] holds, and so is the size as soon as [Z10500] gives
    one. *)
Theorem serving_size_field_secondary (item : RawItem) (v : json_value) :
  snd (serving (<[ "SERVING_SIZE" := v ]> item)) = snd (serving item)
  /\ snd (serving (delete "SERVING_SIZE" item)) = snd (serving item)
  /\ (fallback_taken item = false ->
      serving (<[ "SERVING_SIZE" := v ]> item) = serving item
      /\ serving (delete "SERVING_SIZE" item) = serving item).
Proof.
  assert (serving_primary (<[ "SERVING_SIZE" := v ]> item) = serving_primary item) as Hi.
  { unfold serving_primary. now rewrite get_insert_ne by discriminate. }
  assert (serving_primary (delete "SERVING_SIZE" item) = serving_primary item) as Hd.
  { unfold serving_primary. now rewrite get_delete_ne by discriminate. }
  unfold serving, fallback_taken. rewrite Hi, Hd.
  destruct (serving_primary item) as [[x|] u]; simpl.
  - repeat split.
  - repeat split; discriminate.
Qed.

Lemma serving_size_field_secondary_witness :
  serving (<[ "SERVING_SIZE" := JStr (lit "7") ]>
             (sample_item "A1" "Apple" "52" "100.000g")) =
  serving (sample_item "A1" "Apple" "52" "100.000g").
Proof.
  apply (proj1 (proj2 (proj2 (serving_size_field_secondary
                                (sample_item "A1" "Apple" "52" "100.000g")
                                (JStr (lit "7")))) eq_refl)).
Defined.

(** ** More on the item loop *)

Lemma scan_items_acc (include_all : bool) (items : list RawItem)
    (skipped : Z) (page_foods : list food) :
  scan_items include_all items skipped page_foods =
    (skipped + Z.of_nat (length (List.filter (fun i => negb (selected include_all i)) items)),
     page_foods ++ omap parse_food_item (List.filter (selected include_all) items)).
Proof.
  revert skipped page_foods.
  induction items as [|item rest IH]; intros skipped page_foods.
  - simpl. now rewrite Z.add_0_r, app_nil_r.
  - cbn [scan_items List.filter].
    replace (negb include_all && negb (bool_decide (get item "DB_CLASS_CM" = JStr (lit "01"))))
      with (negb (selected include_all item))
      by (unfold selected; apply negb_orb).
    destruct (selected include_all item); simpl negb; cbv iota.
    + cbn [omap list_omap].
      destruct (parse_food_item item) as [f|]; rewrite IH; [|reflexivity].
      now rewrite <- app_assoc.
    + rewrite IH. cbn [length]. f_equal. lia.
Qed.

Lemma length_omap_le {A B : Type} (g : A -> option B) (l : list A) :
  (length (omap g l) <= length l)%nat.
Proof.
  induction l as [|x l IH]; [reflexivity|]. cbn [omap list_omap].
  destruct (g x); simpl; lia.
Qed.

Lemma length_filter_split {A : Type} (p : A -> bool) (l : list A) :
  (length (List.filter p l) + length (List.filter (fun x => negb (p x)) l) = length l)%nat.
Proof.
  induction l as [|x l IH]; [reflexivity|]. simpl.
  destruct (p x); simpl; lia.
Qed.

(** X7.  The item loop of a page is a filter followed by a map: the
    records of the page are the results of [parse_food_item] on the
    items that pass the classification test, in order, without those
    it rejects; the skipped counter grows by the number of items that
    fail the test, and by nothing when [include_all] is set.  Each item
    is skipped, dropped or kept once, so records and skips together do
    not exceed the items. *)
Theorem scan_items_filter_map (include_all : bool) (items : list RawItem) (skipped : Z) :
  scan_items include_all items skipped [] =
    (skipped + Z.of_nat (length (List.filter (fun i => negb (selected include_all i)) items)),
     omap parse_food_item (List.filter (selected include_all) items))
  /\ fst (scan_items true items skipped []) = skipped
  /\ snd (scan_items true items skipped []) = omap parse_food_item items
  /\ Z.of_nat (length (snd (scan_items include_all items skipped [])))
       + (fst (scan_items include_all items skipped []) - skipped)
     <= Z.of_nat (length items).
Proof.
  rewrite !scan_items_acc. cbn [fst snd app].
  split; [reflexivity|]. split; [|split].
  - assert (List.filter (fun i => negb (selected true i)) items = []) as ->.
    { induction items as [|i l IH]; [reflexivity|]. exact IH. }
    simpl. lia.
  - f_equal. induction items as [|i l IH]; [reflexivity|]. simpl. now rewrite IH.
  - pose proof (length_omap_le parse_food_item
                  (List.filter (selected include_all) items)).
    pose proof (length_filter_split (selected include_all) items). lia.
Qed.

(** ** Invariants of a run *)

Section RunInvariant.
Variable include_all : bool.
Variable Inv : state -> Prop.
Variable Post : list food -> Prop.
Variable Ev : event -> Prop.

Hypothesis Ev_fetch : forall p, Ev (EvFetch p).
Hypothesis Ev_pause : Ev (EvSleep (FloatSeconds RATE_LIMIT_DELAY)).
Hypothesis Inv_reset : forall st, Inv st -> Inv (set_retry_count st 0).
Hypothesis Inv_next : forall st, Inv st -> Inv (set_page_no st (page_no st + 1)).
Hypothesis Inv_try :
  forall st r waits fl,
    Inv st -> retry_count st < max_retries ->
    try_page include_all st r = (waits, fl) ->
    Forall Ev waits
    /\ match fl with
       | Continue st' => Inv st'
       | Break st' => Inv st'
       | Return _ foods => Post foods
       end.

Lemma inner_while_invariant (st : state) (script : list fetch_result)
    (tr : list event) (ex : inner_exit) (rest : list fetch_result) :
  Inv st ->
  inner_while include_all st script = (tr, ex, rest) ->
  Forall Ev tr
  /\ match ex with
     | LoopLeft st' => Inv st'
     | Returned _ foods => Post foods
     | Waiting st' => Inv st' /\ retry_count st' < max_retries
     end.
Proof.
  revert st tr ex rest. induction script as [|r script IH]; intros st tr ex rest HI.
  - simpl. destruct (retry_count st <? max_retries) eqn:Hrc; intros [= <- <- <-].
    + apply Z.ltb_lt in Hrc. auto.
    + auto.
  - cbn [inner_while]. destruct (retry_count st <? max_retries) eqn:Hrc.
    + apply Z.ltb_lt in Hrc.
      destruct (try_page include_all st r) as [waits fl] eqn:Ht.
      destruct (Inv_try _ _ _ _ HI Hrc Ht) as [Hw Hfl].
      destruct fl as [st'|st'|why foods].
      * destruct (inner_while include_all st' script) as [[tr1 ex1] rest1] eqn:Hin.
        intros [= <- <- <-]. destruct (IH _ _ _ _ Hfl Hin) as [Htr Hex].
        split; [|exact Hex].
        constructor; [apply Ev_fetch|]. apply Forall_app. auto.
      * intros [= <- <- <-]. split; [|exact Hfl]. constructor; auto.
      * intros [= <- <- <-]. split; [|exact Hfl]. constructor; auto.
    + intros [= <- <- <-]. auto.
Qed.

Lemma outer_while_invariant (fuel : nat) (st : state) (script : list fetch_result) :
  Inv st ->
  Forall Ev (fst (outer_while fuel include_all st script))
  /\ match snd (outer_while fuel include_all st script) with
     | Finished _ foods => Post foods
     | Pending st' => Inv st' /\ retry_count st' < max_retries
     | OutOfFuel => True
     end.
Proof.
  revert st script. induction fuel as [|fuel IH]; intros st script HI; [simpl; auto|].
  cbn [outer_while].
  destruct (inner_while include_all (set_retry_count st 0) script)
    as [[tr ex] rest] eqn:Hin.
  destruct (inner_while_invariant _ _ _ _ _ (Inv_reset _ HI) Hin) as [Htr Hex].
  destruct ex as [st'|why foods|st'].
  - specialize (IH (set_page_no st' (page_no st' + 1)) rest (Inv_next _ Hex)).
    destruct (outer_while fuel include_all _ rest) as [tr' out].
    simpl in *. destruct IH as [Htr' Hout]. split; [|exact Hout].
    apply Forall_app. split; [exact Htr|]. constructor; auto.
  - simpl. auto.
  - simpl. auto.
Qed.

Lemma resume_invariant (fuel : nat) (st : state) (script : list fetch_result) :
  Inv st ->
  Forall Ev (fst (resume fuel include_all st script))
  /\ match snd (resume fuel include_all st script) with
     | Finished _ foods => Post foods
     | Pending st' => Inv st' /\ retry_count st' < max_retries
     | OutOfFuel => True
     end.
Proof.
  intros HI. unfold resume.
  destruct (inner_while include_all st script) as [[tr ex] rest] eqn:Hin.
  destruct (inner_while_invariant _ _ _ _ _ HI Hin) as [Htr Hex].
  destruct ex as [st'|why foods|st'].
  - pose proof (outer_while_invariant fuel _ rest (Inv_next _ Hex)) as H.
    destruct (outer_while fuel include_all _ rest) as [tr' out].
    simpl in *. destruct H as [Htr' Hout]. split; [|exact Hout].
    apply Forall_app. split; [exact Htr|]. constructor; auto.
  - simpl. auto.
  - simpl. auto.
Qed.

End RunInvariant.

Section RunFacts.
Implicit Types (st : state) (script : list fetch_result) (fuel : nat).

Lemma scan_items_well_formed include_all (items : list RawItem) (skipped : Z) :
  Forall well_formed (snd (scan_items include_all items skipped [])).
Proof.
  rewrite scan_items_acc. cbn [snd app].
  apply Forall_forall. intros f Hf.
  apply list_elem_of_omap in Hf as (item & _ & Hp).
  now apply parse_food_item_shape in Hp.
Qed.

Lemma scan_items_counts include_all (items : list RawItem) (skipped : Z) :
  skipped <= fst (scan_items include_all items skipped [])
  /\ Z.of_nat (length (snd (scan_items include_all items skipped [])))
       + (fst (scan_items include_all items skipped []) - skipped)
     <= Z.of_nat (length items).
Proof.
  rewrite scan_items_acc. cbn [fst snd app].
  pose proof (length_omap_le parse_food_item (List.filter (selected include_all) items)).
  pose proof (length_filter_split (selected include_all) items). lia.
Qed.

(** One pass through the [try] statement keeps the state in order, and
    its waits are of 5, 10 or 60 seconds. *)
Lemma try_page_state_ok include_all st r waits fl :
  state_ok st -> retry_count st < max_retries ->
  try_page include_all st r = (waits, fl) ->
  Forall known_wait waits
  /\ match fl with
     | Continue st' => state_ok st'
     | Break st' => state_ok st'
     | Return _ foods => Forall well_formed foods
     end.
Proof.
  intros (Hwf & Hpage & Hrc0 & Hsk & Hcount) Hrc. unfold max_retries in Hrc.
  destruct r as [|data].
  - unfold try_page. cbn [retry_count set_retry_count all_foods].
    destruct (retry_count st + 1 <? max_retries) eqn:Hn; intros [= <- <-].
    + apply Z.ltb_lt in Hn. unfold max_retries in Hn. split.
      * constructor; [|constructor]. simpl.
        assert (retry_count st = 0 \/ retry_count st = 1) as [-> | ->] by lia; auto.
      * unfold state_ok. simpl. repeat apply conj; auto; lia.
    + split; [constructor|exact Hwf].
  - unfold try_page.
    destruct (negb (String.eqb (default EmptyString (resultCode data)) "00")).
    + destruct (String.eqb (default EmptyString (resultCode data)) "03");
        [|destruct (String.eqb (default EmptyString (resultCode data)) "22")];
        intros [= <- <-].
      * split; [constructor|exact Hwf].
      * split; [constructor; [simpl; auto|constructor]|].
        unfold state_ok. simpl. repeat apply conj; auto; lia.
      * split; [constructor; [simpl; auto|constructor]|].
        unfold state_ok. simpl. repeat apply conj; auto; lia.
    + intros [= <- <-]. split; [constructor|].
      pose proof (process_page_spec include_all st data) as Hpp. cbv zeta in Hpp.
      rewrite Hpp.
      pose proof (scan_items_well_formed include_all (items_list (items data))
                    (skipped_count st)) as Hpf.
      pose proof (scan_items_counts include_all (items_list (items data))
                    (skipped_count st)) as [Hs1 Hs2].
      destruct (negb (list_truthy _) || _).
      * apply Forall_app. auto.
      * unfold state_ok. cbn [all_foods page_no retry_count skipped_count fetched_count].
        repeat split; auto.
        -- apply Forall_app. auto.
        -- lia.
        -- rewrite length_app. lia.
Qed.

Lemma state_ok_reset st : state_ok st -> state_ok (set_retry_count st 0).
Proof. unfold state_ok. simpl. intuition lia. Qed.

Lemma state_ok_next st : state_ok st -> state_ok (set_page_no st (page_no st + 1)).
Proof. unfold state_ok. simpl. intuition lia. Qed.

Lemma state_ok_initial : state_ok initial_state.
Proof. unfold state_ok. simpl. repeat split; auto; lia. Qed.

(** The three invariants of a run of [download_all_foods] at once. *)
Lemma download_all_foods_invariant include_all script :
  Forall known_wait (fst (download_all_foods include_all script))
  /\ match snd (download_all_foods include_all script) with
     | Finished _ foods => Forall well_formed foods
     | Pending st' => state_ok st' /\ retry_count st' < max_retries
     | OutOfFuel => True
     end.
Proof.
  unfold download_all_foods.
  apply (outer_while_invariant include_all state_ok (Forall well_formed) known_wait).
  - intros p. exact I.
  - simpl. auto.
  - apply state_ok_reset.
  - apply state_ok_next.
  - intros st r waits fl. apply try_page_state_ok.
  - apply state_ok_initial.
Qed.

End RunFacts.

(** X8.  Every record that a run of [download_all_foods] returns is well
    formed: it has a food code and a name that are not empty and carry
    no whitespace at either end, whatever the responses were. *)
Theorem run_records_well_formed (include_all : bool) (script : list fetch_result)
    (tr : list event) (why : exit) (foods : list food) :
  download_all_foods include_all script = (tr, Finished why foods) ->
  Forall well_formed foods.
Proof.
  intros H. pose proof (download_all_foods_invariant include_all script) as [_ Hout].
  now rewrite H in Hout.
Qed.

Lemma run_records_well_formed_witness :
  Forall well_formed [sample_food "A1" "Apple" 52 100 "g"].
Proof.
  apply (run_records_well_formed false
           [Returns (ok_page 1000 [sample_item "A1" "Apple" "52" "100.000g"]);
            Returns (code_page "03")]
           [EvFetch 1; EvSleep (FloatSeconds RATE_LIMIT_DELAY); EvFetch 2] DataEnd).
  vm_compute. reflexivity.
Defined.

(** X9.  Whenever a run is about to fetch, its local variables are in
    order: the page number is at least 1, the retry counter is 0, 1 or
    2, the skipped counter is not negative, and the records kept plus
    the items skipped do not outnumber the raw items fetched. *)
Theorem run_pending_state_ok (include_all : bool) (script : list fetch_result)
    (tr : list event) (st : state) :
  download_all_foods include_all script = (tr, Pending st) ->
  1 <= page_no st
  /\ 0 <= retry_count st < max_retries
  /\ 0 <= skipped_count st
  /\ Z.of_nat (length (all_foods st)) + skipped_count st <= fetched_count st.
Proof.
  intros H. pose proof (download_all_foods_invariant include_all script) as [_ Hout].
  rewrite H in Hout. destruct Hout as [(_ & H1 & H2 & H3 & H4) H5]. auto.
Qed.

Lemma run_pending_state_ok_witness :
  1 <= 2 /\ 0 <= 0 < max_retries /\ 0 <= 0 /\ Z.of_nat 1 + 0 <= 1.
Proof.
  apply (run_pending_state_ok false
           [Returns (ok_page 1000 [sample_item "A1" "Apple" "52" "100.000g"])]
           [EvFetch 1; EvSleep (FloatSeconds RATE_LIMIT_DELAY)]
           {| all_foods := [sample_food "A1" "Apple" 52 100 "g"]; page_no := 2;
              total_count := Some 1000; fetched_count := 1; skipped_count := 0;
              retry_count := 0 |}).
  vm_compute. reflexivity.
Defined.


(** X11.  A run never loses a record: from any state, what the run
    returns, and what it holds whenever it is about to fetch, starts
    with the records the state held, in the same order. *)
Theorem run_keeps_records (fuel : nat) (include_all : bool) (st : state)
    (script : list fetch_result) :
  match snd (resume fuel include_all st script) with
  | Finished _ foods => all_foods st `prefix_of` foods
  | Pending st' => all_foods st `prefix_of` all_foods st'
  | OutOfFuel => True
  end.
Proof.
  pose proof (resume_invariant include_all
                (fun st' => all_foods st `prefix_of` all_foods st')
                (fun foods => all_foods st `prefix_of` foods)
                (fun _ => True)) as H.
  destruct (H (fun _ => I) I
              (fun st' Hp => Hp) (fun st' Hp => Hp)) with (fuel := fuel) (st := st)
    (script := script) as [_ Hout].
  - intros st' r waits fl Hp _ Ht. split; [apply Forall_forall; auto|].
    destruct r as [|data]; unfold try_page in Ht.
    + cbn [retry_count set_retry_count all_foods] in Ht.
      destruct (_ <? _); injection Ht as <- <-; exact Hp.
    + destruct (negb _).
      * destruct (String.eqb _ "03"); [|destruct (String.eqb _ "22")];
          injection Ht as <- <-; exact Hp.
      * injection Ht as <- <-.
        pose proof (process_page_spec include_all st' data) as Hpp. cbv zeta in Hpp.
        rewrite Hpp. destruct (negb (list_truthy _) || _); cbn [all_foods];
          now apply prefix_app_r.
  - reflexivity.
  - destruct (snd (resume fuel include_all st script)); tauto.
Qed.

(** ** Runs over a longer script *)

Section RunComposition.
Implicit Types (st : state) (script more : list fetch_result) (fuel : nat).

Lemma inner_while_waiting include_all st script tr st' rest :
  inner_while include_all st script = (tr, Waiting st', rest) ->
  retry_count st' < max_retries /\ rest = [].
Proof.
  revert st tr. induction script as [|r script IH]; intros st tr.
  - simpl. destruct (retry_count st <? max_retries) eqn:Hrc; intros [= <- <- <-].
    split; [now apply Z.ltb_lt|reflexivity].
  - cbn [inner_while]. destruct (retry_count st <? max_retries); [|discriminate].
    destruct (try_page include_all st r) as [waits [st1|st1|why foods]];
      [|discriminate|discriminate].
    destruct (inner_while include_all st1 script) as [[tr1 ex1] rest1] eqn:Hin.
    intros [= <- -> <-]. exact (IH _ _ Hin).
Qed.

(** The inner loop on a longer script, when it had stopped for want of
    an answer: it goes on from where it stopped. *)
Lemma inner_while_app_waiting include_all st script more tr st' rest :
  inner_while include_all st script = (tr, Waiting st', rest) ->
  inner_while include_all st (script ++ more) =
    let '(tr2, ex, rest2) := inner_while include_all st' more in
    (tr ++ tr2, ex, rest2).
Proof.
  revert st tr. induction script as [|r script IH]; intros st tr.
  - simpl. destruct (retry_count st <? max_retries) eqn:Hrc; intros [= <- <- <-].
    destruct (inner_while include_all st more) as [[tr2 ex] rest2]. reflexivity.
  - cbn [inner_while app]. destruct (retry_count st <? max_retries); [|discriminate].
    destruct (try_page include_all st r) as [waits [st1|st1|why foods]];
      [|discriminate|discriminate].
    destruct (inner_while include_all st1 script) as [[tr1 ex1] rest1] eqn:Hin.
    intros [= <- -> <-]. rewrite (IH _ _ Hin).
    destruct (inner_while include_all st' more) as [[tr2 ex] rest2].
    cbn [app]. now rewrite <- app_assoc.
Qed.

(** The inner loop on a longer script, when it had ended otherwise: the
    same, the extra answers unread. *)
Lemma inner_while_app_ended include_all st script more tr ex rest :
  inner_while include_all st script = (tr, ex, rest) ->
  (forall st', ex <> Waiting st') ->
  inner_while include_all st (script ++ more) = (tr, ex, rest ++ more).
Proof.
  revert st tr ex rest. induction script as [|r script IH]; intros st tr ex rest.
  - simpl. destruct (retry_count st <? max_retries) eqn:Hrc; intros [= <- <- <-] Hex.
    + now destruct (Hex st).
    + destruct more; simpl; now rewrite Hrc.
  - cbn [inner_while app]. destruct (retry_count st <? max_retries); [|now intros [= <- <- <-]].
    destruct (try_page include_all st r) as [waits [st1|st1|why foods]].
    + destruct (inner_while include_all st1 script) as [[tr1 ex1] rest1] eqn:Hin.
      intros [= <- <- <-] Hex. now rewrite (IH _ _ _ _ Hin Hex).
    + now intros [= <- <- <-].
    + now intros [= <- <- <-].
Qed.

(** From a state with attempts left, the rest of a run needs no more
    fuel than the script is long. *)
Lemma resume_fuel fuel fuel' include_all st script :
  retry_count st < max_retries ->
  (length script <= fuel)%nat -> (length script <= fuel')%nat ->
  resume fuel include_all st script = resume fuel' include_all st script.
Proof.
  intros Hrc Hf Hf'. unfold resume.
  destruct (inner_while include_all st script) as [[tr ex] rest] eqn:Hin.
  destruct ex as [st'|why foods|st']; [|reflexivity|reflexivity].
  destruct (inner_while_rest _ _ _ _ _ _ Hin) as [_ Hlt].
  specialize (Hlt st' eq_refl Hrc).
  now rewrite (outer_while_fuel fuel fuel') by lia.
Qed.

Lemma outer_while_app_pending fuel include_all st script tr st' :
  outer_while fuel include_all st script = (tr, Pending st') ->
  forall more fuel2, (length script + length more < fuel2)%nat ->
  outer_while fuel2 include_all st (script ++ more) =
    prepend tr (resume (length more) include_all st' more).
Proof.
  revert st script tr. induction fuel as [|fuel IH]; intros st script tr; [discriminate|].
  cbn [outer_while].
  destruct (inner_while include_all (set_retry_count st 0) script)
    as [[tr1 ex] rest] eqn:Hin.
  destruct ex as [st1|why foods|st1].
  - destruct (outer_while fuel include_all (set_page_no st1 (page_no st1 + 1)) rest)
      as [tr3 out] eqn:Hout.
    intros [= <- ->] more fuel2 Hlen.
    destruct fuel2 as [|fuel2]; [lia|]. cbn [outer_while].
    rewrite (inner_while_app_ended _ _ _ more _ _ _ Hin) by discriminate.
    destruct (inner_while_rest _ _ _ _ _ _ Hin) as [_ Hlt].
    specialize (Hlt st1 eq_refl ltac:(reflexivity)).
    rewrite (IH _ _ _ Hout more fuel2) by lia.
    unfold prepend. cbn [fst snd]. now rewrite <- app_assoc.
  - discriminate.
  - intros [= <- <-] more fuel2 Hlen.
    destruct fuel2 as [|fuel2]; [lia|]. cbn [outer_while].
    destruct (inner_while_waiting _ _ _ _ _ _ Hin) as [Hrc _].
    rewrite (inner_while_app_waiting _ _ _ more _ _ _ Hin).
    rewrite (resume_fuel (length more) fuel2 include_all st1 more Hrc) by lia.
    unfold resume, prepend.
    destruct (inner_while include_all st1 more) as [[tr2 ex2] rest2].
    destruct ex2 as [st2|why foods|st2]; cbn [fst snd]; [|reflexivity|reflexivity].
    destruct (outer_while fuel2 include_all _ rest2) as [tr4 out4]. cbn [fst snd].
    now rewrite <- app_assoc.
Qed.

Lemma outer_while_app_finished fuel include_all st script tr why foods :
  outer_while fuel include_all st script = (tr, Finished why foods) ->
  forall more fuel2, (length script + length more < fuel2)%nat ->
  outer_while fuel2 include_all st (script ++ more) = (tr, Finished why foods).
Proof.
  revert st script tr. induction fuel as [|fuel IH]; intros st script tr; [discriminate|].
  cbn [outer_while].
  destruct (inner_while include_all (set_retry_count st 0) script)
    as [[tr1 ex] rest] eqn:Hin.
  destruct ex as [st1|why1 foods1|st1].
  - destruct (outer_while fuel include_all (set_page_no st1 (page_no st1 + 1)) rest)
      as [tr3 out] eqn:Hout.
    intros [= <- ->] more fuel2 Hlen.
    destruct fuel2 as [|fuel2]; [lia|]. cbn [outer_while].
    rewrite (inner_while_app_ended _ _ _ more _ _ _ Hin) by discriminate.
    destruct (inner_while_rest _ _ _ _ _ _ Hin) as [_ Hlt].
    specialize (Hlt st1 eq_refl ltac:(reflexivity)).
    now rewrite (IH _ _ _ Hout more fuel2) by lia.
  - intros [= <- <- <-] more fuel2 Hlen.
    destruct fuel2 as [|fuel2]; [lia|]. cbn [outer_while].
    now rewrite (inner_while_app_ended _ _ _ more _ _ _ Hin) by discriminate.
  - discriminate.
Qed.

End RunComposition.

(** X12.  A run is decided by the answers it reads.  If it returns on a
    script, it returns the same, after the same trace, on every longer
    script: nothing is fetched after the return.  If it is about to
    fetch when the script ends, then on a longer script it does the
    same up to that point and goes on from the state it had reached. *)
Theorem run_extends (include_all : bool) (script more : list fetch_result)
    (tr : list event) (out : outcome) :
  download_all_foods include_all script = (tr, out) ->
  download_all_foods include_all (script ++ more) =
    match out with
    | Finished why foods => (tr, Finished why foods)
    | Pending st => prepend tr (resume (length more) include_all st more)
    | OutOfFuel => download_all_foods include_all (script ++ more)
    end.
Proof.
  intros H. destruct out as [why foods|st|]; [| |reflexivity].
  - apply (outer_while_app_finished _ _ _ _ _ _ _ H). rewrite length_app. lia.
  - apply (outer_while_app_pending _ _ _ _ _ _ H). rewrite length_app. lia.
Qed.

Lemma run_extends_witness :
  download_all_foods false
    ([Returns (ok_page 1000 [sample_item "A1" "Apple" "52" "100.000g"])]
     ++ [Returns (code_page "03")]) =
  prepend [EvFetch 1; EvSleep (FloatSeconds RATE_LIMIT_DELAY)]
    (resume 1 false
       {| all_foods := [sample_food "A1" "Apple" 52 100 "g"]; page_no := 2;
          total_count := Some 1000; fetched_count := 1; skipped_count := 0;
          retry_count := 0 |}
       [Returns (code_page "03")]).
Proof.
  apply (run_extends false
           [Returns (ok_page 1000 [sample_item "A1" "Apple" "52" "100.000g"])]
           [Returns (code_page "03")]
           [EvFetch 1; EvSleep (FloatSeconds RATE_LIMIT_DELAY)]
           (Pending {| all_foods := [sample_food "A1" "Apple" 52 100 "g"]; page_no := 2;
                       total_count := Some 1000; fetched_count := 1; skipped_count := 0;
                       retry_count := 0 |})).
  vm_compute. reflexivity.
Defined.

(** ** The pages a run asks for *)

Section PageFacts.
Implicit Types (st : state) (script : list fetch_result) (fuel : nat).

Lemma fetched_pages_app (tr1 tr2 : list event) :
  fetched_pages (tr1 ++ tr2) = fetched_pages tr1 ++ fetched_pages tr2.
Proof. apply omap_app. Qed.

(** One pass through the [try] statement only waits, and leaves the page
    number as it is; going round again costs one attempt. *)
Lemma try_page_pages include_all st r waits fl :
  try_page include_all st r = (waits, fl) ->
  fetched_pages waits = []
  /\ match fl with
     | Continue st' => page_no st' = page_no st /\ retry_count st' = retry_count st + 1
     | Break st' => page_no st' = page_no st
     | Return _ _ => True
     end.
Proof.
  destruct r as [|data]; unfold try_page.
  - cbn [retry_count set_retry_count all_foods].
    destruct (_ <? _); intros [= <- <-]; simpl; auto.
  - destruct (negb _).
    + destruct (String.eqb _ "03"); [|destruct (String.eqb _ "22")];
        intros [= <- <-]; simpl; auto.
    + intros [= <- <-].
      pose proof (process_page_spec include_all st data) as Hpp. cbv zeta in Hpp.
      rewrite Hpp. destruct (negb (list_truthy _) || _); simpl; auto.
Qed.

(** The inner loop asks for one page only, at most as many times as
    there are attempts left, and at least once unless it stops for want
    of an answer. *)
Lemma inner_while_pages include_all st script tr ex rest :
  0 <= retry_count st < max_retries ->
  inner_while include_all st script = (tr, ex, rest) ->
  exists k : nat,
    fetched_pages tr = replicate k (page_no st)
    /\ Z.of_nat k <= max_retries - retry_count st
    /\ match ex with
       | LoopLeft st' => page_no st' = page_no st /\ (1 <= k)%nat
       | Returned _ _ => (1 <= k)%nat
       | Waiting st' => page_no st' = page_no st
       end.
Proof.
  revert st tr ex rest. induction script as [|r script IH]; intros st tr ex rest Hrc.
  - simpl. destruct (retry_count st <? max_retries) eqn:Hlt; intros [= <- <- <-].
    + exists 0%nat. simpl. repeat split; lia.
    + apply Z.ltb_ge in Hlt. lia.
  - cbn [inner_while]. destruct (retry_count st <? max_retries) eqn:Hlt;
      [|apply Z.ltb_ge in Hlt; lia].
    destruct (try_page include_all st r) as [waits fl] eqn:Ht.
    destruct (try_page_pages _ _ _ _ _ Ht) as [Hw Hfl].
    destruct fl as [st1|st1|why foods].
    + destruct Hfl as [Hp Hr].
      destruct (inner_while include_all st1 script) as [[tr1 ex1] rest1] eqn:Hin.
      intros [= <- <- <-].
      destruct (Z_lt_dec (retry_count st1) max_retries) as [Hlt1|Hge1].
      * destruct (IH st1 _ _ _ ltac:(lia) Hin) as (k & Hk & Hbound & Hex).
        exists (S k). cbn [fetched_pages omap list_omap].
        fold (fetched_pages (waits ++ tr1)).
        rewrite fetched_pages_app, Hw, Hk, Hp. simpl.
        repeat split; [lia|].
        destruct ex1; rewrite <- ?Hp; intuition lia.
      * destruct script as [|r' script']; simpl in Hin;
          (destruct (retry_count st1 <? max_retries) eqn:Hlt1;
           [apply Z.ltb_lt in Hlt1; lia|]);
          injection Hin as <- <- <-;
          exists 1%nat; cbn [fetched_pages omap list_omap];
          fold (fetched_pages (waits ++ []));
          rewrite fetched_pages_app, Hw; simpl;
          (repeat split; [lia| |]; auto; lia).
    + intros [= <- <- <-]. exists 1%nat. cbn [fetched_pages omap list_omap].
      fold (fetched_pages waits). rewrite Hw. simpl. repeat split; auto; lia.
    + intros [= <- <- <-]. exists 1%nat. cbn [fetched_pages omap list_omap].
      fold (fetched_pages waits). rewrite Hw. simpl. repeat split; auto; lia.
Qed.

Lemma outer_while_pages fuel include_all st script :
  exists ks : list nat,
    fetched_pages (fst (outer_while fuel include_all st script)) = blocks (page_no st) ks
    /\ Forall (fun k => (1 <= k <= 3)%nat) ks.
Proof.
  revert st script. induction fuel as [|fuel IH]; intros st script.
  - exists []. split; [reflexivity|constructor].
  - cbn [outer_while].
    destruct (inner_while include_all (set_retry_count st 0) script)
      as [[tr ex] rest] eqn:Hin.
    assert (0 <= retry_count (set_retry_count st 0) < max_retries) as Hrc0
      by (simpl; unfold max_retries; lia).
    destruct (inner_while_pages _ _ _ _ _ _ Hrc0 Hin) as (k & Hk & Hbound & Hex).
    cbn [retry_count set_retry_count page_no] in Hk, Hbound, Hex.
    unfold max_retries in Hbound.
    destruct ex as [st1|why foods|st1].
    + destruct Hex as [Hp Hk1].
      destruct (IH (set_page_no st1 (page_no st1 + 1)) rest) as (ks & Hks & Hall).
      destruct (outer_while fuel include_all _ rest) as [tr' out].
      cbn [fst] in *. exists (k :: ks). split.
      * rewrite fetched_pages_app, Hk. cbn [fetched_pages omap list_omap blocks].
        fold (fetched_pages tr'). rewrite Hks. cbn [page_no set_page_no]. now rewrite Hp.
      * constructor; [lia|exact Hall].
    + exists [k]. cbn [fst blocks]. rewrite app_nil_r. split; [exact Hk|].
      constructor; [lia|constructor].
    + destruct k as [|k].
      * exists []. split; [exact Hk|constructor].
      * exists [S k]. cbn [fst blocks]. rewrite app_nil_r. split; [exact Hk|].
        constructor; [lia|constructor].
Qed.

End PageFacts.

(** X13.  The pages a run asks for are 1, 2, 3 and so on without a gap
    and without going back, each asked one to three times in a row:
    never a fourth request for a page, whatever the failures. *)
Theorem run_pages_in_order (include_all : bool) (script : list fetch_result) :
  exists ks : list nat,
    fetched_pages (fst (download_all_foods include_all script)) = blocks 1 ks
    /\ Forall (fun k => (1 <= k <= 3)%nat) ks.
Proof. apply (outer_while_pages _ include_all initial_state script). Qed.

(** ** Runs against a well-behaved API *)

Section GoodPages.
Implicit Types (st : state) (fuel : nat).

Lemma list_truthy_length {A : Type} (l : list A) :
  l <> [] -> list_truthy l = true /\ 1 <= Z.of_nat (length l).
Proof. destruct l; [congruence|]. simpl. intros _. split; [reflexivity|lia]. Qed.

Lemma outer_while_good include_all (rest : list RawPage) :
  forall (d : RawPage) fuel st (T : Z),
    Forall good_page (d :: rest) ->
    (length (d :: rest) < fuel)%nat ->
    match total_count st with Some t => t | None => default 0 (totalCount d) end = T ->
    T - fetched_count st <= Z.of_nat (length (d :: rest)) ->
    exists tr foods,
      outer_while fuel include_all st (map Returns (d :: rest)) =
        (tr, Finished Complete foods)
      /\ Z.of_nat (length (fetched_pages tr)) <= Z.max 1 (T - fetched_count st).
Proof.
  induction rest as [|d' rest IH]; intros d fuel st T Hgood Hfuel HT Hlen.
  - apply Forall_cons in Hgood as [[Hcode Hitems] _].
    destruct fuel as [|fuel]; [simpl in Hfuel; lia|].
    rewrite outer_while_resume. cbn [map].
    rewrite (resume_cons fuel include_all (set_retry_count st 0) (Returns d) [])
      by reflexivity.
    rewrite (try_page_code include_all _ d "00" Hcode). cbn [String.eqb Ascii.eqb Bool.eqb].
    pose proof (process_page_spec include_all (set_retry_count st 0) d) as Hpp.
    cbv zeta in Hpp. cbn [total_count fetched_count set_retry_count] in Hpp.
    rewrite HT in Hpp. rewrite Hpp.
    destruct (list_truthy_length _ Hitems) as [Htr Hl]. rewrite Htr.
    simpl in Hlen.
    assert ((T <=? fetched_count st + Z.of_nat (length (items_list (items d)))) = true)
      as -> by (apply Z.leb_le; lia).
    simpl. eexists _, _. split; [reflexivity|]. simpl. lia.
  - pose proof Hgood as Hgood'.
    apply Forall_cons in Hgood as [[Hcode Hitems] Hrest].
    destruct fuel as [|fuel]; [simpl in Hfuel; lia|].
    rewrite outer_while_resume. cbn [map].
    rewrite (resume_cons fuel include_all (set_retry_count st 0) (Returns d)
               (Returns d' :: map Returns rest)) by reflexivity.
    rewrite (try_page_code include_all _ d "00" Hcode). cbn [String.eqb Ascii.eqb Bool.eqb].
    pose proof (process_page_spec include_all (set_retry_count st 0) d) as Hpp.
    cbv zeta in Hpp. cbn [total_count fetched_count set_retry_count] in Hpp.
    rewrite HT in Hpp. rewrite Hpp.
    destruct (list_truthy_length _ Hitems) as [Htr Hl]. rewrite Htr.
    cbn [negb orb].
    destruct (T <=? fetched_count st + Z.of_nat (length (items_list (items d)))) eqn:Hle.
    + simpl. eexists _, _. split; [reflexivity|]. simpl. lia.
    + apply Z.leb_gt in Hle.
      match goal with
      | |- context [outer_while fuel include_all ?s ?l] =>
          destruct (IH d' fuel s T Hrest) as (tr' & foods' & Hrun & Hcount)
      end.
      * simpl in Hfuel |- *. lia.
      * reflexivity.
      * cbn [fetched_count set_page_no]. cbn [length] in Hlen |- *. lia.
      * cbn [map] in Hrun. rewrite Hrun.
        eexists _, _. split; [reflexivity|].
        cbn [fetched_count set_page_no] in Hcount.
        unfold prepend. cbn [fst app fetched_pages omap list_omap length].
        fold (fetched_pages tr'). lia.
Qed.

End GoodPages.

(** X14.  Against an API that answers every request with a successful
    page of at least one item, the download ends by itself: given as
    many answers as the total count announced on the first page (one
    when that count is below one), the run returns as completed, after
    at most that many requests. *)
Theorem run_completes_on_good_pages (include_all : bool) (d : RawPage)
    (rest : list RawPage) :
  Forall good_page (d :: rest) ->
  default 0 (totalCount d) <= Z.of_nat (length (d :: rest)) ->
  exists tr foods,
    download_all_foods include_all (map Returns (d :: rest)) =
      (tr, Finished Complete foods)
    /\ Z.of_nat (length (fetched_pages tr)) <= Z.max 1 (default 0 (totalCount d)).
Proof.
  intros Hgood Hlen. unfold download_all_foods.
  destruct (outer_while_good include_all rest d
              (S (length (map Returns (d :: rest)))) initial_state
              (default 0 (totalCount d)) Hgood) as (tr & foods & Hrun & Hcount).
  - rewrite length_map. lia.
  - reflexivity.
  - simpl fetched_count. lia.
  - exists tr, foods. split; [exact Hrun|]. simpl fetched_count in Hcount.
    now rewrite Z.sub_0_r in Hcount.
Qed.

Lemma run_completes_on_good_pages_witness :
  exists tr foods,
    download_all_foods false
      (map Returns [ok_page 2 [sample_item "A1" "Apple" "52" "100.000g"];
                    ok_page 2 [sample_item "B2" "Pear" "40" "1"]]) =
      (tr, Finished Complete foods)
    /\ Z.of_nat (length (fetched_pages tr)) <= Z.max 1 2.
Proof.
  apply (run_completes_on_good_pages false
           (ok_page 2 [sample_item "A1" "Apple" "52" "100.000g"])
           [ok_page 2 [sample_item "B2" "Pear" "40" "1"]]).
  - repeat constructor; discriminate.
  - vm_compute. discriminate.
Defined.

(** ** More on deduplication *)

Section DedupeCompose.
Implicit Types (seen : gset str) (foods : list food) (f : food).

Lemma kept_union (s1 s2 : gset str) f :
  kept (s1 ∪ s2) f =
    kept s2 f && negb (match foodCd f with
                       | Some cd => bool_decide (cd ∈ s1)
                       | None => false
                       end).
Proof.
  unfold kept. destruct (foodCd f) as [cd|]; [|reflexivity].
  destruct (PyStr.nonempty cd); [|reflexivity]. simpl.
  destruct (bool_decide (cd ∈ s2)) eqn:H2; destruct (bool_decide (cd ∈ s1)) eqn:H1; simpl;
    [apply bool_decide_eq_true in H1, H2 | apply bool_decide_eq_true in H2;
      apply bool_decide_eq_false in H1 | apply bool_decide_eq_true in H1;
      apply bool_decide_eq_false in H2 | apply bool_decide_eq_false in H1, H2];
    try (apply negb_false_iff, bool_decide_eq_true; set_solver);
    apply negb_true_iff, bool_decide_eq_false; set_solver.
Qed.

(** Starting the loop with more codes seen is filtering its result. *)
Lemma dedupe_loop_union (s1 s2 : gset str) foods :
  dedupe_loop (s1 ∪ s2) [] foods =
    List.filter (fun f => negb (match foodCd f with
                                | Some cd => bool_decide (cd ∈ s1)
                                | None => false
                                end))
      (dedupe_loop s2 [] foods).
Proof.
  revert s2. induction foods as [|f rest IH]; intros s2; [reflexivity|].
  rewrite !dedupe_loop_step, kept_union.
  destruct (kept s2 f) eqn:Hk; simpl andb; [|apply IH].
  destruct (kept_inv _ _ Hk) as (cd & Hf & Hne & Hns).
  rewrite (seen_after_kept _ _ _ Hk Hf). cbn [List.filter]. rewrite Hf.
  destruct (bool_decide (cd ∈ s1)) eqn:H1; simpl negb; cbv iota.
  - apply bool_decide_eq_true in H1.
    rewrite <- IH. f_equal. set_solver.
  - apply bool_decide_eq_false in H1.
    assert (kept (s1 ∪ s2) f = true) as Hk'.
    { rewrite kept_union, Hk, Hf. simpl.
      apply negb_true_iff, bool_decide_eq_false. exact H1. }
    rewrite (seen_after_kept _ _ _ Hk' Hf). f_equal.
    rewrite <- IH. f_equal. set_solver.
Qed.

Lemma dedupe_loop_sublist seen foods : dedupe_loop seen [] foods `sublist_of` foods.
Proof.
  revert seen. induction foods as [|f rest IH]; intros seen; [constructor|].
  rewrite dedupe_loop_step. destruct (kept seen f).
  - apply sublist_skip, IH.
  - apply sublist_cons, IH.
Qed.

End DedupeCompose.

(** X15.  Deduplication can be done in parts: the result on two lists
    put end to end is the result on the first, followed by the records
    of the result on the second whose code the first list does not
    carry.  The result is always a subsequence of the input. *)
Theorem deduplicate_foods_app (l1 l2 : list food) :
  deduplicate_foods (l1 ++ l2) =
    deduplicate_foods l1 ++
      List.filter (fun f => negb (bool_decide (foodCd f ∈ map foodCd l1)))
        (deduplicate_foods l2)
  /\ deduplicate_foods (l1 ++ l2) `sublist_of` l1 ++ l2.
Proof.
  split; [|apply dedupe_loop_sublist].
  unfold deduplicate_foods. rewrite dedupe_loop_app, dedupe_loop_acc. f_equal.
  replace (seen_after ∅ l1) with (seen_after ∅ l1 ∪ ∅) by set_solver.
  rewrite dedupe_loop_union.
  apply List.filter_ext_in. intros f Hin.
  apply list_elem_of_In, dedupe_loop_elem in Hin as (_ & cd & Hf & Hne & _).
  rewrite Hf. f_equal. apply bool_decide_ext.
  rewrite seen_after_spec, elem_of_empty. intuition.
Qed.

(** ** [main] *)

Section MainFacts.

Lemma deduplicate_foods_head (f : food) (rest : list food) :
  key_truthy (foodCd f) = true ->
  exists more, deduplicate_foods (f :: rest) = f :: more.
Proof.
  intros Hkey. unfold deduplicate_foods. rewrite dedupe_loop_step.
  assert (kept ∅ f = true) as ->; [|eauto].
  unfold kept, key_truthy in *. destruct (foodCd f) as [cd|]; [|discriminate].
  rewrite Hkey. simpl. apply negb_true_iff, bool_decide_eq_false. set_solver.
Qed.

Lemma well_formed_key (f : food) : well_formed f -> key_truthy (foodCd f) = true.
Proof.
  intros ((cd & Hf & Hne & _) & _). rewrite Hf. simpl. now apply nonempty_true.
Qed.

Lemma deduplicate_foods_well_formed (l : list food) :
  Forall well_formed l -> Forall well_formed (deduplicate_foods l).
Proof.
  intros H. apply Forall_forall. intros f Hin.
  apply dedupe_loop_elem in Hin as [Hin _].
  exact (proj1 (Forall_forall _ _) H f Hin).
Qed.

End MainFacts.

(** X16.  When [main] writes its output, the output is never empty and
    is consistent: the version is 1, [totalCount] is the number of
    records and is at least 1, no two records carry the same food code,
    and every record is well formed.  [main] exits with status 1
    exactly when the download returned no record at all. *)
Theorem main_output_sound (now : string) (include_all : bool)
    (script : list fetch_result) (tr : list event) :
  (forall data, Main.main now include_all script = (tr, Main.Dumped data) ->
     Main.version data = 1
     /\ Main.generatedAt data = now
     /\ Main.totalCount data = Z.of_nat (length (Main.foods data))
     /\ 1 <= Main.totalCount data
     /\ NoDup (map foodCd (Main.foods data))
     /\ Forall well_formed (Main.foods data))
  /\ (forall code, Main.main now include_all script = (tr, Main.SysExit code) <->
        code = 1 /\ exists why, download_all_foods include_all script = (tr, Finished why [])).
Proof.
  unfold Main.main.
  pose proof (download_all_foods_invariant include_all script) as [_ Hinv].
  destruct (download_all_foods include_all script) as [tr0 out].
  cbn [snd] in Hinv. split.
  - intros data. destruct out as [why foods|st|]; [|discriminate|discriminate].
    destruct foods as [|f rest]; [discriminate|]. cbn [list_truthy negb].
    intros [= <- <-]. cbn [Main.version Main.generatedAt Main.totalCount Main.foods].
    pose proof (Forall_inv Hinv) as Hf.
    destruct (deduplicate_foods_head f rest (well_formed_key f Hf)) as [more Hmore].
    repeat apply conj; auto.
    + rewrite Hmore. simpl length. lia.
    + apply dedupe_loop_NoDup.
    + now apply deduplicate_foods_well_formed.
  - intros code. destruct out as [why foods|st|].
    + destruct foods as [|f rest]; cbn [list_truthy negb].
      * split.
        -- intros [= <- <-]. split; [reflexivity|]. now exists why.
        -- intros [-> [why' [= <- _]]]. reflexivity.
      * split; [discriminate|]. intros [_ [why' [= _ _]]].
    + split; [discriminate|]. intros [_ [why' [= _]]].
    + split; [discriminate|]. intros [_ [why' [= _]]].
Qed.

Lemma main_output_sound_witness :
  let data :=
    {| Main.version := 1; Main.generatedAt := "2024-01-01T00:00:00+0900";
       Main.totalCount := 1;
       Main.foods := [sample_food "A1" "Apple" 52 100 "g"] |} in
  1 <= Main.totalCount data /\ NoDup (map foodCd (Main.foods data)).
Proof.
  intros data.
  pose proof (proj1 (main_output_sound "2024-01-01T00:00:00+0900" false
                       [Returns (ok_page 1 [sample_item "A1" "Apple" "52" "100.000g"])]
                       [EvFetch 1]) data eq_refl) as H.
  split; [apply H|apply H].
Defined.

(** ** [fetch_page] *)

Section FetchFacts.
Import PyStr.

Lemma lstrip_app_space (ws s : str) :
  all_chars is_space ws = true -> lstrip (ws ++ s) = lstrip s.
Proof. apply lstrip_by_app. Qed.

(** A body whose first character after the whitespace is [<] is taken
    for XML. *)
Lemma looks_like_xml_intro (ws rest : str) :
  all_chars is_space ws = true ->
  looks_like_xml (ws ++ LESS_THAN :: rest) = true.
Proof.
  intros Hws. unfold looks_like_xml, strip_by.
  rewrite (lstrip_app_space ws _ Hws). cbn [lstrip_by].
  change (is_space LESS_THAN) with false. cbv iota.
  destruct (rstrip_head LESS_THAN rest eq_refl) as [r ->]. reflexivity.
Qed.

Lemma fetch_page_refused (json_loads : str -> option RawPage) (reply : http_reply) :
  refused reply = true -> fetch_page json_loads reply = Raises.
Proof.
  destruct reply as [| |raw]; simpl; try reflexivity. now intros ->.
Qed.

Lemma string_length_app (a b : string) :
  String.length (a ++ b) = (String.length a + String.length b)%nat.
Proof.
  induction a as [|c a IH]; [reflexivity|].
  change (S (String.length (a ++ b)) = S (String.length a + String.length b)).
  now rewrite IH.
Qed.

Lemma string_app_inj_l (a x y : string) : (a ++ x = a ++ y)%string -> x = y.
Proof.
  induction a as [|c a IH]; [auto|].
  change (String c (a ++ x) = String c (a ++ y) -> x = y).
  intros [= H]. auto.
Qed.

Lemma string_app_inj_r (b x y : string) : (x ++ b = y ++ b)%string -> x = y.
Proof.
  revert y. induction x as [|c x IH]; intros [|d y] H.
  - reflexivity.
  - apply (f_equal String.length) in H.
    change (String.length b = S (String.length (y ++ b))) in H.
    rewrite string_length_app in H. lia.
  - apply (f_equal String.length) in H.
    change (S (String.length (x ++ b)) = String.length b) in H.
    rewrite string_length_app in H. lia.
  - change (String c (x ++ b) = String d (y ++ b)) in H.
    injection H as -> H. f_equal. now apply IH.
Qed.

Lemma py_str_int_inj (p q : Z) : py_str_int p = py_str_int q -> p = q.
Proof.
  unfold py_str_int. intros H.
  apply (f_equal DecimalString.NilEmpty.int_of_string) in H.
  rewrite !DecimalString.NilEmpty.isi in H. injection H as H.
  apply (f_equal Z.of_int) in H. now rewrite !DecimalZ.of_to in H.
Qed.

End FetchFacts.

(** X17.  Three replies in a row that [fetch_page] refuses on the first
    page (an HTTP or network error, or a body that starts with [<], as
    the gateway sends for a wrong key, also after whitespace) end the
    program: page 1 is asked three times, with waits of 5 and 10
    seconds, no further reply is read, and [main] exits with status 1
    without writing anything. *)
Theorem refused_replies_exit (json_loads : str -> option RawPage) (now : string)
    (include_all : bool) (r1 r2 r3 : http_reply) (more : list http_reply) :
  refused r1 = true -> refused r2 = true -> refused r3 = true ->
  Main.main now include_all (map (fetch_page json_loads) (r1 :: r2 :: r3 :: more)) =
    ([EvFetch 1; EvSleep (IntSeconds 5); EvFetch 1; EvSleep (IntSeconds 10); EvFetch 1],
     Main.SysExit 1)
  /\ forall ws rest : str,
       PyStr.all_chars PyStr.is_space ws = true ->
       refused (Body (ws ++ LESS_THAN :: rest)) = true.
Proof.
  intros H1 H2 H3. split.
  - cbn [map].
    rewrite (fetch_page_refused _ _ H1), (fetch_page_refused _ _ H2),
      (fetch_page_refused _ _ H3).
    reflexivity.
  - intros ws rest Hws. now apply looks_like_xml_intro.
Qed.

Lemma refused_replies_exit_witness :
  Main.main "now" false
    (map (fetch_page (fun _ => None))
       [Body (lit " <OpenAPI_ServiceResponse>"); HTTPError; URLError; Body (lit "{}")]) =
    ([EvFetch 1; EvSleep (IntSeconds 5); EvFetch 1; EvSleep (IntSeconds 10); EvFetch 1],
     Main.SysExit 1).
Proof.
  apply (proj1 (refused_replies_exit (fun _ => None) "now" false
                  (Body (lit " <OpenAPI_ServiceResponse>")) HTTPError URLError [Body (lit "{}")]
                  eq_refl eq_refl eq_refl)).
Defined.

(** X18.  Requests for different pages have different URLs: for a given
    key and page size, the URL built by [fetch_page] determines the
    page number. *)
Theorem fetch_url_page_injective (api_key : string) (num_of_rows p q : Z) :
  fetch_url api_key p num_of_rows = fetch_url api_key q num_of_rows <-> p = q.
Proof.
  split; [|now intros ->].
  unfold fetch_url. intros H.
  apply string_app_inj_l in H. apply string_app_inj_l in H.
  apply string_app_inj_l in H. apply string_app_inj_l in H.
  apply string_app_inj_l in H.
  apply string_app_inj_r in H. now apply py_str_int_inj.
Qed.

(** ** What a run accumulates *)

Section Accumulation.
Implicit Types (st : state) (script : list fetch_result) (fuel : nat).

Lemma try_page_records include_all st r :
  flow_records (snd (try_page include_all st r)) =
    all_foods st ++ page_records include_all r.
Proof.
  destruct r as [|data]; unfold try_page, page_records.
  - cbn [retry_count set_retry_count all_foods].
    destruct (_ <? _); simpl; now rewrite app_nil_r.
  - destruct (String.eqb (default EmptyString (resultCode data)) "00"); cbn [negb].
    + cbn [snd]. pose proof (process_page_spec include_all st data) as Hpp.
      cbv zeta in Hpp. rewrite Hpp, scan_items_acc. cbn [snd app].
      destruct (negb (list_truthy _) || _); reflexivity.
    + destruct (String.eqb _ "03"); [|destruct (String.eqb _ "22")];
        simpl; now rewrite app_nil_r.
Qed.

Lemma inner_while_records include_all st script tr ex rest :
  inner_while include_all st script = (tr, ex, rest) ->
  exists used,
    script = used ++ rest
    /\ length (fetched_pages tr) = length used
    /\ exit_records ex = all_foods st ++ flat_map (page_records include_all) used.
Proof.
  revert st tr ex rest. induction script as [|r script IH]; intros st tr ex rest.
  - simpl. destruct (_ <? _); intros [= <- <- <-]; exists [];
      simpl; now rewrite app_nil_r.
  - cbn [inner_while]. destruct (retry_count st <? max_retries).
    + pose proof (try_page_records include_all st r) as Hrec.
      destruct (try_page include_all st r) as [waits fl] eqn:Ht.
      destruct (try_page_pages _ _ _ _ _ Ht) as [Hw _]. cbn [snd] in Hrec.
      destruct fl as [st1|st1|why foods]; cbn [flow_records] in Hrec.
      * destruct (inner_while include_all st1 script) as [[tr1 ex1] rest1] eqn:Hin.
        intros [= <- <- <-].
        destruct (IH _ _ _ _ Hin) as (used & Hs & Hl & Hr).
        exists (r :: used). cbn [app flat_map length fetched_pages omap list_omap].
        fold (fetched_pages (waits ++ tr1)).
        rewrite fetched_pages_app, Hw. cbn [app length].
        rewrite Hl, Hr, Hrec, <- Hs, app_assoc. auto.
      * intros [= <- <- <-]. exists [r].
        cbn [app flat_map length fetched_pages omap list_omap exit_records].
        fold (fetched_pages waits). rewrite Hw, Hrec, app_nil_r. auto.
      * intros [= <- <- <-]. exists [r].
        cbn [app flat_map length fetched_pages omap list_omap exit_records].
        fold (fetched_pages waits). rewrite Hw, Hrec, app_nil_r. auto.
    + intros [= <- <- <-]. exists []. simpl. now rewrite app_nil_r.
Qed.

Lemma outer_while_records fuel include_all st script :
  exists used unused,
    script = used ++ unused
    /\ length (fetched_pages (fst (outer_while fuel include_all st script))) = length used
    /\ match snd (outer_while fuel include_all st script) with
       | Finished _ foods =>
           foods = all_foods st ++ flat_map (page_records include_all) used
       | Pending st' =>
           all_foods st' = all_foods st ++ flat_map (page_records include_all) used
           /\ unused = []
       | OutOfFuel => True
       end.
Proof.
  revert st script. induction fuel as [|fuel IH]; intros st script.
  - exists [], script. simpl. auto.
  - cbn [outer_while].
    destruct (inner_while include_all (set_retry_count st 0) script)
      as [[tr ex] rest] eqn:Hin.
    destruct (inner_while_records _ _ _ _ _ _ Hin) as (used & Hs & Hl & Hr).
    cbn [all_foods set_retry_count] in Hr.
    destruct ex as [st1|why foods|st1]; cbn [exit_records] in Hr.
    + destruct (IH (set_page_no st1 (page_no st1 + 1)) rest)
        as (used' & unused' & Hs' & Hl' & Hout).
      destruct (outer_while fuel include_all _ rest) as [tr' out]. cbn [fst snd] in *.
      exists (used ++ used'), unused'. repeat apply conj.
      * now rewrite Hs, Hs', app_assoc.
      * rewrite fetched_pages_app. cbn [fetched_pages omap list_omap].
        fold (fetched_pages tr'). rewrite !length_app. lia.
      * cbn [all_foods set_page_no] in Hout. rewrite Hr in Hout.
        rewrite flat_map_app, app_assoc. exact Hout.
    + exists used, rest. cbn [fst snd]. auto.
    + destruct (inner_while_waiting _ _ _ _ _ _ Hin) as [_ ->].
      exists used, []. cbn [fst snd]. auto.
Qed.

End Accumulation.

(** X19.  A run returns exactly the records of the successful pages it
    read, page after page: its script splits into the answers read, as
    many as the requests made, and the answers left, and the records
    returned (or held when the script ends) are the results of
    [parse_food_item] on the selected items of the answers read whose
    code is 00, in order. *)
Theorem run_accumulates_pages (include_all : bool) (script : list fetch_result) :
  exists used unused,
    script = used ++ unused
    /\ length (fetched_pages (fst (download_all_foods include_all script))) = length used
    /\ match snd (download_all_foods include_all script) with
       | Finished _ foods => foods = flat_map (page_records include_all) used
       | Pending st' =>
           all_foods st' = flat_map (page_records include_all) used /\ unused = []
       | OutOfFuel => False
       end.
Proof.
  pose proof (download_all_foods_total include_all script) as Htot.
  unfold download_all_foods in *.
  destruct (outer_while_records (S (length script)) include_all initial_state script)
    as (used & unused & Hs & Hl & Hout).
  exists used, unused. repeat apply conj; auto.
  destruct (snd (outer_while _ _ _ _)); auto.
Qed.

(** ** The filter flag *)

Section FilterFlag.
Implicit Types (st : state) (script : list fetch_result) (fuel : nat).

Lemma selected_records_sublist (l : list RawItem) :
  omap parse_food_item (List.filter (selected false) l)
    `sublist_of` omap parse_food_item (List.filter (selected true) l).
Proof.
  induction l as [|item l IH]; [constructor|].
  cbn [List.filter]. change (selected true item) with true. cbv iota.
  destruct (selected false item); cbn [omap list_omap];
    destruct (parse_food_item item); auto.
  - now apply sublist_skip.
  - now apply sublist_cons.
Qed.

Lemma try_page_flag st1 st2 r :
  same_but_filter st1 st2 ->
  fst (try_page false st1 r) = fst (try_page true st2 r)
  /\ flow_same_but_filter (snd (try_page false st1 r)) (snd (try_page true st2 r)).
Proof.
  intros (Hp & Ht & Hf & Hr & Hs). destruct r as [|data]; unfold try_page.
  - cbn [retry_count set_retry_count all_foods]. rewrite Hr.
    destruct (_ <? _); simpl; unfold same_but_filter; simpl; repeat apply conj; auto.
  - destruct (negb _).
    + destruct (String.eqb _ "03"); [|destruct (String.eqb _ "22")]; simpl;
        unfold same_but_filter; simpl; rewrite ?Hr; repeat apply conj; auto.
    + cbn [fst snd]. split; [reflexivity|].
      pose proof (process_page_spec false st1 data) as H1.
      pose proof (process_page_spec true st2 data) as H2.
      cbv zeta in H1, H2. rewrite H1, H2, !scan_items_acc, Ht, Hf. clear H1 H2.
      cbn [fst snd app].
      assert (all_foods st1 ++
                omap parse_food_item (List.filter (selected false) (items_list (items data)))
              `sublist_of`
              all_foods st2 ++
                omap parse_food_item (List.filter (selected true) (items_list (items data))))
        as Hsub by (apply sublist_app; [exact Hs|apply selected_records_sublist]).
      destruct (negb (list_truthy _) || _); simpl; [auto|].
      unfold same_but_filter; simpl. repeat apply conj; auto.
Qed.

Lemma inner_while_flag st1 st2 script :
  same_but_filter st1 st2 ->
  fst (fst (inner_while false st1 script)) = fst (fst (inner_while true st2 script))
  /\ snd (inner_while false st1 script) = snd (inner_while true st2 script)
  /\ exit_same_but_filter (snd (fst (inner_while false st1 script)))
       (snd (fst (inner_while true st2 script))).
Proof.
  revert st1 st2. induction script as [|r script IH]; intros st1 st2 Hrel.
  - pose proof Hrel as (_ & _ & _ & Hr & _). simpl. rewrite Hr.
    destruct (_ <? _); simpl; auto.
  - pose proof Hrel as (Hp & _ & _ & Hr & _). cbn [inner_while]. rewrite Hr, Hp.
    destruct (retry_count st2 <? max_retries); [|simpl; auto].
    destruct (try_page_flag st1 st2 r Hrel) as [Hw Hfl].
    destruct (try_page false st1 r) as [w1 fl1].
    destruct (try_page true st2 r) as [w2 fl2]. cbn [fst snd] in Hw, Hfl. subst w2.
    destruct fl1 as [s1|s1|y1 f1], fl2 as [s2|s2|y2 f2]; cbn in Hfl; try contradiction.
    + destruct (IH s1 s2 Hfl) as (Htr & Hrest & Hex).
      destruct (inner_while false s1 script) as [[tr1 ex1] rest1].
      destruct (inner_while true s2 script) as [[tr2 ex2] rest2].
      cbn [fst snd] in *. subst. auto.
    + cbn [fst snd]. auto.
    + cbn [fst snd]. auto.
Qed.

Lemma same_but_filter_reset st1 st2 :
  same_but_filter st1 st2 ->
  same_but_filter (set_retry_count st1 0) (set_retry_count st2 0).
Proof. unfold same_but_filter. simpl. intuition. Qed.

Lemma same_but_filter_next st1 st2 :
  same_but_filter st1 st2 ->
  same_but_filter (set_page_no st1 (page_no st1 + 1)) (set_page_no st2 (page_no st2 + 1)).
Proof. unfold same_but_filter. simpl. intuition congruence. Qed.

Lemma outer_while_flag fuel st1 st2 script :
  same_but_filter st1 st2 ->
  fst (outer_while fuel false st1 script) = fst (outer_while fuel true st2 script)
  /\ outcome_same_but_filter (snd (outer_while fuel false st1 script))
       (snd (outer_while fuel true st2 script)).
Proof.
  revert st1 st2 script. induction fuel as [|fuel IH]; intros st1 st2 script Hrel.
  - simpl. auto.
  - cbn [outer_while].
    destruct (inner_while_flag _ _ script (same_but_filter_reset _ _ Hrel))
      as (Htr & Hrest & Hex).
    destruct (inner_while false (set_retry_count st1 0) script) as [[tr1 ex1] rest1].
    destruct (inner_while true (set_retry_count st2 0) script) as [[tr2 ex2] rest2].
    cbn [fst snd] in Htr, Hrest, Hex. subst tr2 rest2.
    destruct ex1 as [s1|y1 f1|s1], ex2 as [s2|y2 f2|s2]; cbn in Hex; try contradiction.
    + destruct (IH _ _ rest1 (same_but_filter_next _ _ Hex)) as [Htr' Hout].
      destruct (outer_while fuel false _ rest1) as [tr1' out1].
      destruct (outer_while fuel true _ rest1) as [tr2' out2].
      cbn [fst snd] in *. subst. auto.
    + cbn [fst snd]. auto.
    + cbn [fst snd]. auto.
Qed.

End FilterFlag.

(** X20.  The filter flag changes which records are kept and nothing
    else: on the same answers, the run with the flag off and the run
    with [include_all] make the same requests and waits and end the same
    way, and the records of the first are among those of the second, in
    the same order. *)
Theorem include_all_only_adds_records (script : list fetch_result) :
  fst (download_all_foods false script) = fst (download_all_foods true script)
  /\ match snd (download_all_foods false script), snd (download_all_foods true script) with
     | Finished w1 f1, Finished w2 f2 => w1 = w2 /\ f1 `sublist_of` f2
     | Pending s1, Pending s2 => same_but_filter s1 s2
     | _, _ => False
     end.
Proof.
  pose proof (download_all_foods_total false script) as Ht.
  unfold download_all_foods in *.
  destruct (outer_while_flag (S (length script)) initial_state initial_state script)
    as [Htr Hout].
  - unfold same_but_filter. simpl. auto.
  - split; [exact Htr|].
    destruct (snd (outer_while _ false _ _)), (snd (outer_while _ true _ _));
      cbn in Hout; auto.
Qed.

(** ** Three failures on a page *)

Lemma try_page_failing (include_all : bool) (st : state) (r : fetch_result) :
  failing r = true ->
  try_page include_all st r =
    match r with
    | Raises =>
        if retry_count st + 1 <? max_retries
        then ([EvSleep (failure_wait (retry_count st + 1) r)],
              Continue (set_retry_count st (retry_count st + 1)))
        else ([], Return RetriesExceeded (all_foods st))
    | Returns _ =>
        ([EvSleep (failure_wait (retry_count st + 1) r)],
         Continue (set_retry_count st (retry_count st + 1)))
    end.
Proof.
  destruct r as [|data]; [reflexivity|]. unfold failing, try_page, failure_wait.
  destruct (String.eqb (default EmptyString (resultCode data)) "00"); [discriminate|].
  destruct (String.eqb (default EmptyString (resultCode data)) "03"); [discriminate|].
  intros _. simpl. destruct (String.eqb _ "22"); reflexivity.
Qed.

(** X21.  Three failing answers in a row on a page use up its attempts,
    whatever their kinds: the page is asked three times, with the wait
    of each failure in between.  When the third failure is an exception
    the run returns the records it had, aborted; when it is an error
    code the run waits once more, leaves the page without its records
    and goes on with the next page. *)
Theorem three_failures_leave_page (fuel : nat) (include_all : bool) (st : state)
    (r1 r2 r3 : fetch_result) (script : list fetch_result) :
  failing r1 = true -> failing r2 = true -> failing r3 = true ->
  outer_while (S fuel) include_all st (r1 :: r2 :: r3 :: script) =
    match r3 with
    | Raises =>
        ([EvFetch (page_no st); EvSleep (failure_wait 1 r1);
          EvFetch (page_no st); EvSleep (failure_wait 2 r2);
          EvFetch (page_no st)],
         Finished RetriesExceeded (all_foods st))
    | Returns _ =>
        prepend
          [EvFetch (page_no st); EvSleep (failure_wait 1 r1);
           EvFetch (page_no st); EvSleep (failure_wait 2 r2);
           EvFetch (page_no st); EvSleep (failure_wait 3 r3);
           EvSleep (FloatSeconds RATE_LIMIT_DELAY)]
          (outer_while fuel include_all
             (set_page_no (set_retry_count st 3) (page_no st + 1)) script)
    end.
Proof.
  intros H1 H2 H3. rewrite outer_while_resume.
  rewrite (resume_cons fuel include_all (set_retry_count st 0) r1) by reflexivity.
  rewrite (try_page_failing include_all _ r1 H1).
  cbn [retry_count set_retry_count page_no all_foods].
  assert (forall (A : Type) (a b : A), (if 0 + 1 <? max_retries then a else b) = a)
    as E1 by reflexivity.
  assert (forall (A : Type) (a b : A), (if 0 + 1 + 1 <? max_retries then a else b) = a)
    as E2 by reflexivity.
  assert (forall (A : Type) (a b : A), (if 0 + 1 + 1 + 1 <? max_retries then a else b) = b)
    as E3 by reflexivity.
  assert (resume fuel include_all (set_retry_count st (0 + 1)) (r2 :: r3 :: script) =
          match r3 with
          | Raises =>
              ([EvFetch (page_no st); EvSleep (failure_wait 2 r2); EvFetch (page_no st)],
               Finished RetriesExceeded (all_foods st))
          | Returns _ =>
              prepend
                [EvFetch (page_no st); EvSleep (failure_wait 2 r2);
                 EvFetch (page_no st); EvSleep (failure_wait 3 r3);
                 EvSleep (FloatSeconds RATE_LIMIT_DELAY)]
                (outer_while fuel include_all
                   (set_page_no (set_retry_count st 3) (page_no st + 1)) script)
          end) as Hrest.
  { rewrite (resume_cons fuel include_all _ r2) by reflexivity.
    rewrite (try_page_failing include_all _ r2 H2).
    cbn [retry_count set_retry_count page_no all_foods].
    assert (resume fuel include_all (set_retry_count st (0 + 1 + 1)) (r3 :: script) =
            match r3 with
            | Raises =>
                ([EvFetch (page_no st)], Finished RetriesExceeded (all_foods st))
            | Returns _ =>
                prepend
                  [EvFetch (page_no st); EvSleep (failure_wait 3 r3);
                   EvSleep (FloatSeconds RATE_LIMIT_DELAY)]
                  (outer_while fuel include_all
                     (set_page_no (set_retry_count st 3) (page_no st + 1)) script)
            end) as Hlast.
    { rewrite (resume_cons fuel include_all _ r3) by reflexivity.
      rewrite (try_page_failing include_all _ r3 H3).
      cbn [retry_count set_retry_count page_no all_foods].
      destruct r3 as [|d3]; [now rewrite E3|].
      rewrite (resume_exhausted fuel include_all _ script) by (simpl; discriminate).
      unfold prepend. cbn [fst snd app]. reflexivity. }
    destruct r2 as [|d2].
    - rewrite E2. change (set_retry_count (set_retry_count st (0 + 1)) (0 + 1 + 1))
        with (set_retry_count st (0 + 1 + 1)).
      rewrite Hlast. destruct r3; reflexivity.
    - change (set_retry_count (set_retry_count st (0 + 1)) (0 + 1 + 1))
        with (set_retry_count st (0 + 1 + 1)).
      rewrite Hlast. destruct r3; reflexivity. }
  destruct r1 as [|d1].
  - rewrite E1. change (set_retry_count (set_retry_count st 0) (0 + 1))
      with (set_retry_count st (0 + 1)).
    rewrite Hrest. destruct r3; reflexivity.
  - change (set_retry_count (set_retry_count st 0) (0 + 1))
      with (set_retry_count st (0 + 1)).
    rewrite Hrest. destruct r3; reflexivity.
Qed.

Lemma three_failures_leave_page_witness :
  outer_while 2 false initial_state
    [Returns (code_page "22"); Raises; Returns (code_page "99")] =
    ([EvFetch 1; EvSleep (IntSeconds 60); EvFetch 1; EvSleep (IntSeconds 10);
      EvFetch 1; EvSleep (IntSeconds 5); EvSleep (FloatSeconds RATE_LIMIT_DELAY)],
     Pending (set_page_no initial_state 2)).
Proof.
  apply (three_failures_leave_page 1 false initial_state
           (Returns (code_page "22")) Raises (Returns (code_page "99")) []);
    reflexivity.
Defined.
